(* ===== verification/_CoqProject ===== *)
-Q . S2P
Prelude.v
NumberFormat.v
Json.v
Effects.v
KeySkills.v
Digest.v
SkillRank.v
Handlers.v
Chart.v
Router.v
Concurrency.v
Bootstrap.v
