(* ===== verification/Prelude.v ===== *)
(** * Verification of HeraldBot (Herald0/TGbot_HH)

    HeraldBot is a Telegram bot written with aiogram 3.  All of its
    behaviour is in [src/HeraldBot/app/handlers.py]; the entry point
    [src/HeraldBot/HeraldBot.py] only builds the [Bot] and the
    [Dispatcher] and starts polling.

    ** The program and how its parts interact

    - [get_key_skills] (DetailFetcher): one GET of
      [https://api.hh.ru/vacancies/<id>], returns the list of
      [key_skill['name']] when the JSON body has a ["key_skills"] key and
      [None] otherwise.
    - [asyncio.gather] over those tasks (ConcurrentFanOut): results in the
      order of the tasks, the first exception to complete is re-raised.
    - [number_format]: ['{:,}'.format(n).replace(',', ' ')].
    - [cmd_job] (SearchClient + DigestFormatter): search request, fan-out,
      one text block per vacancy, pages of less than 4096 characters sent
      with [message.answer].
    - [cmd_enter_count] (SkillFrequencyRanker + ChartRenderer): search with
      100 results, fan-out, a tally of the skill names in an insertion
      ordered dict, a stable sort by count (descending), the first 10,
      a pie chart saved to the shared path [img/diagram.png].
    - [cmd_start], [cmd_enter_keyword_1], [cmd_enter_keyword_2],
      [cmd_enter_city], [cmd_weather]: the conversation (aiogram FSM
      states [Job.keyword_1], [Job.keyword_2], [Weather.city]) and the
      weather lookup.

    ** Files, in dependency order

    - [Prelude] (this file): Python [str] values as lists of code points,
      UTF-8 literals, [str.join], repetition, the notation scope
      [py_scope], the hint databases [herald] and [herald_rw], the tactic
      [inv] and shared list lemmas.
    - [NumberFormat] (Module [Fmt]): [str(int)] through [Z.to_int],
      ['{:,}'.format] as a grouping of the reversed digits, and
      [number_format] (lines 33-34).
    - [Json] (Module [Py]): JSON values as returned by [response.json()],
      the exceptions ([KeyError], [TypeError], ...), a result type with
      [let?], and the Python operations the handlers apply to JSON
      (subscript, [in], iteration, truthiness, [repr], [str()]), each with
      the exception Python raises.
    - [Effects] (Module [Eff]): the effect monad [M] of a handler: a
      [world] fixes the answer to every GET and the order in which
      gathered tasks complete; a run returns the events in order (GET,
      [message.answer], chart saved, photo sent) and the outcome.
      [gather] is [asyncio.gather] without [return_exceptions].
    - [KeySkills] (Module [Fetch]): [get_key_skills] (lines 25-30) and the
      task loop with its gather (lines 68-75 and 178-184).
    - [Digest] (Module [Digest]): the block of one vacancy (lines 78-103),
      the pagination loop of [cmd_job] (lines 77-116) as a loop in [M]
      ([digest_loop], [send_digest]) and as a pure function of the blocks
      ([paginate], [digest_pages]), with the lemma that the loop sends
      exactly [digest_pages].
    - [SkillRank] (Module [Rank]): the tally of [cmd_enter_count] (lines
      186-195) on an insertion-ordered association list with Python key
      equality ([True == 1]) and hashability, the stable descending sort
      and the first ten (lines 197-203), and the reference
      [frequency_table].
    - [Handlers] (Module [Handlers]): the search request (lines 59-67),
      [cmd_job] and [cmd_enter_count] once their keyword is read.
    - [Chart] (Module [Chart]): what [plt.pie(values, labels=labels,
      autopct='%1.1f%%')] (line 203) prints on each wedge.  Binary
      floats [m * 2^e] with IEEE 754 rounding to nearest, ties to even,
      at 24 bits (float32) or 53 bits (float64) ([round_to]), on [Q];
      matplotlib's [x = np.asarray(x, np.float32)], [x.sum()], [x / sx]
      and [100. * frac] (float64 under numpy 1, float32 under numpy 2,
      the [numpy_version] parameter), and ['%1.1f'] of the exact binary
      value ([tenths], [format_pct]).
    - [Router] (Module [Router]): aiogram's dispatch (first handler in
      registration order whose filters pass; [Command] on
      [message.text or message.caption]), the FSM storage per (chat,
      user) as the typeclass [Storage] with its laws and the stdpp [gmap]
      instance [memory_storage], the FSM calls of each handler (one
      definition per handler, [cmd_enter_keyword_1], [cmd_job_fsm],
      [cmd_enter_city], [cmd_weather_fsm], [cmd_enter_keyword_2],
      [cmd_enter_count_fsm], called by [fsm_step]; [read_field]),
      [cmd_start], [cmd_weather], and
      [perform], which runs the rest of a handler in [M].
    - [Concurrency] (Module [Conc]): handler runs interleaved on the
      asyncio loop that [dp.start_polling] drives.  Each run is the list
      of events of its run in [M]; a schedule picks the run that performs
      its next event.  The shared state is pyplot's figure and the files:
      [SaveChart] is [plt.pie]; [plt.savefig]; [plt.clf()] (lines 203-205,
      no await between them, so one atomic step), and [AnswerPhoto] reads
      the file when the photo is sent (lines 207-208).
    - [Bootstrap] (Module [Boot]): [HeraldBot.py]: [load_dotenv()], the
      token read with [os.getenv] and checked by [Bot(...)] (aiogram's
      [validate_token]), the dispatcher with the router of [handlers.py],
      polling as the updates dispatched in order by [Router.handle] on
      [memory_storage], and the exit on Ctrl-C ([program]).

    ** What the theorems show

    - Handlers: the events of [cmd_job] on a successful run (search GET,
      one GET per vacancy in order, the digest pages), on a failed detail
      request (abort, no page), on a search error (['Ошибка'] then
      [KeyError]) and without results; the chart of [cmd_enter_count].
    - Digest: the pages are consecutive runs of whole blocks; when each
      block is shorter than 4096 characters every message [cmd_job] sends
      is non-empty and shorter than 4096, but an oversized first block
      makes the first message empty; a vacancy that cannot be rendered
      aborts the digest after the full pages were sent; the salary line
      cases.
    - KeySkills: the gathered list is in vacancy order whatever the
      completion order, and one failure makes the gather raise.
    - SkillRank: the tally equals [frequency_table], and looking a name
      up in it gives the number of names [==] to it; an unhashable name
      raises [TypeError]; [sort_desc] is a stable descending permutation;
      the chart holds exactly [min(10, n)] of the [n] skills, none left
      out more frequent than one shown.
    - NumberFormat: [number_format z] is the digits of [str(z)] cut into
      groups of three from the right and joined by single spaces (and a
      ['-'] before a negative number).
    - Chart: rounding to [p] bits is off by at most [x * 2^-p] and keeps
      integers of at most [p] bits; the float32 sum of counts below [2^24]
      is exact, so each wedge's percentage depends only on its share; the
      printed percentage is within [0.05 + 2^-16] points of the exact
      share under both numpy versions; one skill prints ["100.0%"]; the
      shares 0.05% and 99.95% print ["0.1%"] and ["99.9%"], the last
      digit at a tie being decided by the float32 error of the share.
    - Router: the two-step [/job] conversation; [/weather] during a
      prompt depends on the registration order; by rule induction on
      [reachable], no keyword or city stays in the storage; a handler
      that has read its field leaves the pair without state or data;
      the answers of [cmd_weather]; a textless keyword searches ["None"];
      [/job] and the next message of the pair run exactly
      [Handlers.job_digest] for that message.  These are proved for every
      storage that satisfies [StorageLaws].
    - Concurrency: under every schedule the figure is empty between
      events and each photo is the chart last saved to its path (a
      refinement of the specification [deliveries]); runs that do not
      overlap each receive their own chart; any two successful runs of
      [cmd_enter_count] can be interleaved so that the first chat receives
      the second run's chart.
    - Bootstrap has no theorem of its own: [program] composes
      [validate_token], [polling] and the Ctrl-C exit, and the dispatch
      of each update is the subject of the Router theorems.

    Each theorem with hypotheses has a witness lemma that applies it to
    concrete data, evaluated by [vm_compute].

    ** Bounds and fuel

    No definition uses fuel: every loop of the source runs over a finite
    list ([for vacancy in vacancies], the gather's tasks, the tally and
    the sort) and is a structural [Fixpoint] or a [fold_left].  The
    interleaved runs of [Concurrency] replay finite event lists under a
    given schedule; the polling loop itself never ends and is modelled
    by the finite list of updates received before Ctrl-C.  Integers
    are Python [int]s, unbounded, modelled as [Z]; the only bound of the
    program is Telegram's 4096 characters, [Digest.max_message].  The
    chart theorems assume the counts of the ten skills shown add up to
    less than [2^24], the integers float32 holds exactly: the counts come
    from the key skills of at most 100 vacancies, far below that.  Floats have no exponent
    range: shares and percentages of a pie are far from overflow and from
    the subnormals.

    ** Not modelled

    - JSON floats (a salary or a temperature given as a float): numbers
      are integers.
    - The pixels of the pie: wedge angles, colours and where the texts
      are placed.  What the texts say (labels and percentages) is
      modelled.  numpy adds the float32 counts in pairwise order;
      [Chart.np_sum] adds them in list order, which gives the same exact
      sum on the counts the theorems consider.
    - Tasks left running after [asyncio.gather] raises.  Interleaving
      is modelled at the granularity of events: the GETs of one gather
      are performed in task order by the run that started them.
    - In [HeraldBot.py], reading [.env] from disk and the network side of
      polling (getUpdates): the environment, [.env] and the updates are
      inputs of [Boot.program]; [str.isdigit] in the token check is
      modelled on the ASCII digits.  How Ctrl-C ends the script depends
      on the platform ([Boot.on_ctrl_c]): on Unix aiogram's
      [start_polling] catches SIGINT and returns, so ['Exit'] is printed
      on Windows only.
    - aiohttp sessions: a GET is an event and its outcome is given by the
      [world].

    ** Modelling choices

    - A Python [str] is a [list Z] of Unicode code points; [len] is
      [length].  Literals of the source are written [⟪"..."⟫], which
      decodes the UTF-8 bytes of the Rocq string literal.
*)

From Stdlib Require Import String.
From Stdlib Require Import List ZArith Ascii Lia Bool.
Import ListNotations.
Open Scope bool_scope.

(** ** Python strings *)

(** A Python [str]: the sequence of its code points. *)
Definition text := list Z.

Definition byte_of (a : ascii) : Z := Z.of_N (N_of_ascii a).

(** Decoding of the UTF-8 bytes of a Rocq string literal (one, two and
    three byte sequences; an invalid lead byte stands for itself). *)
Fixpoint utf8_decode (bs : list ascii) : text :=
  match bs with
  | [] => []
  | b1 :: rest =>
    let c1 := byte_of b1 in
    if (c1 <? 128)%Z then c1 :: utf8_decode rest
    else if (192 <=? c1)%Z && (c1 <? 224)%Z then
      match rest with
      | b2 :: rest' =>
          (Z.land c1 31 * 64 + Z.land (byte_of b2) 63)%Z :: utf8_decode rest'
      | [] => [c1]
      end
    else if (224 <=? c1)%Z && (c1 <? 240)%Z then
      match rest with
      | b2 :: b3 :: rest' =>
          (Z.land c1 15 * 4096 + Z.land (byte_of b2) 63 * 64
           + Z.land (byte_of b3) 63)%Z :: utf8_decode rest'
      | _ => c1 :: utf8_decode rest
      end
    else c1 :: utf8_decode rest
  end.

Definition u (s : String.string) : text := utf8_decode (String.list_ascii_of_string s).

Declare Scope py_scope.
Delimit Scope py_scope with py.
Notation "⟪ s ⟫" := (u s%string) (at level 0, format "⟪ s ⟫") : py_scope.
Open Scope py_scope.

(** Python string equality ([==] on two [str]). *)
Definition text_eqb (a b : text) : bool :=
  if list_eq_dec Z.eq_dec a b then true else false.

(** [c * n] for a one-character string [c]. *)
Definition py_repeat (c : text) (n : nat) : text := concat (repeat c n).

(** [sep.join(items)] on a list of [str]. *)
Fixpoint py_join (sep : text) (items : list text) : text :=
  match items with
  | [] => []
  | [x] => x
  | x :: rest => x ++ sep ++ py_join sep rest
  end.

(** ** Automation *)

Create HintDb herald discriminated.
Create Rewrite HintDb herald_rw.

Ltac inv H := inversion H; subst; clear H.

(** ** Shared lemmas *)

Lemma text_eqb_spec (a b : text) : reflect (a = b) (text_eqb a b).
Proof. unfold text_eqb. destruct (list_eq_dec Z.eq_dec a b); constructor; auto. Qed.

Lemma text_eqb_refl (a : text) : text_eqb a a = true.
Proof. destruct (text_eqb_spec a a); congruence. Qed.

Lemma length_py_repeat (c : text) (n : nat) :
  length (py_repeat c n) = (n * length c)%nat.
Proof.
  unfold py_repeat. induction n as [|n IH]; simpl; [reflexivity|].
  rewrite length_app, IH. reflexivity.
Qed.

Lemma filter_none {A} (f : A -> bool) (l : list A) :
  (forall y, In y l -> f y = false) -> filter f l = [].
Proof.
  induction l as [|x l IH]; simpl; intros H; [reflexivity|].
  rewrite (H x (or_introl eq_refl)). apply IH. intros y Hy. apply H. right. exact Hy.
Qed.

#[export] Hint Rewrite length_app length_py_repeat : herald_rw.
#[export] Hint Resolve text_eqb_refl : herald.
