(* ===== verification/NumberFormat.v ===== *)
(** * Integer rendering: [str(n)] and [number_format]

    [number_format] (handlers.py, lines 33-34) is
    ['{:,}'.format(number).replace(',', ' ')]: the decimal digits of an
    integer, grouped by three from the right with [','], and every [',']
    then replaced by an ordinary space.  Python's [str] on an [int], used
    by the f-strings of the handlers, is the same rendering without the
    grouping.  Digits come from the Standard Library's [Decimal]
    representation ([Z.to_int]), which is canonical (no leading zero). *)

From Stdlib Require Import List ZArith Lia Bool.
From Stdlib Require Import DecimalZ DecimalPos.
From S2P Require Import Prelude.
Import ListNotations.
Local Open Scope Z_scope.

Module Fmt.

(** ** Decimal digits *)

(** The characters of the digits of a [Decimal.uint], most significant
    first ([48] is ['0']). *)
Fixpoint uint_text (d : Decimal.uint) : text :=
  match d with
  | Decimal.Nil => []
  | Decimal.D0 d => 48 :: uint_text d
  | Decimal.D1 d => 49 :: uint_text d
  | Decimal.D2 d => 50 :: uint_text d
  | Decimal.D3 d => 51 :: uint_text d
  | Decimal.D4 d => 52 :: uint_text d
  | Decimal.D5 d => 53 :: uint_text d
  | Decimal.D6 d => 54 :: uint_text d
  | Decimal.D7 d => 55 :: uint_text d
  | Decimal.D8 d => 56 :: uint_text d
  | Decimal.D9 d => 57 :: uint_text d
  end.

(** [str(n)] for a Python [int]: an optional ['-'] (45) and the digits. *)
Definition py_str_int (z : Z) : text :=
  match Z.to_int z with
  | Decimal.Pos d => uint_text d
  | Decimal.Neg d => 45 :: uint_text d
  end.

(** [int(s)] restricted to what [str] produces: an optional ['-'] and
    decimal digits. *)
Fixpoint text_uint (s : text) : option Decimal.uint :=
  match s with
  | [] => Some Decimal.Nil
  | c :: rest =>
      match text_uint rest with
      | None => None
      | Some d =>
          if c =? 48 then Some (Decimal.D0 d) else if c =? 49 then Some (Decimal.D1 d)
          else if c =? 50 then Some (Decimal.D2 d) else if c =? 51 then Some (Decimal.D3 d)
          else if c =? 52 then Some (Decimal.D4 d) else if c =? 53 then Some (Decimal.D5 d)
          else if c =? 54 then Some (Decimal.D6 d) else if c =? 55 then Some (Decimal.D7 d)
          else if c =? 56 then Some (Decimal.D8 d) else if c =? 57 then Some (Decimal.D9 d)
          else None
      end
  end.

Definition py_int (s : text) : option Z :=
  match s with
  | 45 :: ds => option_map (fun d => Z.of_int (Decimal.Neg d)) (text_uint ds)
  | ds => option_map (fun d => Z.of_int (Decimal.Pos d)) (text_uint ds)
  end.

(** ** Grouping by thousands *)

(** On the digits in reverse order: a [','] (44) after every third digit
    that is followed by another digit. *)
Fixpoint group_rev (ds : text) : text :=
  match ds with
  | a :: b :: c :: ((_ :: _) as rest) => a :: b :: c :: 44 :: group_rev rest
  | _ => ds
  end.

Definition group_thousands (ds : text) : text := rev (group_rev (rev ds)).

(** ['{:,}'.format(n)] for a Python [int]. *)
Definition format_thousands (z : Z) : text :=
  match Z.to_int z with
  | Decimal.Pos d => group_thousands (uint_text d)
  | Decimal.Neg d => 45 :: group_thousands (uint_text d)
  end.

(** [s.replace(old, new)] for one-character [old] and [new]. *)
Definition py_replace_char (old new : Z) (s : text) : text :=
  map (fun c => if c =? old then new else c) s.

(** [number_format] (handlers.py, lines 33-34). *)
Definition number_format (z : Z) : text :=
  py_replace_char 44 32 (format_thousands z).

(** ** Properties *)

Definition is_digit (c : Z) : bool := (48 <=? c) && (c <=? 57).

(** Python's [str.replace(',', ' ')] followed by removing the spaces
    recovers the digits: [remove_char c s] is [s] without any [c]. *)
Definition remove_char (c : Z) (s : text) : text := filter (fun x => negb (x =? c)) s.

Lemma uint_text_digits d : forallb is_digit (uint_text d) = true.
Proof. induction d; simpl; rewrite ?IHd; reflexivity. Qed.

Lemma text_uint_uint_text d : text_uint (uint_text d) = Some d.
Proof. induction d; simpl; rewrite ?IHd; reflexivity. Qed.

Lemma remove_char_app c s1 s2 :
  remove_char c (s1 ++ s2) = remove_char c s1 ++ remove_char c s2.
Proof. apply filter_app. Qed.

Lemma remove_char_rev c s : remove_char c (rev s) = rev (remove_char c s).
Proof.
  induction s as [|x s IH]; simpl; [reflexivity|].
  rewrite remove_char_app, IH. unfold remove_char at 2; simpl.
  destruct (x =? c); simpl; rewrite ?app_nil_r; reflexivity.
Qed.

Lemma remove_char_digits c s :
  (c < 48 \/ 57 < c) -> forallb is_digit s = true -> remove_char c s = s.
Proof.
  intros Hc. induction s as [|x s IH]; simpl; [reflexivity|].
  unfold is_digit. intros [[H1 H2]%andb_true_iff Hs]%andb_true_iff.
  apply Z.leb_le in H1. apply Z.leb_le in H2.
  destruct (Z.eqb_spec x c); [lia|]. simpl. f_equal. auto.
Qed.

Lemma digits_or_sep s :
  forallb is_digit s = true -> forallb (fun c => is_digit c || (c =? 44)) s = true.
Proof.
  induction s as [|x s IH]; simpl; [reflexivity|].
  intros [-> Hs]%andb_true_iff. simpl. exact (IH Hs).
Qed.

(** The induction principle that follows [group_rev]'s recursion. *)
Lemma group_rev_rect (P : list Z -> Prop) :
  P [] -> (forall a, P [a]) -> (forall a b, P [a; b]) -> (forall a b c, P [a; b; c]) ->
  (forall a b c tl, tl <> [] -> P tl -> P (a :: b :: c :: tl)) ->
  forall ds, P ds.
Proof.
  intros H0 H1 H2 H3 H4. fix F 1. intros ds.
  destruct ds as [|a [|b [|c tl]]]; [exact H0 | apply H1 | apply H2 |].
  destruct tl as [|d rest] eqn:E; [apply H3|].
  apply H4; [discriminate|]. rewrite <- E. apply F.
Qed.

Lemma group_rev_cons3 a b c tl :
  tl <> [] -> group_rev (a :: b :: c :: tl) = a :: b :: c :: 44 :: group_rev tl.
Proof. destruct tl; [congruence | reflexivity]. Qed.

Lemma digit_not_sep c : is_digit c = true -> (c =? 44) = false.
Proof. unfold is_digit. intros [H1 H2]%andb_true_iff. apply Z.leb_le in H1. apply Z.eqb_neq. lia. Qed.

(** Every character of [group_rev ds] is a digit of [ds] or the
    separator, and removing the separators gives [ds] back. *)
Lemma group_rev_spec ds :
  forallb is_digit ds = true ->
  forallb (fun c => is_digit c || (c =? 44)) (group_rev ds) = true /\
  remove_char 44 (group_rev ds) = ds.
Proof.
  induction ds as [| a | a b | a b c | a b c tl Htl IH] using group_rev_rect;
    intros Hd; try solve [split; [apply digits_or_sep; exact Hd
                                 | apply remove_char_digits; [lia | exact Hd]]].
  simpl in Hd. apply andb_true_iff in Hd as [Ha Hd]. apply andb_true_iff in Hd as [Hb Hd].
  apply andb_true_iff in Hd as [Hc Hd].
  destruct (IH Hd) as [IH1 IH2]. rewrite group_rev_cons3 by exact Htl. split.
  - simpl. rewrite Ha, Hb, Hc. exact IH1.
  - unfold remove_char in *. simpl.
    rewrite (digit_not_sep a Ha), (digit_not_sep b Hb), (digit_not_sep c Hc), IH2.
    reflexivity.
Qed.
Lemma forallb_rev {A} (f : A -> bool) l : forallb f (rev l) = forallb f l.
Proof.
  induction l as [|x l IH]; simpl; [reflexivity|].
  rewrite forallb_app, IH. simpl. rewrite andb_true_r, andb_comm. reflexivity.
Qed.

(** On digits and commas, removing the spaces after [.replace(',', ' ')]
    is removing the commas. *)
Lemma remove_space_replace l :
  forallb (fun c => is_digit c || (c =? 44)) l = true ->
  remove_char 32 (py_replace_char 44 32 l) = remove_char 44 l.
Proof.
  induction l as [|x l IH]; simpl; [reflexivity|].
  intros [Hx Hl]%andb_true_iff. unfold remove_char in *. simpl.
  destruct (Z.eqb_spec x 44) as [->|Hne]; simpl; [exact (IH Hl)|].
  rewrite orb_false_r in Hx. unfold is_digit in Hx.
  apply andb_true_iff in Hx as [H1 _]. apply Z.leb_le in H1.
  destruct (Z.eqb_spec x 32); [lia|]. simpl. f_equal. exact (IH Hl).
Qed.

Lemma group_thousands_spec ds :
  forallb is_digit ds = true ->
  forallb (fun c => is_digit c || (c =? 44)) (group_thousands ds) = true /\
  remove_char 44 (group_thousands ds) = ds.
Proof.
  intros Hd. rewrite <- forallb_rev in Hd. destruct (group_rev_spec _ Hd) as [H1 H2].
  unfold group_thousands. rewrite forallb_rev, remove_char_rev, H2, rev_involutive.
  split; [exact H1 | reflexivity].
Qed.

Lemma py_int_uint_text d : py_int (uint_text d) = Some (Z.of_int (Decimal.Pos d)).
Proof. destruct d; simpl; rewrite ?text_uint_uint_text; reflexivity. Qed.

Lemma py_int_neg_uint_text d : py_int (45 :: uint_text d) = Some (Z.of_int (Decimal.Neg d)).
Proof. simpl. rewrite text_uint_uint_text. reflexivity. Qed.

(** Python's [int] reads back what [str] writes. *)
Theorem py_int_py_str_int z : py_int (py_str_int z) = Some z.
Proof.
  rewrite <- (DecimalZ.of_to z) at 2. unfold py_str_int.
  destruct (Z.to_int z); [apply py_int_uint_text | apply py_int_neg_uint_text].
Qed.

(** [number_format] only inserts separators: removing the spaces of
    [number_format z] gives [str(z)]. *)
Theorem number_format_digits z : remove_char 32 (number_format z) = py_str_int z.
Proof.
  unfold number_format, format_thousands, py_str_int.
  destruct (Z.to_int z) as [d|d];
    destruct (group_thousands_spec (uint_text d) (uint_text_digits d)) as [H1 H2].
  - rewrite remove_space_replace by exact H1. exact H2.
  - change (remove_char 32 (py_replace_char 44 32 (45 :: group_thousands (uint_text d))))
      with (45 :: remove_char 32 (py_replace_char 44 32 (group_thousands (uint_text d)))).
    rewrite remove_space_replace by exact H1. rewrite H2. reflexivity.
Qed.

(** The separators [group_rev] inserts: the reversed digits cut into
    groups of three, the last one of one to three digits. *)
Lemma group_rev_chunks l :
  l <> [] ->
  exists h ts, group_rev l = concat (map (fun t => t ++ [44]) ts) ++ h /\
    (1 <= length h <= 3)%nat /\ Forall (fun t => length t = 3%nat) ts /\ concat ts ++ h = l.
Proof.
  induction l as [| a | a b | a b c | a b c tl Htl IH] using group_rev_rect; intros Hl.
  - congruence.
  - exists [a], []. repeat split; simpl; auto.
  - exists [a; b], []. repeat split; simpl; auto.
  - exists [a; b; c], []. repeat split; simpl; auto.
  - destruct (IH Htl) as (h & ts & E & Hh & Hts & Hc). exists h, ([a; b; c] :: ts).
    rewrite group_rev_cons3 by exact Htl.
    split; [rewrite E; reflexivity|]. split; [exact Hh|].
    split; [constructor; [reflexivity | exact Hts]|]. simpl. rewrite Hc. reflexivity.
Qed.

Lemma rev_concat_map {A} (f : list A -> list A) (ts : list (list A)) :
  rev (concat (map f ts)) = concat (map (fun t => rev (f t)) (rev ts)).
Proof.
  induction ts as [|t ts IH]; simpl; [reflexivity|].
  rewrite rev_app_distr, IH, map_app, concat_app. simpl. rewrite app_nil_r. reflexivity.
Qed.

Lemma py_replace_char_digits s : forallb is_digit s = true -> py_replace_char 44 32 s = s.
Proof.
  induction s as [|x s IH]; simpl; [reflexivity|].
  intros [Hx Hs]%andb_true_iff. rewrite (digit_not_sep x Hx), (IH Hs). reflexivity.
Qed.

Lemma py_replace_char_app s1 s2 :
  py_replace_char 44 32 (s1 ++ s2) = py_replace_char 44 32 s1 ++ py_replace_char 44 32 s2.
Proof. apply map_app. Qed.

Lemma uint_text_nonempty z d : z <> 0 -> Z.to_int z = Decimal.Pos d -> uint_text d <> [].
Proof.
  intros Hz Hd E. pose proof (py_int_py_str_int z) as H. unfold py_str_int in H.
  rewrite Hd, E in H. cbn in H. inv H. lia.
Qed.

(** The digits of [z >= 0] grouped by three from the right, one space
    between groups. *)
Lemma number_format_nonneg z :
  0 <= z ->
  exists g0 gs, number_format z = g0 ++ concat (map (fun g => 32 :: g) gs) /\
    (1 <= length g0 <= 3)%nat /\ Forall (fun g => length g = 3%nat) gs /\
    g0 ++ concat gs = py_str_int z.
Proof.
  intros Hz. unfold number_format, format_thousands, py_str_int.
  destruct (Z.to_int z) as [d|d] eqn:Ed.
  2: { destruct z; discriminate || lia. }
  assert (Hne : uint_text d <> []).
  { destruct (Z.eq_dec z 0) as [->|Hz0]; [inv Ed; discriminate|].
    exact (uint_text_nonempty z d Hz0 Ed). }
  pose proof (uint_text_digits d) as Hdig.
  destruct (group_rev_chunks (rev (uint_text d))) as (h & ts & E & Hh & Hts & Hc).
  { intros Hr. apply Hne. rewrite <- (rev_involutive (uint_text d)), Hr. reflexivity. }
  assert (Hdr : forallb is_digit (concat ts ++ h) = true) by (rewrite Hc, forallb_rev; exact Hdig).
  rewrite forallb_app in Hdr. apply andb_true_iff in Hdr as [Hdt Hdh].
  exists (rev h), (map (@rev Z) (rev ts)). unfold group_thousands. rewrite E.
  repeat split.
  - rewrite rev_app_distr, rev_concat_map, py_replace_char_app, py_replace_char_digits
      by (rewrite forallb_rev; exact Hdh).
    f_equal. rewrite map_map. clear E Hc Hts. induction ts as [|t ts IH]; [reflexivity|].
    simpl in Hdt |- *. rewrite forallb_app in Hdt. apply andb_true_iff in Hdt as [Ht Hdt].
    rewrite !map_app, !concat_app, py_replace_char_app, IH by exact Hdt. simpl.
    rewrite rev_app_distr, !app_nil_r. simpl. rewrite py_replace_char_digits; [reflexivity|].
    rewrite forallb_rev. exact Ht.
  - rewrite length_rev. lia.
  - rewrite length_rev. lia.
  - apply Forall_map, Forall_rev. eapply Forall_impl; [|exact Hts]. intros t Ht. cbv beta.
    rewrite length_rev. exact Ht.
  - rewrite <- (rev_involutive (uint_text d)), <- Hc, rev_app_distr. f_equal.
    replace (concat ts) with (concat (map id ts)) by (rewrite map_id; reflexivity).
    rewrite rev_concat_map. reflexivity.
Qed.

(** [C17] [number_format] groups the digits of [str(z)] by three from the
    right, with one space between groups and one to three digits in the
    first group; a negative number is ['-'] and the grouping of its
    absolute value. *)
Theorem number_format_groups z :
  (z < 0 -> number_format z = 45 :: number_format (- z)) /\
  (0 <= z ->
   exists g0 gs, number_format z = g0 ++ concat (map (fun g => 32 :: g) gs) /\
     (1 <= length g0 <= 3)%nat /\ Forall (fun g => length g = 3%nat) gs /\
     g0 ++ concat gs = py_str_int z).
Proof.
  split; [|exact (number_format_nonneg z)].
  intros Hz. destruct z as [|p|p]; try lia. reflexivity.
Qed.

Lemma group_rev_length l : (length l <= length (group_rev l))%nat.
Proof.
  induction l as [| a | a b | a b c | a b c tl Htl IH] using group_rev_rect; try (simpl; lia).
  rewrite group_rev_cons3 by exact Htl. simpl. lia.
Qed.

Lemma group_thousands_length l : (length l <= length (group_thousands l))%nat.
Proof.
  unfold group_thousands. rewrite ?length_rev.
  eapply Nat.le_trans; [|apply group_rev_length]. rewrite ?length_rev. lia.
Qed.

Lemma number_format_nonempty z : number_format z <> [].
Proof.
  unfold number_format, py_replace_char, format_thousands.
  destruct (Z.to_int z) as [d|d] eqn:Ed; [|discriminate].
  assert (Hne : uint_text d <> []).
  { destruct (Z.eq_dec z 0) as [->|Hz0]; [inv Ed; discriminate|].
    exact (uint_text_nonempty z d Hz0 Ed). }
  pose proof (group_thousands_length (uint_text d)) as Hl.
  intros E. apply (f_equal (@length Z)) in E. rewrite length_map in E.
  destruct (uint_text d); [congruence|]. simpl in *. lia.
Qed.

(** ** Witnesses *)

Lemma number_format_groups_witness :
  exists g0 gs, number_format 1234567 = g0 ++ concat (map (fun g => 32 :: g) gs) /\
    (1 <= length g0 <= 3)%nat /\ Forall (fun g => length g = 3%nat) gs /\
    g0 ++ concat gs = py_str_int 1234567.
Proof. apply (proj2 (number_format_groups 1234567)). lia. Defined.

End Fmt.
