(* ===== verification/Json.v ===== *)
(** * JSON values and the Python operations the handlers apply to them

    [await response.json()] gives Python [dict], [list], [str], [int],
    [bool] and [None] values; the handlers then subscript them
    ([vacancy['id']]), test membership (['key_skills' in ...]), iterate
    over them, test their truth value ([if vacancy["salary"]:]),
    concatenate them with [str] and format them in f-strings.  Each of
    these operations is modelled with the exception Python raises when
    the value has the wrong shape.  JSON numbers are modelled as
    integers (the hh.ru fields the code reads are integers or strings). *)

From Stdlib Require Import String.
From Stdlib Require Import List ZArith Lia Bool.
From S2P Require Import Prelude NumberFormat.
Import ListNotations.
Local Open Scope Z_scope.

Module Py.

(** ** Exceptions and results *)

(** The Python exceptions the handlers can raise. *)
Inductive exn : Type :=
| KeyError (key : text)     (** [d[k]] on a [dict] without [k] *)
| TypeError                 (** an operation applied to a value of the wrong type *)
| ValueError                (** ['{:,}'.format] applied to a [str] *)
| IndexError                (** [l[i]] out of range *)
| ClientError               (** aiohttp: the request itself failed *)
| ContentTypeError.         (** aiohttp: [response.json()] on a body that is not JSON *)

(** The outcome of a Python computation that may raise. *)
Inductive result (A : Type) : Type :=
| Ok (a : A)
| Err (e : exn).
Arguments Ok {A} a.
Arguments Err {A} e.

Definition rbind {A B} (c : result A) (k : A -> result B) : result B :=
  match c with Ok a => k a | Err e => Err e end.

Notation "'let?' x ':=' c 'in' k" := (rbind c (fun x => k))
  (at level 10, x name, c at level 100, k at level 200) : py_scope.

(** [[f(x) for x in l]] where [f] may raise: the first exception wins. *)
Fixpoint rmap {A B} (f : A -> result B) (l : list A) : result (list B) :=
  match l with
  | [] => Ok []
  | x :: rest => let? y := f x in let? ys := rmap f rest in Ok (y :: ys)
  end.

(** ** JSON values *)

Inductive json : Type :=
| JNull
| JBool (b : bool)
| JInt (z : Z)
| JStr (s : text)
| JArr (items : list json)
| JObj (fields : list (text * json)).

(** A JSON object is a list of fields; as a Python [dict] (built by
    [json.loads]) it keeps the last value of a repeated key ... *)
Fixpoint obj_get {B} (fields : list (text * B)) (k : text) : option B :=
  match fields with
  | [] => None
  | (k', v) :: rest =>
      match obj_get rest k with
      | Some w => Some w
      | None => if text_eqb k k' then Some v else None
      end
  end.

(** ... and the position of its first occurrence. *)
Fixpoint obj_keys {B} (fields : list (text * B)) : list text :=
  match fields with
  | [] => []
  | (k, _) :: rest => k :: filter (fun k' => negb (text_eqb k k')) (obj_keys rest)
  end.

(** ** Python operations *)

(** [v[k]] with a [str] key. *)
Definition py_getitem (v : json) (k : text) : result json :=
  match v with
  | JObj fields =>
      match obj_get fields k with Some w => Ok w | None => Err (KeyError k) end
  | _ => Err TypeError
  end.

(** [s in t] for two [str]: [s] is a contiguous part of [t]. *)
Fixpoint is_infix (s t : text) : bool :=
  match t with
  | [] => text_eqb s []
  | _ :: t' => text_eqb s (firstn (length s) t) || is_infix s t'
  end.

(** [k in v] with a [str] [k]. *)
Definition py_contains (k : text) (v : json) : result bool :=
  match v with
  | JObj fields => Ok (existsb (text_eqb k) (obj_keys fields))
  | JArr items =>
      Ok (existsb (fun x => match x with JStr s => text_eqb s k | _ => false end) items)
  | JStr s => Ok (is_infix k s)
  | _ => Err TypeError
  end.

(** [for x in v]. *)
Definition py_iter (v : json) : result (list json) :=
  match v with
  | JArr items => Ok items
  | JObj fields => Ok (map JStr (obj_keys fields))
  | JStr s => Ok (map (fun c => JStr [c]) s)
  | _ => Err TypeError
  end.

(** [bool(v)]. *)
Definition truthy (v : json) : bool :=
  match v with
  | JNull => false
  | JBool b => b
  | JInt z => negb (Z.eqb z 0)
  | JStr s => negb (text_eqb s [])
  | JArr items => negb (Nat.eqb (length items) 0)
  | JObj fields => negb (Nat.eqb (length fields) 0)
  end.

(** [v] as an operand of [str + v] or [v + str]. *)
Definition as_str (v : json) : result text :=
  match v with JStr s => Ok s | _ => Err TypeError end.

(** [repr] of a [str]: single quotes unless the text holds a single quote
    and no double quote; backslash, the quote and the ASCII control
    characters are escaped.  (Python also escapes the non-printable
    characters above 127; the model keeps them.) *)
Definition hex_digit (n : Z) : Z := if (n <? 10)%Z then (48 + n)%Z else (87 + n)%Z.

Definition repr_char (q c : Z) : text :=
  if (c =? 92)%Z then [92; 92]
  else if (c =? q)%Z then [92; q]
  else if (c =? 10)%Z then [92; 110]
  else if (c =? 13)%Z then [92; 114]
  else if (c =? 9)%Z then [92; 116]
  else if (c <? 32)%Z || (c =? 127)%Z then [92; 120; hex_digit (c / 16); hex_digit (c mod 16)]
  else [c].

Definition repr_str (s : text) : text :=
  let q := if existsb (Z.eqb 39) s && negb (existsb (Z.eqb 34) s) then 34%Z else 39%Z in
  q :: concat (map (repr_char q) s) ++ [q].

(** The fields of a [dict] in iteration order, each key with its value. *)
Definition dict_items {B} (fields : list (text * B)) : list (text * B) :=
  flat_map (fun k => match obj_get fields k with Some b => [(k, b)] | None => [] end)
    (obj_keys fields).

(** [repr(v)]. *)
Fixpoint py_repr (v : json) : text :=
  match v with
  | JNull => ⟪"None"⟫
  | JBool true => ⟪"True"⟫
  | JBool false => ⟪"False"⟫
  | JInt z => Fmt.py_str_int z
  | JStr s => repr_str s
  | JArr items => [91] ++ py_join ⟪", "⟫ (map py_repr items) ++ [93]
  | JObj fields =>
      [123] ++ py_join ⟪", "⟫
        (map (fun '(k, r) => repr_str k ++ ⟪": "⟫ ++ r)
             (dict_items (map (fun '(k, w) => (k, py_repr w)) fields)))
      ++ [125]
  end.

(** [str(v)], as an f-string formats [{v}]. *)
Definition py_str (v : json) : text :=
  match v with JStr s => s | _ => py_repr v end.

(** ** Lemmas on objects *)

Lemma in_obj_keys {B} (fields : list (text * B)) k :
  In k (obj_keys fields) <-> exists v, In (k, v) fields.
Proof.
  induction fields as [|[k' v'] rest IH]; simpl; [split; [tauto | intros [v []]]|].
  rewrite filter_In, IH. split.
  - intros [->|[[v Hv] _]]; eauto.
  - intros [v [Heq|Hv]]; [inv Heq; left; reflexivity|].
    destruct (text_eqb_spec k' k) as [->|Hne]; [left; reflexivity|].
    right. split; [eauto|]. destruct (text_eqb_spec k' k); [contradiction | reflexivity].
Qed.

Lemma obj_get_some {B} (fields : list (text * B)) k v :
  obj_get fields k = Some v -> In (k, v) fields.
Proof.
  induction fields as [|[k' v'] rest IH]; simpl; [discriminate|].
  destruct (obj_get rest k) as [w|]; [intros H; inv H; right; auto|].
  destruct (text_eqb_spec k k') as [->|]; intros H; inv H; left; reflexivity.
Qed.

Lemma obj_get_in {B} (fields : list (text * B)) k v :
  In (k, v) fields -> exists w, obj_get fields k = Some w.
Proof.
  induction fields as [|[k' v'] rest IH]; simpl; [tauto|]. intros Hin.
  destruct (obj_get rest k) as [w|] eqn:E; [eauto|].
  destruct Hin as [Heq|Hin]; [inv Heq; rewrite text_eqb_refl; eauto|].
  destruct (IH Hin) as [w Hw]. congruence.
Qed.

Lemma obj_get_none {B} (fields : list (text * B)) k :
  obj_get fields k = None <-> forall v, ~ In (k, v) fields.
Proof.
  split.
  - intros E v Hin. destruct (obj_get_in fields k v Hin) as [w Hw]. congruence.
  - intros H. destruct (obj_get fields k) as [w|] eqn:E; [|reflexivity].
    exfalso. exact (H w (obj_get_some fields k w E)).
Qed.

(** ['k' in d] on a [dict] is [k] having a value in [d]. *)
Lemma py_contains_obj k fields :
  py_contains k (JObj fields) =
  Ok (match obj_get fields k with Some _ => true | None => false end).
Proof.
  simpl. f_equal. destruct (obj_get fields k) as [v|] eqn:E.
  - apply existsb_exists. exists k. split; [|apply text_eqb_refl].
    apply in_obj_keys. exists v. apply obj_get_some. exact E.
  - apply not_true_iff_false. intros [k' [Hin Heq]]%existsb_exists.
    destruct (text_eqb_spec k k') as [<-|]; [|discriminate].
    apply in_obj_keys in Hin as [v Hv]. exact (proj1 (obj_get_none fields k) E v Hv).
Qed.

#[export] Hint Rewrite py_contains_obj : herald_rw.

End Py.
