(* ===== verification/Effects.v ===== *)
(** * The effects of a handler: HTTP, outgoing messages, exceptions

    A handler of handlers.py runs against the outside world (the hh.ru
    API, the Telegram chat) and may raise.  It is modelled as a function
    of a [world] (what every GET returns) to the list of the [event]s it
    performs, in order, and the [Py.result] it ends with: the messages
    sent before an exception stay sent.  [M] is that reader, writer and
    exception monad with its [x <- c ;; k] notation. *)

From Stdlib Require Import String.
From Stdlib Require Import List ZArith Lia Bool.
From S2P Require Import Prelude NumberFormat Json.
Import ListNotations.
Import Py.

Module Eff.

(** ** The outside world *)

(** An aiohttp response: [response.ok] and the body that
    [response.json()] decodes ([None]: the body is not JSON and
    [response.json()] raises). *)
Record response : Type := mk_response { resp_ok : bool; resp_body : option json }.

(** [session.get(url)]: a response, or a failure of the request. *)
Inductive http_outcome : Type :=
| Transport
| Responded (r : response).

(** What the outside world answers.  [gather_order urls] is the order in
    which the tasks of an [asyncio.gather] over GETs of [urls] finish
    (indices into [urls]); it depends on the network, not on the code. *)
Record world : Type := mk_world {
  http_get : text -> http_outcome;
  gather_order : list text -> list nat
}.

(** A point of the chart, [(label, value)], as given to [plt.pie]. *)
Definition slice := (text * Z)%type.

(** What a handler does that the outside world sees. *)
Inductive event : Type :=
| Get (url : text)                        (** [session.get(url)] *)
| Answer (msg : text) (no_preview : bool) (** [message.answer(msg, disable_web_page_preview=...)] *)
| SaveChart (path : text) (chart : list slice) (** [plt.pie(...)]; [plt.savefig(path)]; [plt.clf()] *)
| AnswerPhoto (path : text).              (** [message.answer_photo(FSInputFile(path))] *)

(** ** The monad *)

Definition M (A : Type) : Type := world -> list event * result A.

Definition ret {A} (a : A) : M A := fun _ => ([], Ok a).

Definition bind {A B} (c : M A) (k : A -> M B) : M B :=
  fun w => match c w with
           | (ev1, Ok a) => let (ev2, r) := k a w in (ev1 ++ ev2, r)
           | (ev1, Err e) => (ev1, Err e)
           end.

Declare Scope eff_scope.
Delimit Scope eff_scope with eff.
Notation "x <- c ;; k" := (bind c (fun x => k))
  (at level 100, c at next level, k at level 200, right associativity) : eff_scope.
Notation "c ;; k" := (bind c (fun _ => k))
  (at level 100, k at level 200, right associativity) : eff_scope.
Open Scope eff_scope.

Definition emit (e : event) : M unit := fun _ => ([e], Ok tt).

Definition raise {A} (e : exn) : M A := fun _ => ([], Err e).

(** A pure computation that may raise. *)
Definition lift {A} (r : result A) : M A := fun _ => ([], r).

Definition ask : M world := fun w => ([], Ok w).

(** [for x in l: body(x)] *)
Fixpoint for_each {A} (l : list A) (body : A -> M unit) : M unit :=
  match l with
  | [] => ret tt
  | x :: rest => body x ;; for_each rest body
  end.

(** ** [asyncio.gather] *)

(** The exception of the first task, in completion order, that raised. *)
Fixpoint first_failure {A} (rs : list (result A)) (order : list nat) : option exn :=
  match order with
  | [] => None
  | i :: rest =>
      match nth_error rs i with
      | Some (Err e) => Some e
      | _ => first_failure rs rest
      end
  end.

(** The results of the tasks, in the order of the tasks. *)
Definition all_results {A} (rs : list (result A)) : result (list A) := rmap (fun r => r) rs.

Definition gather_outcome {A} (rs : list (result A)) (order : list nat) : result (list A) :=
  match first_failure rs order with
  | Some e => Err e
  | None => all_results rs
  end.

(** [await asyncio.gather] over the tasks created with
    [asyncio.ensure_future]: every task is started, in the order of the
    list, before any of them finishes; the result is the list of their
    results in the order of the tasks, or the exception of the first task
    to finish with one ([order] is the completion order). *)
Definition gather {A} (tasks : list (M A)) (order : list nat) : M (list A) :=
  fun w =>
    let runs := map (fun t => t w) tasks in
    (concat (map fst runs), gather_outcome (map snd runs) order).

(** ** Laws *)

Lemma bind_ret_l {A B} (a : A) (k : A -> M B) w : bind (ret a) k w = k a w.
Proof. unfold bind, ret. simpl. destruct (k a w). reflexivity. Qed.

Lemma bind_ret_r {A} (c : M A) w : bind c ret w = c w.
Proof. unfold bind, ret. destruct (c w) as [ev [a|e]]; rewrite ?app_nil_r; reflexivity. Qed.

Lemma bind_assoc {A B C} (c : M A) (k1 : A -> M B) (k2 : B -> M C) w :
  bind (bind c k1) k2 w = bind c (fun a => bind (k1 a) k2) w.
Proof.
  unfold bind. destruct (c w) as [ev1 [a|e]]; [|reflexivity].
  destruct (k1 a w) as [ev2 [b|e]]; [|reflexivity].
  destruct (k2 b w) as [ev3 r]. rewrite app_assoc. reflexivity.
Qed.

(** Running [c] then [k]: the events of both, in order. *)
Lemma bind_ok {A B} (c : M A) (k : A -> M B) w ev1 a :
  c w = (ev1, Ok a) -> bind c k w = (ev1 ++ fst (k a w), snd (k a w)).
Proof. unfold bind. intros ->. destruct (k a w). reflexivity. Qed.

Lemma bind_err {A B} (c : M A) (k : A -> M B) w ev1 e :
  c w = (ev1, Err e) -> bind c k w = (ev1, Err e).
Proof. unfold bind. intros ->. reflexivity. Qed.

(** The events of [c] come first in those of [bind c k]. *)
Lemma bind_events_prefix {A B} (c : M A) (k : A -> M B) w :
  exists rest, fst (bind c k w) = fst (c w) ++ rest.
Proof.
  unfold bind. destruct (c w) as [ev [a|e]]; simpl.
  - destruct (k a w) as [ev2 r]. exists ev2. reflexivity.
  - exists []. rewrite app_nil_r. reflexivity.
Qed.

(** ** [asyncio.gather] *)

Lemma all_results_ok {A} (rs : list (result A)) vs :
  all_results rs = Ok vs <-> Forall2 (fun r a => r = Ok a) rs vs.
Proof.
  unfold all_results. revert vs. induction rs as [|r rs IH]; intros vs; simpl.
  - split; intros H; [inv H; constructor | inv H; reflexivity].
  - split.
    + destruct r as [a|e]; simpl; [|discriminate].
      destruct (rmap (fun r => r) rs) as [vs'|e] eqn:E; simpl; [|discriminate].
      intros H; inv H. constructor; [reflexivity|]. apply IH. reflexivity.
    + intros H. inversion H as [|r' a rs' vs' Hr Ht]; subst.
      apply IH in Ht. rewrite Ht. reflexivity.
Qed.

Lemma all_results_length {A} (rs : list (result A)) vs :
  all_results rs = Ok vs -> length vs = length rs.
Proof. intros H%all_results_ok. symmetry. eapply Forall2_length. exact H. Qed.

Lemma Forall2_ok_no_err {A} (rs : list (result A)) vs e :
  Forall2 (fun r a => r = Ok a) rs vs -> ~ In (Err e) rs.
Proof. induction 1 as [|r a rs vs Hr _ IH]; simpl; [tauto|]. subst r. intros [H|H]; [discriminate | auto]. Qed.

Lemma first_failure_none {A} (rs : list (result A)) order :
  (forall e, ~ In (Err e) rs) -> first_failure rs order = None.
Proof.
  intros Hno. induction order as [|i order IH]; simpl; [reflexivity|].
  destruct (nth_error rs i) as [[a|e]|] eqn:E; try exact IH.
  exfalso. apply (Hno e). eapply nth_error_In. exact E.
Qed.

Lemma first_failure_some {A} (rs : list (result A)) order i e :
  In i order -> nth_error rs i = Some (Err e) ->
  exists e', first_failure rs order = Some e' /\ In (Err e') rs.
Proof.
  intros Hi Hrs. induction order as [|j order IH]; simpl in *; [contradiction|].
  destruct (nth_error rs j) as [[a|e']|] eqn:E.
  - destruct Hi as [->|Hi]; [congruence | exact (IH Hi)].
  - exists e'. split; [reflexivity | eapply nth_error_In; exact E].
  - destruct Hi as [->|Hi]; [congruence | exact (IH Hi)].
Qed.

Lemma gather_outcome_length {A} (rs : list (result A)) order vs :
  gather_outcome rs order = Ok vs -> length vs = length rs.
Proof.
  unfold gather_outcome. destruct (first_failure rs order); [discriminate|].
  apply all_results_length.
Qed.

Lemma gather_outcome_all_ok {A} (rs : list (result A)) order vs :
  Forall2 (fun r a => r = Ok a) rs vs -> gather_outcome rs order = Ok vs.
Proof.
  intros H. unfold gather_outcome.
  rewrite first_failure_none by (intros e; eapply Forall2_ok_no_err; exact H).
  apply all_results_ok. exact H.
Qed.

Lemma gather_events {A} (tasks : list (M A)) order w :
  fst (gather tasks order w) = concat (map (fun t => fst (t w)) tasks).
Proof. unfold gather. simpl. rewrite map_map. reflexivity. Qed.

End Eff.
