(* ===== verification/KeySkills.v ===== *)
(** * DetailFetcher and ConcurrentFanOut: [get_key_skills] and the gather

    [get_key_skills] (handlers.py, lines 25-30) fetches one vacancy and
    returns the names of its key skills, or [None] when the JSON body has
    no ["key_skills"] key.  Both handlers build one task per vacancy of
    the search result (lines 68-75 and 178-184) and [await
    asyncio.gather(...)] them.  The theorems show that the gathered list
    is in the order of the vacancies, whatever the completion order, and
    that one failed request makes the whole gather raise. *)

From Stdlib Require Import String.
From Stdlib Require Import List ZArith Lia Bool.
From S2P Require Import Prelude NumberFormat Json Effects.
Import ListNotations.
Import Py Eff.

Module Fetch.

(** [f"https://api.hh.ru/vacancies/{vacancy['id']}"] (lines 72 and 181). *)
Definition detail_url (vacancy : json) : result text :=
  let? id := py_getitem vacancy ⟪"id"⟫ in
  Ok (⟪"https://api.hh.ru/vacancies/"⟫ ++ py_str id).

(** Lines 28-30, once [extended_vacancy] is decoded. *)
Definition key_skills_of_body (extended_vacancy : json) : result (option (list json)) :=
  let? has := py_contains ⟪"key_skills"⟫ extended_vacancy in
  if has then
    let? ks := py_getitem extended_vacancy ⟪"key_skills"⟫ in
    let? items := py_iter ks in
    let? names := rmap (fun key_skill => py_getitem key_skill ⟪"name"⟫) items in
    Ok (Some names)
  else Ok None.

(** [get_key_skills(session, url)] (lines 25-30). *)
Definition get_key_skills (url : text) : M (option (list json)) :=
  emit (Get url) ;;
  w <- ask ;;
  match http_get w url with
  | Transport => raise ClientError
  | Responded r =>
      match resp_body r with
      | None => raise ContentTypeError
      | Some extended_vacancy => lift (key_skills_of_body extended_vacancy)
      end
  end.

(** The task loop and the gather (lines 68-75, 178-184): every URL is
    computed, then the tasks run concurrently. *)
Definition fetch_all (vacancies : list json) : M (list (option (list json))) :=
  urls <- lift (rmap detail_url vacancies) ;;
  w <- ask ;;
  gather (map get_key_skills urls) (gather_order w urls).

(** What one task returns, given the response to its GET. *)
Definition fetch_result (o : http_outcome) : result (option (list json)) :=
  match o with
  | Transport => Err ClientError
  | Responded r =>
      match resp_body r with
      | None => Err ContentTypeError
      | Some extended_vacancy => key_skills_of_body extended_vacancy
      end
  end.

(** ** Example data *)

(** Three vacancies; the details of the first two list skills, the third
    has none; the requests complete in reverse order. *)
Definition ex_vacancy (id : String.string) : json := JObj [(⟪"id"⟫, JStr (u id))].

Definition ex_skills (names : list String.string) : json :=
  JObj [(⟪"id"⟫, JStr ⟪"x"⟫);
        (⟪"key_skills"⟫, JArr (map (fun n => JObj [(⟪"name"⟫, JStr (u n))]) names))].

Definition ex_world (failing : text) : world :=
  mk_world
    (fun url =>
       if text_eqb url failing then Transport
       else if text_eqb url ⟪"https://api.hh.ru/vacancies/1"⟫
       then Responded (mk_response true (Some (ex_skills ["Python"; "SQL"]%string)))
       else if text_eqb url ⟪"https://api.hh.ru/vacancies/2"⟫
       then Responded (mk_response true (Some (ex_skills ["Python"]%string)))
       else Responded (mk_response true (Some (JObj [(⟪"id"⟫, JStr ⟪"3"⟫)]))))
    (fun urls => rev (seq 0 (length urls))).

Definition ex_vacancies : list json := [ex_vacancy "1"; ex_vacancy "2"; ex_vacancy "3"].

(** ** Running a task *)

Lemma get_key_skills_run url w :
  get_key_skills url w = ([Get url], fetch_result (http_get w url)).
Proof.
  unfold get_key_skills, fetch_result, bind, emit, ask. simpl.
  destruct (http_get w url) as [|[ok [body|]]]; reflexivity.
Qed.

Lemma rmap_length {A B} (f : A -> result B) l vs :
  rmap f l = Ok vs -> length vs = length l.
Proof.
  revert vs. induction l as [|x l IH]; simpl; intros vs H; [inv H; reflexivity|].
  destruct (f x); simpl in H; [|discriminate].
  destruct (rmap f l) eqn:E; simpl in H; [|discriminate]. inv H. simpl. f_equal. auto.
Qed.

Lemma fetch_all_run vacancies urls w :
  rmap detail_url vacancies = Ok urls ->
  fetch_all vacancies w =
    (map Get urls,
     gather_outcome (map (fun u => fetch_result (http_get w u)) urls) (gather_order w urls)).
Proof.
  intros Hu. unfold fetch_all, bind, lift, ask, gather. rewrite Hu. simpl.
  rewrite !map_map. f_equal.
  - clear Hu. induction urls as [|u urls IH]; simpl; [reflexivity|].
    rewrite get_key_skills_run. simpl. f_equal. exact IH.
  - f_equal. apply map_ext. intros u. rewrite get_key_skills_run. reflexivity.
Qed.

Lemma rmap_ok_Forall2 {A B} (f : A -> result B) l vs :
  Forall2 (fun x v => f x = Ok v) l vs -> rmap f l = Ok vs.
Proof. induction 1 as [|x v l vs Hx _ IH]; simpl; [reflexivity|]. rewrite Hx, IH. reflexivity. Qed.

Lemma rmap_err {A B} (f : A -> result B) l x e :
  In x l -> f x = Err e -> exists e', rmap f l = Err e'.
Proof.
  induction l as [|y l IH]; simpl; [tauto|]. intros [->|Hin] Hx.
  - rewrite Hx. simpl. eauto.
  - destruct (f y); simpl; [|eauto]. destruct (IH Hin Hx) as [e' ->]. simpl. eauto.
Qed.

(** ** Properties *)

(** A detail body whose ["key_skills"] is a list of objects with a
    ["name"] gives the list of the names, in order. *)
Theorem key_skills_of_body_names fields names :
  obj_get fields ⟪"key_skills"⟫ = Some (JArr (map (fun n => JObj [(⟪"name"⟫, n)]) names)) ->
  key_skills_of_body (JObj fields) = Ok (Some names).
Proof.
  intros H. unfold key_skills_of_body. rewrite py_contains_obj, H. simpl.
  unfold py_getitem at 1. rewrite H. simpl.
  rewrite (rmap_ok_Forall2 _ _ names); [reflexivity|].
  clear H. induction names as [|n names IH]; simpl; constructor; [reflexivity | exact IH].
Qed.

(** A detail body without ["key_skills"] gives [None]: an absent
    value, not an exception. *)
Theorem key_skills_of_body_absent fields :
  obj_get fields ⟪"key_skills"⟫ = None ->
  key_skills_of_body (JObj fields) = Ok None.
Proof. intros H. unfold key_skills_of_body. rewrite py_contains_obj, H. reflexivity. Qed.

Lemma fetch_all_ok vacancies urls kss w :
  rmap detail_url vacancies = Ok urls ->
  Forall2 (fun u ks => fetch_result (http_get w u) = Ok ks) urls kss ->
  fetch_all vacancies w = (map Get urls, Ok kss).
Proof.
  intros Hu Hok. rewrite (fetch_all_run _ _ _ Hu). f_equal. apply gather_outcome_all_ok.
  clear Hu. induction Hok; simpl; constructor; assumption.
Qed.

(** [C9] Whatever the order in which the requests complete, when every
    detail request succeeds the gathered list has one entry per vacancy,
    in the order of the vacancies, and one GET per vacancy was sent, in
    that order. *)
Theorem fetch_all_in_order vacancies urls kss w :
  rmap detail_url vacancies = Ok urls ->
  Forall2 (fun u ks => fetch_result (http_get w u) = Ok ks) urls kss ->
  fetch_all vacancies w = (map Get urls, Ok kss) /\ length kss = length vacancies.
Proof.
  intros Hu Hok. split; [exact (fetch_all_ok _ _ _ _ Hu Hok)|].
  rewrite <- (rmap_length _ _ _ Hu). symmetry. eapply Forall2_length. exact Hok.
Qed.

(** One detail request that fails makes the gather, and so the
    handler, raise: no list with an absent entry is produced. *)
Theorem fetch_all_one_failure vacancies urls w u :
  rmap detail_url vacancies = Ok urls -> In u urls -> http_get w u = Transport ->
  exists e, snd (fetch_all vacancies w) = Err e.
Proof.
  intros Hu Hin Ht. rewrite (fetch_all_run _ _ _ Hu). simpl. unfold gather_outcome.
  destruct (first_failure _ _) as [e|]; [eauto|].
  unfold all_results.
  assert (Hin' : In (fetch_result (http_get w u)) (map (fun u => fetch_result (http_get w u)) urls))
    by (apply in_map_iff; eauto).
  rewrite Ht in Hin'. destruct (rmap_err (fun r => r) _ _ ClientError Hin' eq_refl) as [e' ->]. eauto.
Qed.

(** ** Witnesses *)

Lemma key_skills_of_body_names_witness :
  key_skills_of_body (ex_skills ["Python"; "SQL"]%string) = Ok (Some [JStr ⟪"Python"⟫; JStr ⟪"SQL"⟫]).
Proof. apply (key_skills_of_body_names _ [JStr ⟪"Python"⟫; JStr ⟪"SQL"⟫]). vm_compute. reflexivity. Defined.

Lemma key_skills_of_body_absent_witness :
  key_skills_of_body (JObj [(⟪"id"⟫, JStr ⟪"3"⟫)]) = Ok None.
Proof. apply key_skills_of_body_absent. vm_compute. reflexivity. Defined.

Lemma fetch_all_in_order_witness :
  fetch_all ex_vacancies (ex_world []) =
    (map Get [⟪"https://api.hh.ru/vacancies/1"⟫; ⟪"https://api.hh.ru/vacancies/2"⟫;
              ⟪"https://api.hh.ru/vacancies/3"⟫],
     Ok [Some [JStr ⟪"Python"⟫; JStr ⟪"SQL"⟫]; Some [JStr ⟪"Python"⟫]; None])
  /\ length [Some [JStr ⟪"Python"⟫; JStr ⟪"SQL"⟫]; Some [JStr ⟪"Python"⟫]; @None (list json)]
     = length ex_vacancies.
Proof.
  apply fetch_all_in_order; [vm_compute; reflexivity|].
  repeat constructor; vm_compute; reflexivity.
Defined.

Lemma fetch_all_one_failure_witness :
  exists e, snd (fetch_all ex_vacancies (ex_world ⟪"https://api.hh.ru/vacancies/2"⟫)) = Err e.
Proof.
  apply (fetch_all_one_failure _
           [⟪"https://api.hh.ru/vacancies/1"⟫; ⟪"https://api.hh.ru/vacancies/2"⟫;
            ⟪"https://api.hh.ru/vacancies/3"⟫] _ ⟪"https://api.hh.ru/vacancies/2"⟫).
  - vm_compute. reflexivity.
  - simpl. right. left. reflexivity.
  - vm_compute. reflexivity.
Defined.

End Fetch.
