(* ===== verification/Digest.v ===== *)
(** * DigestFormatter: the text blocks and pages of [cmd_job]

    [cmd_job] (handlers.py, lines 77-116) renders one text block per
    vacancy (rank, name, salary line, a rule of 28 ['-'], the experience,
    the key skills, the public URL and a rule of 28 ['=']) and sends the
    blocks in pages: a block is appended to the page while the page stays
    under 4096 characters, otherwise the page is sent and a new page
    starts with the block.  The last page, or ['Не найдено вакансий'] when
    there was no vacancy, is sent at the end.

    [render_block] is one iteration's text, [digest_loop] and
    [send_digest] the loop with its [message.answer] calls, [paginate]
    and [digest_pages] the pages as a pure function of the blocks. *)

From Stdlib Require Import String.
From Stdlib Require Import List ZArith Lia Bool.
From S2P Require Import Prelude NumberFormat Json Effects.
Import ListNotations.
Import Py Eff.


Module Digest.

(** ** One block *)

(** [await number_format(x)] on a JSON value: ['{:,}'.format] accepts an
    [int] (and a [bool], which is an [int]), rejects a [str] with
    [ValueError] and the other values with [TypeError]. *)
Definition number_format_json (x : json) : result text :=
  match x with
  | JInt z => Ok (Fmt.number_format z)
  | JBool b => Ok (Fmt.number_format (if b then 1 else 0)%Z)
  | JStr _ => Err ValueError
  | _ => Err TypeError
  end.

(** [number_format(x) if x else None] (lines 81-82). *)
Definition salary_bound (x : json) : result (option text) :=
  if truthy x then let? s := number_format_json x in Ok (Some s) else Ok None.

(** Truth value of [frm] or [to]: a [str] or [None]. *)
Definition opt_truthy (o : option text) : bool :=
  match o with Some s => negb (text_eqb s []) | None => false end.

(** [{to}] in an f-string: the [str], or ["None"]. *)
Definition fmt_opt (o : option text) : text :=
  match o with Some s => s | None => ⟪"None"⟫ end.

(** Lines 84-87. *)
Definition salary_text (frm to : option text) : text :=
  if opt_truthy frm && opt_truthy to then ⟪"от "⟫ ++ fmt_opt frm ++ ⟪" до "⟫ ++ fmt_opt to
  else if opt_truthy frm then ⟪"от "⟫ ++ fmt_opt frm
  else ⟪"до "⟫ ++ fmt_opt to.

(** Lines 80-89: the salary line, or nothing when [vacancy["salary"]] is
    false ([null] in the JSON). *)
Definition salary_line (salary : json) : result text :=
  if truthy salary then
    let? f := py_getitem salary ⟪"from"⟫ in
    let? frm := salary_bound f in
    let? t := py_getitem salary ⟪"to"⟫ in
    let? to := salary_bound t in
    Ok (salary_text frm to ++ ⟪" RUB"⟫ ++ [10%Z])
  else Ok [].

(** [', '.join(l)] on the list [get_key_skills] returned: every element
    must be a [str]. *)
Definition join_skills (l : list json) : result text :=
  let? names := rmap as_str l in Ok (py_join ⟪", "⟫ names).

(** Lines 95-100: the key skills line, or nothing when [key_skills[i]] is
    [None] or empty or joins to the empty string. *)
Definition skills_line (ks : option (list json)) : result text :=
  let? key_skill :=
    match ks with
    | Some ((_ :: _) as l) => join_skills l
    | _ => Ok []
    end in
  Ok (if text_eqb key_skill [] then []
      else ⟪"Key Skills: "⟫ ++ key_skill ++ [10; 10]%Z).

(** [key_skills[i]] *)
Definition nth_result {A} (l : list A) (i : nat) : result A :=
  match nth_error l i with Some a => Ok a | None => Err IndexError end.

(** Lines 78-103: the block [s] of the [i]-th vacancy (from 0);
    [key_skills[i]] is read at line 96, after the experience line. *)
Definition render_block (i : nat) (vacancy : json) (key_skills : list (option (list json)))
  : result text :=
  let? name := py_getitem vacancy ⟪"name"⟫ in
  let head := Fmt.py_str_int (Z.of_nat (i + 1)) ++ ⟪". "⟫ ++ py_str name ++ [10%Z] in
  let? salary := py_getitem vacancy ⟪"salary"⟫ in
  let? sal := salary_line salary in
  let rule := py_repeat ⟪"-"⟫ 28 ++ [10%Z] in
  let? experience := py_getitem vacancy ⟪"experience"⟫ in
  let? exp_name := py_getitem experience ⟪"name"⟫ in
  let? exp_s := as_str exp_name in
  let exp_line := ⟪"Опыт работы: "⟫ ++ exp_s ++ [10; 10]%Z in
  let? ks := nth_result key_skills i in
  let? skills := skills_line ks in
  let? url := py_getitem vacancy ⟪"alternate_url"⟫ in
  let? url_s := as_str url in
  Ok (head ++ sal ++ rule ++ exp_line ++ skills ++ url_s ++ [10; 10]%Z
      ++ py_repeat ⟪"="⟫ 28 ++ [10%Z]).

(** ** The pages *)

(** Telegram's limit, as the code writes it: [len(mes + s) < 4096]. *)
Definition max_message := 4096%nat.

Definition not_found := ⟪"Не найдено вакансий"⟫.

(** Lines 105-109: append the block, or send the page and start a new
    one with the block. *)
Definition page_step (mes s : text) : M text :=
  if Nat.ltb (length (mes ++ s)) max_message then ret (mes ++ s)
  else emit (Answer mes true) ;; ret s.

(** Lines 77-111: the loop over [enumerate(vacancies)], from index [i]
    with the page [mes] so far. *)
Fixpoint digest_loop (i : nat) (vacancies : list json)
         (key_skills : list (option (list json))) (mes : text) : M text :=
  match vacancies with
  | [] => ret mes
  | vacancy :: rest =>
      s <- lift (render_block i vacancy key_skills) ;;
      mes' <- page_step mes s ;;
      digest_loop (S i) rest key_skills mes'
  end.

(** Lines 69 and 77-116. *)
Definition send_digest (vacancies : list json) (key_skills : list (option (list json))) : M unit :=
  mes <- digest_loop 0 vacancies key_skills [] ;;
  emit (Answer (if text_eqb mes [] then not_found else mes) true).

(** The pages as a function of the blocks: the pages sent in the loop
    and the page left at its end. *)
Fixpoint paginate (mes : text) (blocks : list text) : list text * text :=
  match blocks with
  | [] => ([], mes)
  | s :: rest =>
      if Nat.ltb (length (mes ++ s)) max_message then paginate (mes ++ s) rest
      else let (pages, last) := paginate s rest in (mes :: pages, last)
  end.

(** Every message [send_digest] sends, in order. *)
Definition digest_pages (blocks : list text) : list text :=
  let (pages, last) := paginate [] blocks in
  pages ++ [if text_eqb last [] then not_found else last].

(** The blocks of the vacancies from index [i], as the loop renders them. *)
Fixpoint render_all (i : nat) (vacancies : list json)
         (key_skills : list (option (list json))) : result (list text) :=
  match vacancies with
  | [] => Ok []
  | vacancy :: rest =>
      let? s := render_block i vacancy key_skills in
      let? ss := render_all (S i) rest key_skills in
      Ok (s :: ss)
  end.

(** The [salary] object of a vacancy of the hh.ru search. *)
Definition salary_obj (from to currency : json) : json :=
  JObj [(⟪"from"⟫, from); (⟪"to"⟫, to); (⟪"currency"⟫, currency); (⟪"gross"⟫, JBool false)].

(** ** Example data *)

Definition ex_vacancy : json :=
  JObj [(⟪"id"⟫, JStr ⟪"1"⟫); (⟪"name"⟫, JStr ⟪"Python developer"⟫);
        (⟪"salary"⟫, salary_obj (JInt 100000) JNull (JStr ⟪"RUR"⟫));
        (⟪"experience"⟫, JObj [(⟪"id"⟫, JStr ⟪"noExperience"⟫); (⟪"name"⟫, JStr ⟪"Нет опыта"⟫)]);
        (⟪"alternate_url"⟫, JStr ⟪"https://hh.ru/vacancy/1"⟫)].

(** A vacancy of the search without its ["experience"] field. *)
Definition ex_bad_vacancy : json :=
  JObj [(⟪"id"⟫, JStr ⟪"2"⟫); (⟪"name"⟫, JStr ⟪"Data engineer"⟫); (⟪"salary"⟫, JNull);
        (⟪"alternate_url"⟫, JStr ⟪"https://hh.ru/vacancy/2"⟫)].

Definition ex_key_skills : list (option (list json)) := [Some [JStr ⟪"Python"⟫; JStr ⟪"SQL"⟫]].

Definition ex_blocks : list text :=
  match render_all 0 [ex_vacancy] ex_key_skills with Ok bs => bs | Err _ => [] end.

Definition ex_world : world := mk_world (fun _ => Transport) (fun _ => []).

(** ** Pagination *)

Lemma paginate_cons mes s rest :
  paginate mes (s :: rest) =
  if Nat.ltb (length (mes ++ s)) max_message then paginate (mes ++ s) rest
  else (mes :: fst (paginate s rest), snd (paginate s rest)).
Proof. simpl. destruct (Nat.ltb _ _); [reflexivity|]. destruct (paginate s rest). reflexivity. Qed.

(** The pages and the last page hold the page so far and the blocks, in
    order. *)
Lemma paginate_concat mes bs :
  concat (fst (paginate mes bs)) ++ snd (paginate mes bs) = mes ++ concat bs.
Proof.
  revert mes. induction bs as [|b bs IH]; intros mes.
  - simpl. symmetry. apply app_nil_r.
  - rewrite paginate_cons. destruct (Nat.ltb _ _); simpl.
    + rewrite IH, app_assoc. reflexivity.
    + rewrite <- app_assoc, IH. reflexivity.
Qed.

(** Each page is a run of whole blocks: grouping the blocks gives the
    pages ([cur] are the blocks of the page so far). *)
Lemma paginate_groups cur bs :
  exists gs last,
    fst (paginate (concat cur) bs) = map (@concat Z) gs /\
    snd (paginate (concat cur) bs) = concat last /\
    cur ++ bs = concat gs ++ last /\
    (cur ++ bs <> [] -> last <> []).
Proof.
  revert cur. induction bs as [|b bs IH]; intros cur.
  - exists [], cur. simpl. rewrite !app_nil_r. repeat split; auto.
  - rewrite paginate_cons. destruct (Nat.ltb _ _).
    + destruct (IH (cur ++ [b])) as (gs & last & H1 & H2 & H3 & H4).
      rewrite concat_app in H1, H2. simpl in H1, H2. rewrite app_nil_r in H1, H2.
      exists gs, last. repeat split; [exact H1 | exact H2 | |].
      * rewrite <- H3, <- app_assoc. reflexivity.
      * intros _. apply H4. destruct cur; discriminate.
    + destruct (IH [b]) as (gs & last & H1 & H2 & H3 & H4). simpl in H1, H2.
      rewrite app_nil_r in H1, H2.
      exists (cur :: gs), last. simpl. rewrite H1, H2. repeat split.
      * rewrite <- app_assoc, <- H3. reflexivity.
      * intros _. apply H4. discriminate.
Qed.

Lemma paginate_bounds mes bs :
  length mes < max_message ->
  Forall (fun b => 0 < length b < max_message) bs ->
  Forall (fun p => 0 < length p < max_message) (fst (paginate mes bs)) /\
  length (snd (paginate mes bs)) < max_message.
Proof.
  revert mes. induction bs as [|b bs IH]; intros mes Hmes Hbs; [simpl; auto|].
  inversion Hbs as [|? ? Hb Hbs']; subst.
  rewrite paginate_cons. destruct (Nat.ltb_spec (length (mes ++ b)) max_message) as [Hlt|Hge].
  - apply IH; assumption.
  - destruct (IH b (proj2 Hb) Hbs') as [H1 H2]. simpl. split; [|exact H2].
    constructor; [|exact H1]. rewrite length_app in Hge. lia.
Qed.

Lemma not_found_length : length not_found = 19.
Proof. reflexivity. Qed.

(** ** The loop computes the pages *)

Lemma page_step_run mes s w :
  page_step mes s w =
  if Nat.ltb (length (mes ++ s)) max_message then ([], Ok (mes ++ s))
  else ([Answer mes true], Ok s).
Proof. unfold page_step. destruct (Nat.ltb _ _); reflexivity. Qed.

(** The loop over [good ++ rest]: the pages the blocks of [good] fill
    are sent, then the loop goes on with [rest] from the page left. *)
Lemma digest_loop_app i good rest key_skills mes blocks w :
  render_all i good key_skills = Ok blocks ->
  digest_loop i (good ++ rest) key_skills mes w =
  (map (fun p => Answer p true) (fst (paginate mes blocks))
     ++ fst (digest_loop (i + length good) rest key_skills (snd (paginate mes blocks)) w),
   snd (digest_loop (i + length good) rest key_skills (snd (paginate mes blocks)) w)).
Proof.
  revert i mes blocks. induction good as [|v vs IH]; intros i mes blocks H.
  - inv H. rewrite Nat.add_0_r. simpl. destruct (digest_loop i rest key_skills mes w). reflexivity.
  - simpl in H. destruct (render_block i v key_skills) as [b|] eqn:Eb; [|discriminate]. simpl in H.
    destruct (render_all (S i) vs key_skills) as [bs|] eqn:Ebs; [|discriminate]. inv H.
    cbn [digest_loop app]. unfold bind at 1, lift at 1. rewrite Eb.
    unfold bind at 1. rewrite page_step_run, paginate_cons.
    replace (i + length (v :: vs))%nat with (S i + length vs)%nat by (simpl; lia).
    destruct (Nat.ltb _ _); rewrite (IH _ _ _ Ebs); [reflexivity|].
    destruct (paginate b bs). reflexivity.
Qed.

Lemma digest_loop_run i vacancies key_skills mes blocks w :
  render_all i vacancies key_skills = Ok blocks ->
  digest_loop i vacancies key_skills mes w =
  (map (fun p => Answer p true) (fst (paginate mes blocks)), Ok (snd (paginate mes blocks))).
Proof.
  intros H. rewrite <- (app_nil_r vacancies), (digest_loop_app _ _ _ _ _ _ _ H). simpl.
  rewrite app_nil_r. reflexivity.
Qed.

(** A vacancy whose block raises stops the loop with that exception,
    before anything is sent. *)
Lemma digest_loop_bad i bad rest key_skills mes e w :
  render_block i bad key_skills = Err e ->
  digest_loop i (bad :: rest) key_skills mes w = ([], Err e).
Proof. intros H. cbn [digest_loop]. unfold bind at 1, lift at 1. rewrite H. reflexivity.
Qed.

(** Every block holds its two 28-character rules. *)
Lemma render_block_length i vacancy key_skills b :
  render_block i vacancy key_skills = Ok b -> (58 <= length b)%nat.
Proof.
  unfold render_block. intros H.
  repeat match type of H with
  | (let? _ := ?r in _) = Ok _ => destruct r; cbn [rbind] in H; [|discriminate]
  end.
  injection H as <-. repeat (rewrite length_app || (progress cbn [length])). lia.
Qed.

(** ** Properties of the digest *)

Lemma send_digest_run vacancies key_skills blocks w :
  render_all 0 vacancies key_skills = Ok blocks ->
  send_digest vacancies key_skills w = (map (fun p => Answer p true) (digest_pages blocks), Ok tt).
Proof.
  intros H. unfold send_digest, digest_pages.
  rewrite (bind_ok _ _ _ _ _ (digest_loop_run 0 _ _ [] _ w H)).
  destruct (paginate [] blocks) as [pages last]. simpl.
  rewrite map_app. reflexivity.
Qed.

(** [C6] No block is split and none is omitted: the pages are the
    concatenations of consecutive runs of the blocks, which together are
    all the blocks, in order. *)
Theorem digest_pages_groups blocks :
  blocks <> [] -> Forall (fun b => b <> []) blocks ->
  exists groups, blocks = concat groups /\ digest_pages blocks = map (@concat Z) groups.
Proof.
  intros Hne Hbs. destruct (paginate_groups [] blocks) as (gs & last & H1 & H2 & H3 & H4).
  simpl in H1, H2, H3. exists (gs ++ [last]).
  rewrite concat_app. simpl. rewrite app_nil_r. split; [exact H3|].
  unfold digest_pages. rewrite (surjective_pairing (paginate [] blocks)), H1, H2.
  rewrite map_app. simpl. f_equal.
  destruct (text_eqb_spec (concat last) []) as [E|]; [|reflexivity]. exfalso.
  destruct last as [|b last]; [exact (H4 Hne eq_refl)|]. simpl in E.
  apply app_eq_nil in E as [Eb _]. rewrite Forall_forall in Hbs. apply (Hbs b); [|exact Eb].
  rewrite H3. apply in_or_app. right. left. reflexivity.
Qed.

(** Pages of non-empty blocks shorter than 4096 characters are non-empty
    and shorter than 4096 characters. *)
Lemma digest_pages_bounds blocks :
  Forall (fun b => 0 < length b < max_message) blocks ->
  Forall (fun p => 0 < length p < max_message) (digest_pages blocks).
Proof.
  intros Hbs. destruct (paginate_bounds [] blocks ltac:(cbv; lia) Hbs) as [H1 H2].
  unfold digest_pages. destruct (paginate [] blocks) as [pages last]. simpl in H1, H2.
  apply Forall_app. split; [exact H1|]. constructor; [|constructor].
  destruct (text_eqb_spec last []) as [->|Hne]; [cbv; lia|].
  destruct last; [congruence|]. simpl in *. lia.
Qed.

Lemma render_all_length i vacancies key_skills blocks :
  render_all i vacancies key_skills = Ok blocks -> Forall (fun b => (58 <= length b)%nat) blocks.
Proof.
  revert i blocks. induction vacancies as [|v vs IH]; intros i blocks H; simpl in H; [inv H; constructor|].
  destruct (render_block i v key_skills) as [b|] eqn:Eb; [|discriminate]. simpl in H.
  destruct (render_all (S i) vs key_skills) as [bs|] eqn:Ebs; [|discriminate]. inv H.
  constructor; [exact (render_block_length _ _ _ _ Eb) | exact (IH _ _ Ebs)].
Qed.

(** [C7] When every vacancy renders to a block shorter than 4096
    characters, [cmd_job] sends only non-empty messages shorter than 4096
    characters, all without link preview. *)
Theorem send_digest_bounds vacancies key_skills blocks w :
  render_all 0 vacancies key_skills = Ok blocks ->
  Forall (fun b => length b < max_message) blocks ->
  Forall (fun e => exists p, e = Answer p true /\ 0 < length p < max_message)
         (fst (send_digest vacancies key_skills w)).
Proof.
  intros H Hlt. rewrite (send_digest_run _ _ _ w H). cbn [fst].
  assert (Hb : Forall (fun b => 0 < length b < max_message) blocks).
  { apply Forall_forall. intros b Hin. split; [|exact (proj1 (Forall_forall _ _) Hlt b Hin)].
    pose proof (proj1 (Forall_forall _ _) (render_all_length _ _ _ _ H) b Hin) as Hl.
    cbv beta in Hl. lia. }
  apply Forall_map. refine (Forall_impl _ _ (digest_pages_bounds _ Hb)).
  intros p Hp. exists p. split; [reflexivity | exact Hp].
Qed.

(** [C8] A first block of 4096 characters or more makes the first
    message sent the empty string ([mes] is still [''] when it is
    flushed), which Telegram rejects. *)
Theorem digest_pages_oversize_first b rest :
  max_message <= length b -> hd_error (digest_pages (b :: rest)) = Some [].
Proof.
  intros H. unfold digest_pages. rewrite paginate_cons. simpl app at 1.
  destruct (Nat.ltb_spec (length b) max_message); [lia|]. reflexivity.
Qed.

(** ** The salary line *)

Lemma salary_obj_get from to currency :
  truthy (salary_obj from to currency) = true /\
  py_getitem (salary_obj from to currency) ⟪"from"⟫ = Ok from /\
  py_getitem (salary_obj from to currency) ⟪"to"⟫ = Ok to.
Proof. repeat split; reflexivity. Qed.

Lemma salary_bound_int (a : Z) : a <> 0%Z -> salary_bound (JInt a) = Ok (Some (Fmt.number_format a)).
Proof. intros Ha. unfold salary_bound. simpl. destruct (Z.eqb_spec a 0); [contradiction | reflexivity]. Qed.

Lemma opt_truthy_number_format (a : Z) : opt_truthy (Some (Fmt.number_format a)) = true.
Proof.
  simpl. destruct (text_eqb_spec (Fmt.number_format a) []) as [E|]; [|reflexivity].
  exfalso. exact (Fmt.number_format_nonempty a E).
Qed.

Ltac salary_simpl :=
  unfold salary_line;
  repeat first
    [ rewrite (proj1 (salary_obj_get _ _ _))
    | rewrite (proj1 (proj2 (salary_obj_get _ _ _)))
    | rewrite (proj2 (proj2 (salary_obj_get _ _ _)))
    | progress cbn [rbind]
    | match goal with
      | H : ?a <> 0%Z |- context [salary_bound (JInt ?a)] => rewrite (salary_bound_int a H)
      end
    | progress cbn [salary_bound truthy] ];
  unfold salary_text; rewrite ?opt_truthy_number_format; cbn [opt_truthy andb fmt_opt].

(** [C15] The salary line of the three cases of the spec, whatever the
    currency: [от <from>], [до <to>] and [от <from> до <to>], the numbers
    grouped by [number_format], followed by [" RUB"]. *)
Theorem salary_line_cases (a b : Z) (currency : json) :
  a <> 0%Z -> b <> 0%Z ->
  salary_line (salary_obj (JInt a) JNull currency)
    = Ok (⟪"от "⟫ ++ Fmt.number_format a ++ ⟪" RUB"⟫ ++ [10%Z]) /\
  salary_line (salary_obj JNull (JInt b) currency)
    = Ok (⟪"до "⟫ ++ Fmt.number_format b ++ ⟪" RUB"⟫ ++ [10%Z]) /\
  salary_line (salary_obj (JInt a) (JInt b) currency)
    = Ok (⟪"от "⟫ ++ Fmt.number_format a ++ ⟪" до "⟫ ++ Fmt.number_format b ++ ⟪" RUB"⟫ ++ [10%Z]).
Proof.
  intros Ha Hb. repeat split; salary_simpl; simpl; rewrite <- ?app_assoc; reflexivity.
Qed.

(** ** A vacancy that cannot be rendered *)

(** [C28] A vacancy whose block raises (a missing field, an experience or
    a skill that is not a string) aborts [cmd_job] with that exception:
    the pages filled by the vacancies before it have been sent, the page
    being filled is lost, and nothing else is sent. *)
Theorem send_digest_bad_vacancy good bad rest key_skills blocks e w :
  render_all 0 good key_skills = Ok blocks ->
  render_block (length good) bad key_skills = Err e ->
  send_digest (good ++ bad :: rest) key_skills w
  = (map (fun p => Answer p true) (fst (paginate [] blocks)), Err e).
Proof.
  intros Hgood Hbad. unfold send_digest. apply bind_err.
  rewrite (digest_loop_app _ _ _ _ _ _ _ Hgood).
  rewrite (digest_loop_bad (0 + length good) bad rest key_skills _ e w Hbad).
  rewrite app_nil_r. reflexivity.
Qed.

(** ** Witnesses *)

Lemma digest_pages_groups_witness :
  exists groups, [⟪"a"⟫; ⟪"b"⟫] = concat groups /\
                 digest_pages [⟪"a"⟫; ⟪"b"⟫] = map (@concat Z) groups.
Proof. apply digest_pages_groups; [discriminate | repeat constructor; discriminate]. Defined.

Lemma send_digest_bad_vacancy_witness :
  send_digest ([ex_vacancy] ++ [ex_bad_vacancy]) (ex_key_skills ++ [None]) ex_world
  = (map (fun p => Answer p true) (fst (paginate [] ex_blocks)), Err (KeyError ⟪"experience"⟫)).
Proof.
  apply (send_digest_bad_vacancy [ex_vacancy] ex_bad_vacancy [] (ex_key_skills ++ [None]) ex_blocks
           (KeyError ⟪"experience"⟫) ex_world).
  - vm_compute. reflexivity.
  - vm_compute. reflexivity.
Defined.

Lemma send_digest_bounds_witness :
  Forall (fun e => exists p, e = Answer p true /\ 0 < length p < max_message)
         (fst (send_digest [ex_vacancy] ex_key_skills ex_world)).
Proof.
  apply (send_digest_bounds [ex_vacancy] ex_key_skills ex_blocks ex_world).
  - vm_compute. reflexivity.
  - vm_compute. repeat constructor.
Defined.

Lemma digest_pages_oversize_first_witness :
  hd_error (digest_pages [py_repeat ⟪"="⟫ 4096]) = Some [].
Proof. apply digest_pages_oversize_first. rewrite length_py_repeat. cbv. lia. Defined.

Lemma salary_line_cases_witness :
  salary_line (salary_obj (JInt 100000) JNull (JStr ⟪"USD"⟫))
    = Ok (⟪"от "⟫ ++ Fmt.number_format 100000 ++ ⟪" RUB"⟫ ++ [10%Z]) /\
  salary_line (salary_obj JNull (JInt 150000) (JStr ⟪"USD"⟫))
    = Ok (⟪"до "⟫ ++ Fmt.number_format 150000 ++ ⟪" RUB"⟫ ++ [10%Z]) /\
  salary_line (salary_obj (JInt 100000) (JInt 150000) (JStr ⟪"USD"⟫))
    = Ok (⟪"от "⟫ ++ Fmt.number_format 100000 ++ ⟪" до "⟫ ++ Fmt.number_format 150000
          ++ ⟪" RUB"⟫ ++ [10%Z]).
Proof. apply salary_line_cases; lia. Defined.

End Digest.
