(* ===== verification/SkillRank.v ===== *)
(** * SkillFrequencyRanker: the tally and the top ten of [cmd_enter_count]

    Lines 186-201 of handlers.py count the key skill names of all the
    vacancies in the insertion ordered dict [key_skills_count] (a [None]
    entry is skipped, every occurrence counts), sort its items by count
    with [sorted(..., key=lambda x: x[1], reverse=True)], which is stable,
    and keep the first ten as the labels and values of the chart.

    The dict is an association list in insertion order; its keys are the
    JSON values of [key_skill['name']], compared with Python's [==] (a
    [bool] equals the [int] of the same value) and rejected with
    [TypeError] when unhashable (a list or a dict).  [sort_desc] is a
    stable insertion sort; the theorems show it sorts, permutes and keeps
    the order of equal counts, which is what [sorted] promises.  Python's
    [==] is the partial equivalence [key_eq] (reflexive on hashable values
    only), with [Proper] instances for [py_key_eq] and [occurrences], so
    that a name can be rewritten into any [==] one ([tally_lookup]). *)

From Stdlib Require Import String.
From Stdlib Require Import List ZArith Lia Bool Permutation Sorted Morphisms RelationClasses Setoid.
From S2P Require Import Prelude NumberFormat Json.
Import ListNotations.
Import Py.

Module Rank.

(** ** Dictionary keys *)

(** [hash(v)] succeeds. *)
Definition hashable (v : json) : bool :=
  match v with JArr _ | JObj _ => false | _ => true end.

Definition py_num (v : json) : option Z :=
  match v with JInt z => Some z | JBool b => Some (if b then 1 else 0)%Z | _ => None end.

(** [a == b] on hashable JSON values. *)
Definition py_key_eq (a b : json) : bool :=
  match a, b with
  | JStr s, JStr t => text_eqb s t
  | JNull, JNull => true
  | _, _ => match py_num a, py_num b with Some x, Some y => Z.eqb x y | _, _ => false end
  end.

(** Python's [==] as a relation: a partial equivalence, reflexive on
    hashable values only. *)
Definition key_eq (a b : json) : Prop := py_key_eq a b = true.

(** ** The tally (lines 186-195) *)

Definition counts := list (json * Z).

(** [key_skills_count[key_skill]]: the value of the entry whose key is
    [==] to [key_skill]. *)
Fixpoint dict_get (d : counts) (key_skill : json) : option Z :=
  match d with
  | [] => None
  | (k, c) :: rest => if py_key_eq k key_skill then Some c else dict_get rest key_skill
  end.

(** [if key_skill not in key_skills_count: ... = 1 else: ... += 1] *)
Definition tally_one (key_skills_count : counts) (key_skill : json) : result counts :=
  if hashable key_skill then
    if existsb (fun '(k, _) => py_key_eq k key_skill) key_skills_count
    then Ok (map (fun '(k, c) => if py_key_eq k key_skill then (k, c + 1)%Z else (k, c))
                 key_skills_count)
    else Ok (key_skills_count ++ [(key_skill, 1%Z)])
  else Err TypeError.

(** [for key_skill in key_skills: ...] *)
Fixpoint tally_list (acc : counts) (key_skills : list json) : result counts :=
  match key_skills with
  | [] => Ok acc
  | key_skill :: rest => let? acc' := tally_one acc key_skill in tally_list acc' rest
  end.

(** [for key_skills in key_skills_array: if key_skills is None: continue; ...] *)
Fixpoint tally (acc : counts) (key_skills_array : list (option (list json))) : result counts :=
  match key_skills_array with
  | [] => Ok acc
  | None :: rest => tally acc rest
  | Some key_skills :: rest => let? acc' := tally_list acc key_skills in tally acc' rest
  end.

(** ** Sorting and the top ten (lines 197-201) *)

(** Insert after every item whose count is at least the new one's. *)
Fixpoint insert_desc (x : json * Z) (l : counts) : counts :=
  match l with
  | [] => [x]
  | y :: rest => if (snd y <? snd x)%Z then x :: l else y :: insert_desc x rest
  end.

(** [sorted(items, key=lambda x: x[1], reverse=True)] *)
Definition sort_desc (items : counts) : counts :=
  fold_left (fun acc x => insert_desc x acc) items [].

Definition diagram_field_count : nat := 10.

(** [sorted(...)[:diagram_field_count]] *)
Definition top_skills (key_skills_count : counts) : counts :=
  firstn diagram_field_count (sort_desc key_skills_count).

(** Lines 167 and 186-199: [key_skills_count = {}], the tally, and
    [sorted_key_skills]. *)
Definition key_skills_ranking (key_skills_array : list (option (list json))) : result counts :=
  let? key_skills_count := tally [] key_skills_array in
  Ok (top_skills key_skills_count).

(** [labels = [i[0] for i in sorted_key_skills]] and
    [values = [i[1] for i in sorted_key_skills]]: the slices of the pie,
    each label drawn by matplotlib's [Text.set_text]: [''] for [None],
    [str(label)] otherwise. *)
Definition chart_slices (sorted_key_skills : counts) : list (text * Z) :=
  map (fun '(label, value) => (match label with JNull => [] | _ => py_str label end, value))
      sorted_key_skills.

(** ** The specification of the tally *)

(** The skill names of all the vacancies, in order ([None] skipped). *)
Definition all_skills (key_skills_array : list (option (list json))) : list json :=
  concat (map (fun o => match o with Some l => l | None => [] end) key_skills_array).

(** The distinct names, each at its first occurrence. *)
Definition first_seen (xs : list json) : list json :=
  fold_left (fun acc x => if existsb (fun k => py_key_eq k x) acc then acc else acc ++ [x]) xs [].

Definition occurrences (k : json) (xs : list json) : Z :=
  Z.of_nat (length (filter (py_key_eq k) xs)).

(** Every distinct name with the number of its occurrences, in the order
    of first occurrence. *)
Definition frequency_table (xs : list json) : counts :=
  map (fun k => (k, occurrences k xs)) (first_seen xs).

(** The order [sort_desc] produces: counts do not increase. *)
Definition desc (a b : json * Z) : Prop := (snd b <= snd a)%Z.

(** The items with a given count. *)
Definition with_count (c : Z) (l : counts) : counts := filter (fun p => Z.eqb (snd p) c) l.

(** ** [==] on hashable values is an equivalence *)

Lemma py_key_eq_refl v : hashable v = true -> py_key_eq v v = true.
Proof.
  destruct v; simpl; intros H; try discriminate; auto with herald;
    try apply Z.eqb_refl.
Qed.

Lemma py_key_eq_sym a b : py_key_eq a b = py_key_eq b a.
Proof.
  destruct a, b; simpl; try reflexivity; try apply Z.eqb_sym;
    try (destruct b; reflexivity); try (destruct b0; reflexivity).
  destruct (text_eqb_spec s s0), (text_eqb_spec s0 s); congruence.
Qed.

Lemma py_key_eq_trans a b c :
  py_key_eq a b = true -> py_key_eq b c = true -> py_key_eq a c = true.
Proof.
  destruct a, b, c; simpl; try discriminate; auto;
    repeat match goal with
    | |- context [text_eqb ?x ?y] => destruct (text_eqb_spec x y)
    | |- context [Z.eqb ?x ?y] => destruct (Z.eqb_spec x y)
    | b : bool |- _ => destruct b
    end; intros; subst; try congruence; lia.
Qed.

#[export] Instance key_eq_sym : Symmetric key_eq.
Proof. intros a b H. unfold key_eq in *. rewrite py_key_eq_sym. exact H. Qed.

#[export] Instance key_eq_trans : Transitive key_eq.
Proof. intros a b c. apply py_key_eq_trans. Qed.

#[export] Instance key_eq_per : RelationClasses.PER key_eq := {}.

#[export] Instance py_key_eq_proper : Proper (key_eq ==> key_eq ==> eq) py_key_eq.
Proof.
  intros a a' Ha b b' Hb. destruct (py_key_eq a b) eqn:E; symmetry.
  - change (key_eq a' b'). rewrite <- Ha, <- Hb. exact E.
  - apply not_true_iff_false. intros E'. apply not_true_iff_false in E. apply E.
    change (key_eq a b). rewrite Ha, Hb. exact E'.
Qed.

(** The number of occurrences of a name does not depend on which of the
    [==] values names it ([True] and [1] count together). *)
#[export] Instance occurrences_proper : Proper (key_eq ==> eq ==> eq) occurrences.
Proof.
  intros k k' Hk xs xs' <-. unfold occurrences. do 2 f_equal. apply filter_ext_in.
  intros x _. destruct (py_key_eq k x) eqn:E, (py_key_eq k' x) eqn:E'; try reflexivity.
  - rewrite <- E'. symmetry. change (key_eq k' x). rewrite <- Hk. exact E.
  - rewrite <- E. change (key_eq k x). rewrite Hk. exact E'.
Qed.

(** ** The tally computes the frequency table *)

Lemma tally_list_app acc xs ys :
  tally_list acc (xs ++ ys) = let? a := tally_list acc xs in tally_list a ys.
Proof.
  revert acc. induction xs as [|x xs IH]; intros acc; simpl; [reflexivity|].
  destruct (tally_one acc x); simpl; [apply IH | reflexivity].
Qed.

Lemma tally_all_skills acc arr : tally acc arr = tally_list acc (all_skills arr).
Proof.
  revert acc. induction arr as [|[l|] arr IH]; intros acc; simpl; [reflexivity| |apply IH].
  unfold all_skills in *. simpl. rewrite tally_list_app.
  destruct (tally_list acc l); simpl; [apply IH | reflexivity].
Qed.

Lemma first_seen_snoc xs x :
  first_seen (xs ++ [x]) =
  if existsb (fun k => py_key_eq k x) (first_seen xs) then first_seen xs else first_seen xs ++ [x].
Proof. unfold first_seen at 1. rewrite fold_left_app. reflexivity. Qed.

Lemma occurrences_snoc k xs x :
  occurrences k (xs ++ [x]) = (occurrences k xs + if py_key_eq k x then 1 else 0)%Z.
Proof.
  unfold occurrences. rewrite filter_app, length_app, Nat2Z.inj_add. simpl.
  destruct (py_key_eq k x); reflexivity.
Qed.

(** Every hashable name has a representative among the first occurrences. *)
Lemma first_seen_repr xs y :
  In y xs -> hashable y = true -> exists k, In k (first_seen xs) /\ py_key_eq k y = true.
Proof.
  induction xs as [|x xs IH] using rev_ind; simpl; [tauto|].
  intros Hin Hy. rewrite first_seen_snoc.
  apply in_app_or in Hin as [Hin|[->|[]]].
  - destruct (IH Hin Hy) as [k [Hk Hky]]. exists k. split; [|exact Hky].
    destruct (existsb _ _); [exact Hk | apply in_or_app; left; exact Hk].
  - destruct (existsb (fun k => py_key_eq k y) (first_seen xs)) eqn:E.
    + apply existsb_exists in E. exact E.
    + exists y. split; [apply in_or_app; right; left; reflexivity | apply py_key_eq_refl, Hy].
Qed.

Lemma occurrences_fresh xs x :
  Forall (fun v => hashable v = true) xs ->
  existsb (fun k => py_key_eq k x) (first_seen xs) = false -> occurrences x xs = 0%Z.
Proof.
  intros Hh Hx. unfold occurrences. rewrite filter_none; [reflexivity|].
  intros y Hy. apply not_true_iff_false. intros Hxy.
  rewrite Forall_forall in Hh. destruct (first_seen_repr xs y Hy (Hh y Hy)) as [k [Hk Hky]].
  apply not_true_iff_false in Hx. apply Hx, existsb_exists. exists k. split; [exact Hk|].
  apply (py_key_eq_trans _ y); [exact Hky|]. rewrite py_key_eq_sym. exact Hxy.
Qed.

Lemma existsb_frequency_table xs x :
  existsb (fun '(k, _) => py_key_eq k x) (frequency_table xs) =
  existsb (fun k => py_key_eq k x) (first_seen xs).
Proof. unfold frequency_table. induction (first_seen xs) as [|k ks IH]; simpl; congruence. Qed.

Lemma tally_list_frequency_table xs :
  Forall (fun v => hashable v = true) xs -> tally_list [] xs = Ok (frequency_table xs).
Proof.
  induction xs as [|x xs IH] using rev_ind; intros Hh; [reflexivity|].
  apply Forall_app in Hh as [Hxs Hx]. inversion Hx as [|? ? Hxh _]; subst.
  rewrite tally_list_app, (IH Hxs). simpl. unfold tally_one. rewrite Hxh.
  rewrite existsb_frequency_table. unfold frequency_table. rewrite first_seen_snoc.
  destruct (existsb (fun k => py_key_eq k x) (first_seen xs)) eqn:E; cbn [rbind tally_list].
  - rewrite map_map. f_equal. apply map_ext. intros k.
    rewrite occurrences_snoc. destruct (py_key_eq k x); [reflexivity|]. rewrite Z.add_0_r. reflexivity.
  - rewrite map_app. simpl. f_equal. f_equal; [apply map_ext_in|].
    + intros k Hk. rewrite occurrences_snoc.
      assert (Hkx : py_key_eq k x = false).
      { apply not_true_iff_false. intros Hkx. apply not_true_iff_false in E. apply E.
        apply existsb_exists. eauto. }
      rewrite Hkx, Z.add_0_r. reflexivity.
    + rewrite occurrences_snoc, (occurrences_fresh xs x Hxs E), py_key_eq_refl by exact Hxh.
      reflexivity.
Qed.

(** ** The sort is stable and descending *)

Lemma insert_desc_perm x l : Permutation (x :: l) (insert_desc x l).
Proof.
  induction l as [|y l IH]; simpl; [reflexivity|].
  match goal with |- context [if ?b then _ else _] => destruct b end; [reflexivity|].
  etransitivity; [apply perm_swap|]. apply perm_skip, IH.
Qed.

Lemma insert_desc_sorted x l : StronglySorted desc l -> StronglySorted desc (insert_desc x l).
Proof.
  induction l as [|y l IH]; simpl; intros H; [repeat constructor|].
  apply StronglySorted_inv in H as [Hl Hy].
  destruct (Z.ltb_spec (snd y) (snd x)) as [Hlt|Hge].
  - constructor; [constructor; assumption|]. constructor; [unfold desc; lia|].
    rewrite Forall_forall in *. intros z Hz. specialize (Hy z Hz). unfold desc in *. lia.
  - constructor; [exact (IH Hl)|]. rewrite Forall_forall in *. intros z Hz.
    apply (Permutation_in _ (Permutation_sym (insert_desc_perm x l))) in Hz as [<-|Hz];
      [unfold desc; lia | exact (Hy z Hz)].
Qed.

Lemma insert_desc_with_count c x l :
  StronglySorted desc l -> with_count c (insert_desc x l) = with_count c l ++ with_count c [x].
Proof.
  induction l as [|y l IH]; simpl; intros H; [reflexivity|].
  apply StronglySorted_inv in H as [Hl Hy].
  destruct (Z.ltb_spec (snd y) (snd x)) as [Hlt|Hge].
  - unfold with_count. simpl. destruct (Z.eqb_spec (snd x) c) as [Hx|Hx]; simpl.
    + rewrite filter_none; [destruct (Z.eqb_spec (snd y) c); [lia|reflexivity]|].
      intros z Hz. rewrite Forall_forall in Hy. specialize (Hy z Hz). unfold desc in Hy.
      apply Z.eqb_neq. lia.
    + rewrite app_nil_r. reflexivity.
  - unfold with_count in *. simpl. rewrite (IH Hl). destruct (Z.eqb (snd y) c); reflexivity.
Qed.

Lemma sort_aux_props acc l :
  StronglySorted desc acc ->
  let r := fold_left (fun acc x => insert_desc x acc) l acc in
  Permutation (acc ++ l) r /\ StronglySorted desc r /\
  (forall c, with_count c r = with_count c acc ++ with_count c l).
Proof.
  revert acc. induction l as [|x l IH]; intros acc Hacc; simpl.
  - rewrite app_nil_r. repeat split; [reflexivity | assumption |]. intros c. unfold with_count. simpl.
    rewrite app_nil_r. reflexivity.
  - destruct (IH (insert_desc x acc) (insert_desc_sorted x acc Hacc)) as (H1 & H2 & H3).
    repeat split; [|exact H2|].
    + rewrite <- H1. pose proof (Permutation_app_tail l (insert_desc_perm x acc)) as Hp.
      rewrite <- Hp. simpl. symmetry. apply Permutation_middle.
    + intros c. rewrite H3, (insert_desc_with_count c x acc Hacc), <- app_assoc.
      unfold with_count. simpl. destruct (Z.eqb (snd x) c); reflexivity.
Qed.

(** ** Properties of the ranking *)

(** [C12] [sort_desc] is the stable descending sort: its result is a
    permutation of the items, sorted by count from the largest, and the
    items of each count keep their order. *)
Theorem sort_desc_spec (items : counts) :
  Permutation items (sort_desc items) /\ StronglySorted desc (sort_desc items) /\
  (forall c, with_count c (sort_desc items) = with_count c items).
Proof.
  destruct (sort_aux_props [] items (SSorted_nil _)) as (H1 & H2 & H3).
  repeat split; [exact H1 | exact H2 |]. intros c. rewrite H3. reflexivity.
Qed.

Lemma tally_one_err acc v e : tally_one acc v = Err e -> e = TypeError /\ hashable v = false.
Proof. unfold tally_one. destruct (hashable v); [destruct (existsb _ _)|]; intros H; inv H; auto. Qed.

Lemma tally_list_unhashable acc xs v :
  In v xs -> hashable v = false -> tally_list acc xs = Err TypeError.
Proof.
  revert acc. induction xs as [|x xs IH]; simpl; intros acc Hin Hv; [contradiction|].
  destruct (tally_one acc x) as [acc'|e] eqn:E; simpl.
  - destruct Hin as [->|Hin]; [unfold tally_one in E; rewrite Hv in E; discriminate|].
    exact (IH acc' Hin Hv).
  - apply tally_one_err in E as [-> _]. reflexivity.
Qed.

Lemma tally_ranking key_skills_array :
  Forall (fun v => hashable v = true) (all_skills key_skills_array) ->
  key_skills_ranking key_skills_array
    = Ok (top_skills (frequency_table (all_skills key_skills_array))).
Proof.
  intros H. unfold key_skills_ranking. rewrite tally_all_skills, (tally_list_frequency_table _ H).
  reflexivity.
Qed.

(** [C11] When every skill name is hashable (the hh.ru names are
    strings), the dict the loop builds is the frequency table: every
    distinct name once, in the order of its first occurrence, with the
    number of its occurrences over all the vacancies. *)
Theorem tally_frequency_table key_skills_array :
  Forall (fun v => hashable v = true) (all_skills key_skills_array) ->
  tally [] key_skills_array = Ok (frequency_table (all_skills key_skills_array)).
Proof. intros H. rewrite tally_all_skills. exact (tally_list_frequency_table _ H). Qed.

(** [C14] A skill name that is a list or a dict makes the tally raise
    [TypeError] (unhashable key). *)
Theorem key_skills_ranking_unhashable key_skills_array v :
  In v (all_skills key_skills_array) -> hashable v = false ->
  key_skills_ranking key_skills_array = Err TypeError.
Proof.
  intros Hin Hv. unfold key_skills_ranking.
  rewrite tally_all_skills, (tally_list_unhashable _ _ v Hin Hv). reflexivity.
Qed.

Lemma StronglySorted_app_l {A} (R : A -> A -> Prop) l1 l2 :
  StronglySorted R (l1 ++ l2) -> StronglySorted R l1.
Proof.
  induction l1 as [|x l1 IH]; simpl; intros H; [constructor|].
  apply StronglySorted_inv in H as [H Hx]. constructor; [exact (IH H)|].
  rewrite Forall_forall in *. intros y Hy. apply Hx, in_or_app. left. exact Hy.
Qed.

Lemma StronglySorted_app_across {A} (R : A -> A -> Prop) l1 l2 p q :
  StronglySorted R (l1 ++ l2) -> In p l1 -> In q l2 -> R p q.
Proof.
  induction l1 as [|x l1 IH]; simpl; intros H Hp Hq; [contradiction|].
  apply StronglySorted_inv in H as [H Hx]. destruct Hp as [<-|Hp]; [|exact (IH H Hp Hq)].
  rewrite Forall_forall in Hx. apply Hx, in_or_app. right. exact Hq.
Qed.

Lemma sort_desc_perm l : Permutation l (sort_desc l).
Proof.
  unfold sort_desc. rewrite <- (app_nil_l l) at 1. generalize (@nil (json * Z)).
  induction l as [|x l IH]; intros acc; simpl; [rewrite app_nil_r; reflexivity|].
  rewrite <- IH, <- Permutation_middle. exact (Permutation_app_tail l (insert_desc_perm x acc)).
Qed.

(** [C13] The chart shows ten skills, or all of them when there are
    fewer, sorted by count from the largest, and no skill left out occurs
    more often than one shown. *)
Theorem top_skills_spec (key_skills_count : counts) :
  length (top_skills key_skills_count) = Nat.min diagram_field_count (length key_skills_count) /\
  StronglySorted desc (top_skills key_skills_count) /\
  (forall p q, In p (top_skills key_skills_count) -> In q key_skills_count ->
               ~ In q (top_skills key_skills_count) -> (snd q <= snd p)%Z).
Proof.
  destruct (sort_desc_spec key_skills_count) as (Hp & Hs & _). unfold top_skills.
  rewrite <- (firstn_skipn diagram_field_count (sort_desc key_skills_count)) in Hs, Hp.
  repeat split.
  - rewrite length_firstn, <- (Permutation_length (sort_desc_perm key_skills_count)). reflexivity.
  - exact (StronglySorted_app_l _ _ _ Hs).
  - intros p q Hin Hq Hnot. apply (Permutation_in _ Hp) in Hq.
    apply in_app_or in Hq as [Hq|Hq]; [contradiction|].
    exact (StronglySorted_app_across desc _ _ p q Hs Hin Hq).
Qed.

(** ** Looking a name up in the dict *)

Lemma first_seen_incl xs k : In k (first_seen xs) -> In k xs.
Proof.
  induction xs as [|x xs IH] using rev_ind; [intros []|]. rewrite first_seen_snoc. intros H.
  apply in_or_app. destruct (existsb _ _); [left; exact (IH H)|].
  apply in_app_or in H as [H|H]; [left; exact (IH H) | right; exact H].
Qed.

Lemma dict_get_frequency_table xs k :
  dict_get (frequency_table xs) k
  = option_map (fun k' => occurrences k' xs) (find (fun k' => py_key_eq k' k) (first_seen xs)).
Proof.
  unfold frequency_table. induction (first_seen xs) as [|k' ks IH]; [reflexivity|].
  simpl. destruct (py_key_eq k' k); [reflexivity | exact IH].
Qed.

Lemma tally_ok_hashable key_skills_array d :
  tally [] key_skills_array = Ok d -> Forall (fun v => hashable v = true) (all_skills key_skills_array).
Proof.
  intros H. apply Forall_forall. intros v Hin. destruct (hashable v) eqn:E; [reflexivity|].
  rewrite tally_all_skills, (tally_list_unhashable _ _ v Hin E) in H. discriminate.
Qed.

(** [C29] After the tally, [key_skills_count[k]] for a hashable [k] is the
    number of names [==] to [k] over all the vacancies ([True] and [1]
    share one entry), and [k] has no entry when that number is zero. *)
Theorem tally_lookup key_skills_array d k :
  tally [] key_skills_array = Ok d -> hashable k = true ->
  dict_get d k = (let n := occurrences k (all_skills key_skills_array) in
                  if (0 <? n)%Z then Some n else None).
Proof.
  intros H Hk. pose proof (tally_ok_hashable _ _ H) as Hh.
  rewrite tally_all_skills, (tally_list_frequency_table _ Hh) in H. inv H.
  rewrite dict_get_frequency_table. cbv zeta.
  destruct (find (fun k' => py_key_eq k' k) (first_seen _)) as [k'|] eqn:F.
  - apply find_some in F as [Hin Hk'k]. change (key_eq k' k) in Hk'k. cbn [option_map].
    rewrite Hk'k. destruct (Z.ltb_spec 0 (occurrences k (all_skills key_skills_array))) as [|Hle];
      [reflexivity|]. exfalso.
    unfold occurrences in Hle. destruct (filter (py_key_eq k) _) eqn:Ef; [|simpl in Hle; lia].
    assert (Hk' : In k' (filter (py_key_eq k) (all_skills key_skills_array))).
    { apply filter_In. split; [exact (first_seen_incl _ _ Hin)|]. change (key_eq k k').
      symmetry. exact Hk'k. }
    rewrite Ef in Hk'. exact Hk'.
  - rewrite (occurrences_fresh _ k Hh); [reflexivity|].
    apply not_true_iff_false. intros E. apply existsb_exists in E as (k' & Hin & Hk').
    rewrite (find_none _ _ F k' Hin) in Hk'. discriminate.
Qed.

(** ** Witnesses *)

Lemma tally_frequency_table_witness :
  tally [] [Some [JStr ⟪"Go"⟫; JInt 1]; None; Some [JBool true]]
    = Ok (frequency_table (all_skills [Some [JStr ⟪"Go"⟫; JInt 1]; None; Some [JBool true]])).
Proof. apply tally_frequency_table. repeat constructor. Defined.

Lemma key_skills_ranking_unhashable_witness :
  key_skills_ranking [Some [JStr ⟪"Go"⟫; JArr []]] = Err TypeError.
Proof. apply (key_skills_ranking_unhashable _ (JArr [])); [simpl; auto | reflexivity]. Defined.

Lemma tally_lookup_witness :
  dict_get (match tally [] [Some [JInt 1; JStr ⟪"SQL"⟫]; None; Some [JBool true]] with
            | Ok d => d | Err _ => [] end) (JBool true) = Some 2%Z.
Proof.
  apply (tally_lookup [Some [JInt 1; JStr ⟪"SQL"⟫]; None; Some [JBool true]]
           [(JInt 1, 2%Z); (JStr ⟪"SQL"⟫, 1%Z)] (JBool true)); vm_compute; reflexivity.
Defined.

End Rank.
