(* ===== verification/Handlers.v ===== *)
(** * The two hh.ru handlers, [cmd_job] and [cmd_enter_count]

    After the conversation has produced the keyword (see [Router]), both
    handlers search hh.ru (lines 57-67 and 166-177), fan out the detail
    requests (lines 68-75 and 178-184) and then either send the digest
    (lines 77-116) or rank the skills and send the chart (lines 186-208).
    When the search response is not [ok] they send ["Ошибка"] and go on
    reading the body (lines 64-67 and 174-177). *)

From Stdlib Require Import String.
From Stdlib Require Import List ZArith Lia Bool.
From S2P Require Import Prelude NumberFormat Json Effects KeySkills Digest SkillRank.
Import ListNotations.
Import Py Eff.

Module Handlers.

(** [f"https://api.hh.ru/vacancies?text={keyword}&area=1&per_page={page_count}"]
    (lines 61 and 171). *)
Definition search_url (keyword : text) (page_count : Z) : text :=
  ⟪"https://api.hh.ru/vacancies?text="⟫ ++ keyword ++ ⟪"&area=1&per_page="⟫
  ++ Fmt.py_str_int page_count.

Definition error_message := ⟪"Ошибка"⟫.

(** Lines 61-67 (and 171-177): the search request; on a response that is
    not [ok] the error message is sent and the body is read anyway.
    [no_preview] is the [disable_web_page_preview] argument of that
    message ([True] in [cmd_job], absent in [cmd_enter_count]). *)
Definition search (keyword : text) (page_count : Z) (no_preview : bool) : M (list json) :=
  let url := search_url keyword page_count in
  emit (Get url) ;;
  w <- ask ;;
  match http_get w url with
  | Transport => raise ClientError
  | Responded r =>
      (if resp_ok r then ret tt else emit (Answer error_message no_preview)) ;;
      match resp_body r with
      | None => raise ContentTypeError
      | Some body =>
          vacancies <- lift (py_getitem body ⟪"items"⟫) ;;
          lift (py_iter vacancies)
      end
  end.

(** [cmd_job] after the keyword is read (lines 57-116). *)
Definition job_digest (keyword : text) : M unit :=
  vacancies <- search keyword 30 true ;;
  key_skills <- Fetch.fetch_all vacancies ;;
  Digest.send_digest vacancies key_skills.

Definition diagram_path := ⟪"img/diagram.png"⟫.

(** [cmd_enter_count] after the keyword is read (lines 166-208). *)
Definition skills_chart (keyword : text) : M unit :=
  vacancies <- search keyword 100 false ;;
  key_skills_array <- Fetch.fetch_all vacancies ;;
  sorted_key_skills <- lift (Rank.key_skills_ranking key_skills_array) ;;
  emit (SaveChart diagram_path (Rank.chart_slices sorted_key_skills)) ;;
  emit (AnswerPhoto diagram_path).

(** ** Example data *)

Definition demo_keyword := ⟪"python"⟫.

Definition demo_vacancy (id : String.string) : json :=
  JObj [(⟪"id"⟫, JStr (u id)); (⟪"name"⟫, JStr (u ("Developer " ++ id)));
        (⟪"salary"⟫, JNull);
        (⟪"experience"⟫, JObj [(⟪"name"⟫, JStr ⟪"От 1 года до 3 лет"⟫)]);
        (⟪"alternate_url"⟫, JStr (u ("https://hh.ru/vacancy/" ++ id)))].

Definition demo_items : list json := [demo_vacancy "1"; demo_vacancy "2"; demo_vacancy "3"].

Definition demo_urls : list text :=
  [⟪"https://api.hh.ru/vacancies/1"⟫; ⟪"https://api.hh.ru/vacancies/2"⟫;
   ⟪"https://api.hh.ru/vacancies/3"⟫].

(** The search answers [search_body] with status [ok]; the details are
    those of [Fetch.ex_world failing]. *)
Definition demo_world (ok : bool) (search_body : json) (failing : text) : world :=
  mk_world
    (fun url =>
       if text_eqb url (search_url demo_keyword 30) || text_eqb url (search_url demo_keyword 100)
       then Responded (mk_response ok (Some search_body))
       else http_get (Fetch.ex_world failing) url)
    (fun urls => rev (seq 0 (length urls))).

Definition demo_body : json := JObj [(⟪"items"⟫, JArr demo_items); (⟪"found"⟫, JInt 3)].

Definition demo_key_skills : list (option (list json)) :=
  [Some [JStr ⟪"Python"⟫; JStr ⟪"SQL"⟫]; Some [JStr ⟪"Python"⟫]; None].

Definition demo_blocks : list text :=
  match Digest.render_all 0 demo_items demo_key_skills with Ok bs => bs | Err _ => [] end.

Definition demo_failing_world : world :=
  demo_world true demo_body ⟪"https://api.hh.ru/vacancies/2"⟫.

Definition demo_error_body : json :=
  JObj [(⟪"errors"⟫, JArr [JObj [(⟪"type"⟫, JStr ⟪"bad_argument"⟫)]])].

(** ** Runs of the search *)

Lemma search_run keyword page_count no_preview w ok body vacancies :
  http_get w (search_url keyword page_count) = Responded (mk_response ok (Some body)) ->
  py_getitem body ⟪"items"⟫ = Ok (JArr vacancies) ->
  search keyword page_count no_preview w =
  (Get (search_url keyword page_count) :: (if ok then [] else [Answer error_message no_preview]),
   Ok vacancies).
Proof.
  intros Hget Hitems. unfold search, bind, emit, ask, lift, ret. rewrite Hget. simpl.
  rewrite Hitems. destruct ok; reflexivity.
Qed.

Lemma search_error_run keyword page_count no_preview w fields :
  http_get w (search_url keyword page_count) = Responded (mk_response false (Some (JObj fields))) ->
  obj_get fields ⟪"items"⟫ = None ->
  search keyword page_count no_preview w =
  ([Get (search_url keyword page_count); Answer error_message no_preview], Err (KeyError ⟪"items"⟫)).
Proof.
  intros Hget Hitems. unfold search, bind, emit, ask, lift, ret. rewrite Hget. simpl.
  rewrite Hitems. reflexivity.
Qed.

Lemma search_first_event keyword page_count no_preview w :
  exists rest, fst (search keyword page_count no_preview w) = Get (search_url keyword page_count) :: rest.
Proof.
  unfold search. edestruct (@bind_events_prefix unit (list json)) as [rest ->].
  exists rest. reflexivity.
Qed.

(** The first thing [cmd_job] does after reading the keyword is the
    search request for that keyword. *)
Lemma job_digest_first_event keyword w :
  hd_error (fst (job_digest keyword w)) = Some (Get (search_url keyword 30)).
Proof.
  unfold job_digest.
  edestruct (@bind_events_prefix (list json) unit (search keyword 30 true)) as [rest ->].
  destruct (search_first_event keyword 30 true w) as [rest' ->]. reflexivity.
Qed.

(** ** Properties of the handlers *)

(** [C1] [cmd_job] on a successful search whose details all arrive: one
    GET for the search, one GET per vacancy in order, then exactly the
    pages of the digest, each sent without link preview. *)
Theorem job_digest_pages keyword w body vacancies urls key_skills blocks :
  http_get w (search_url keyword 30) = Responded (mk_response true (Some body)) ->
  py_getitem body ⟪"items"⟫ = Ok (JArr vacancies) ->
  rmap Fetch.detail_url vacancies = Ok urls ->
  Forall2 (fun u ks => Fetch.fetch_result (http_get w u) = Ok ks) urls key_skills ->
  Digest.render_all 0 vacancies key_skills = Ok blocks ->
  job_digest keyword w =
  (Get (search_url keyword 30) :: map Get urls
     ++ map (fun p => Answer p true) (Digest.digest_pages blocks), Ok tt).
Proof.
  intros Hget Hitems Hurls Hfetch Hblocks. unfold job_digest.
  rewrite (bind_ok _ _ _ _ _ (search_run _ _ _ _ _ _ _ Hget Hitems)).
  rewrite (bind_ok _ _ _ _ _ (Fetch.fetch_all_ok _ _ _ _ Hurls Hfetch)).
  rewrite (Digest.send_digest_run _ _ _ _ Hblocks). reflexivity.
Qed.

Lemma fetch_all_fails vacancies urls w u :
  rmap Fetch.detail_url vacancies = Ok urls -> In u urls -> http_get w u = Transport ->
  exists e, Fetch.fetch_all vacancies w = (map Get urls, Err e).
Proof.
  intros Hu Hin Ht. rewrite (Fetch.fetch_all_run _ _ _ Hu). unfold gather_outcome.
  destruct (first_failure _ _) as [e|]; [eauto|]. unfold all_results.
  assert (Hin' : In (Fetch.fetch_result (http_get w u))
                    (map (fun u => Fetch.fetch_result (http_get w u)) urls))
    by (apply in_map_iff; eauto).
  rewrite Ht in Hin'. destruct (Fetch.rmap_err (fun r => r) _ _ ClientError Hin' eq_refl) as [e' ->].
  eauto.
Qed.

(** [C2] One detail request that fails aborts [cmd_job] before any page
    is sent: the handler raises and the user receives no digest at all
    (the spec asks for the digest with that vacancy's skills absent). *)
Theorem job_digest_detail_failure keyword w body vacancies urls u :
  http_get w (search_url keyword 30) = Responded (mk_response true (Some body)) ->
  py_getitem body ⟪"items"⟫ = Ok (JArr vacancies) ->
  rmap Fetch.detail_url vacancies = Ok urls ->
  In u urls -> http_get w u = Transport ->
  exists e, job_digest keyword w = (Get (search_url keyword 30) :: map Get urls, Err e).
Proof.
  intros Hget Hitems Hurls Hin Ht. destruct (fetch_all_fails _ _ _ _ Hurls Hin Ht) as [e He].
  exists e. unfold job_digest.
  rewrite (bind_ok _ _ _ _ _ (search_run _ _ _ _ _ _ _ Hget Hitems)).
  rewrite (bind_err _ _ _ _ _ He). reflexivity.
Qed.

(** [C3] A search answered with an error status and a JSON body without
    ["items"] sends ["Ошибка"] and then raises [KeyError('items')]: the
    handler does not stop after reporting the error. *)
Theorem job_digest_search_error keyword w fields :
  http_get w (search_url keyword 30) = Responded (mk_response false (Some (JObj fields))) ->
  obj_get fields ⟪"items"⟫ = None ->
  job_digest keyword w =
  ([Get (search_url keyword 30); Answer error_message true], Err (KeyError ⟪"items"⟫)).
Proof.
  intros Hget Hitems. unfold job_digest.
  rewrite (bind_err _ _ _ _ _ (search_error_run _ _ _ _ _ Hget Hitems)). reflexivity.
Qed.

(** [C4] A search without results sends exactly one message,
    ['Не найдено вакансий']. *)
Theorem job_digest_no_results keyword w body :
  http_get w (search_url keyword 30) = Responded (mk_response true (Some body)) ->
  py_getitem body ⟪"items"⟫ = Ok (JArr []) ->
  job_digest keyword w = ([Get (search_url keyword 30); Answer Digest.not_found true], Ok tt).
Proof.
  intros Hget Hitems. unfold job_digest.
  rewrite (bind_ok _ _ _ _ _ (search_run _ _ _ _ _ _ _ Hget Hitems)).
  rewrite (bind_ok _ _ _ _ _ (Fetch.fetch_all_ok [] [] [] w eq_refl (Forall2_nil _))).
  rewrite (Digest.send_digest_run [] [] [] w eq_refl). reflexivity.
Qed.

(** [C5] [cmd_enter_count] on a successful search whose details all
    arrive and whose skill names are hashable: it saves the chart of the
    ten most frequent skills (counted over all vacancies, ties in order of
    first occurrence) to [img/diagram.png] and sends that file. *)
Theorem skills_chart_spec keyword w body vacancies urls key_skills_array :
  http_get w (search_url keyword 100) = Responded (mk_response true (Some body)) ->
  py_getitem body ⟪"items"⟫ = Ok (JArr vacancies) ->
  rmap Fetch.detail_url vacancies = Ok urls ->
  Forall2 (fun u ks => Fetch.fetch_result (http_get w u) = Ok ks) urls key_skills_array ->
  Forall (fun v => Rank.hashable v = true) (Rank.all_skills key_skills_array) ->
  skills_chart keyword w =
  (Get (search_url keyword 100) :: map Get urls
     ++ [SaveChart diagram_path
           (Rank.chart_slices (Rank.top_skills (Rank.frequency_table (Rank.all_skills key_skills_array))));
         AnswerPhoto diagram_path], Ok tt).
Proof.
  intros Hget Hitems Hurls Hfetch Hh. unfold skills_chart.
  rewrite (bind_ok _ _ _ _ _ (search_run _ _ _ _ _ _ _ Hget Hitems)).
  rewrite (bind_ok _ _ _ _ _ (Fetch.fetch_all_ok _ _ _ _ Hurls Hfetch)).
  unfold bind at 1, lift at 1. rewrite (Rank.tally_ranking _ Hh). reflexivity.
Qed.

(** ** Witnesses *)

Lemma job_digest_pages_witness :
  job_digest demo_keyword (demo_world true demo_body []) =
  (Get (search_url demo_keyword 30) :: map Get demo_urls
     ++ map (fun p => Answer p true) (Digest.digest_pages demo_blocks), Ok tt).
Proof.
  apply (job_digest_pages demo_keyword (demo_world true demo_body []) demo_body demo_items
           demo_urls demo_key_skills demo_blocks).
  - vm_compute. reflexivity.
  - vm_compute. reflexivity.
  - vm_compute. reflexivity.
  - repeat constructor; vm_compute; reflexivity.
  - vm_compute. reflexivity.
Defined.

Lemma job_digest_detail_failure_witness :
  exists e, job_digest demo_keyword demo_failing_world
            = (Get (search_url demo_keyword 30) :: map Get demo_urls, Err e).
Proof.
  apply (job_digest_detail_failure demo_keyword demo_failing_world demo_body demo_items demo_urls
           ⟪"https://api.hh.ru/vacancies/2"⟫).
  - vm_compute. reflexivity.
  - vm_compute. reflexivity.
  - vm_compute. reflexivity.
  - unfold demo_urls. apply in_cons, in_eq.
  - vm_compute. reflexivity.
Defined.

Lemma job_digest_search_error_witness :
  job_digest demo_keyword (demo_world false demo_error_body [])
  = ([Get (search_url demo_keyword 30); Answer error_message true], Err (KeyError ⟪"items"⟫)).
Proof.
  apply (job_digest_search_error demo_keyword (demo_world false demo_error_body [])
           [(⟪"errors"⟫, JArr [JObj [(⟪"type"⟫, JStr ⟪"bad_argument"⟫)]])]).
  - vm_compute. reflexivity.
  - vm_compute. reflexivity.
Defined.

Lemma job_digest_no_results_witness :
  job_digest demo_keyword (demo_world true (JObj [(⟪"items"⟫, JArr [])]) [])
  = ([Get (search_url demo_keyword 30); Answer Digest.not_found true], Ok tt).
Proof.
  apply (job_digest_no_results demo_keyword (demo_world true (JObj [(⟪"items"⟫, JArr [])]) [])
           (JObj [(⟪"items"⟫, JArr [])])).
  - vm_compute. reflexivity.
  - vm_compute. reflexivity.
Defined.

Lemma skills_chart_spec_witness :
  skills_chart demo_keyword (demo_world true demo_body []) =
  (Get (search_url demo_keyword 100) :: map Get demo_urls
     ++ [SaveChart diagram_path
           (Rank.chart_slices (Rank.top_skills (Rank.frequency_table (Rank.all_skills demo_key_skills))));
         AnswerPhoto diagram_path], Ok tt).
Proof.
  apply (skills_chart_spec demo_keyword (demo_world true demo_body []) demo_body demo_items
           demo_urls demo_key_skills).
  - vm_compute. reflexivity.
  - vm_compute. reflexivity.
  - vm_compute. reflexivity.
  - repeat constructor; vm_compute; reflexivity.
  - repeat constructor.
Defined.


End Handlers.
