(* ===== verification/Chart.v ===== *)
(** * The pie chart: [plt.pie(values, labels=labels, autopct='%1.1f%%')]

    Line 203 of [cmd_enter_count] draws one wedge per skill, labelled with
    its name and annotated with its percentage.  What the percentage text
    is comes from matplotlib's [Axes.pie] and numpy:
    - [x = np.asarray(x, np.float32)]: the counts as float32;
    - [sx = x.sum()]; [x = x / sx]: float32 additions and divisions;
    - [s = autopct % (100. * frac)]: the product is float64 under numpy 1
      (a float32 scalar times a Python [float] is promoted) and float32
      under numpy 2 (NEP 50: the Python [float] is weak);
    - ['%1.1f'] prints the exact binary value rounded to one decimal,
      ties to even.

    A binary float is [m * 2^e]; [round_to p] rounds a nonnegative
    rational to [p] significant bits, to nearest, ties to even (IEEE
    754's default), [p = 24] for float32 and [53] for float64.  The
    exponent range is not modelled: the values of a pie (counts and
    shares of at most 100) are far from overflow and subnormals.

    The theorems: the rounding error of [round_to], the exact float32
    sum of counts, the error bound of every printed percentage, the
    single-skill and tie cases. *)

From Stdlib Require Import String.
From Stdlib Require Import List ZArith Lia Bool QArith Qround Qpower Qabs Lqa Setoid Morphisms.
From S2P Require Import Prelude NumberFormat Json Effects.
Import ListNotations.

Module Chart.

Local Open Scope Q_scope.

(** ** Binary floating point *)

(** A nonnegative binary float [fmant * 2^fexp]. *)
Record flt : Type := mk_flt { fmant : Z; fexp : Z }.

Definition pow2 (e : Z) : Q := Qpower (inject_Z 2) e.

Definition fval (f : flt) : Q := inject_Z (fmant f) * pow2 (fexp f).

(** The nearest integer, ties to the even one. *)
Definition round_half_even (x : Q) : Z :=
  let f := Qfloor x in
  match Qcompare (x - inject_Z f) (1 # 2) with
  | Lt => f
  | Gt => (f + 1)%Z
  | Eq => if Z.even f then f else (f + 1)%Z
  end.

(** The exponent of a positive [y] in precision [p]: the [e] with
    [2^(p-1) <= y / 2^e < 2^p], from the bit lengths of its numerator and
    denominator. *)
Definition rn_exp (p : Z) (y : Q) : Z :=
  let e := (Z.log2 (Qnum y) - Z.log2 (Zpos (Qden y)) - p)%Z in
  match Qcompare (Qdiv y (pow2 e)) (pow2 p) with Lt => e | _ => (e + 1)%Z end.

(** Rounding to [p] bits, to nearest, ties to even.  A mantissa rounded
    up to [2^p] is renormalised. *)
Definition round_to (p : Z) (x : Q) : flt :=
  if Qle_bool x 0 then mk_flt 0 0 else
  let y := Qred x in
  let e := rn_exp p y in
  let m := round_half_even (y / pow2 e) in
  if (m =? 2 ^ p)%Z then mk_flt (2 ^ (p - 1))%Z (e + 1)%Z else mk_flt m e.

Definition binary32 : Z := 24.
Definition binary64 : Z := 53.

Definition fadd (p : Z) (a b : flt) : flt := round_to p (fval a + fval b).
Definition fmul (p : Z) (a b : flt) : flt := round_to p (fval a * fval b).
Definition fdiv (p : Z) (a b : flt) : flt := round_to p (fval a / fval b).

(** ** [Axes.pie] *)

(** The numpy whose promotion rules apply to [100. * frac]. *)
Inductive numpy_version : Type := Numpy1 | Numpy2.

Definition pct_precision (np : numpy_version) : Z :=
  match np with Numpy1 => binary64 | Numpy2 => binary32 end.

(** [np.asarray(values, np.float32)]. *)
Definition as_float32 (values : list Z) : list flt :=
  map (fun v => round_to binary32 (inject_Z v)) values.

(** [x.sum()]: float32 additions from [0.0].  (numpy adds in pairwise
    order; on counts whose total is below [2^24] every partial sum is
    exact, so the order does not change the result, see
    [np_sum_exact].) *)
Definition np_sum (xs : list flt) : flt := fold_left (fadd binary32) xs (mk_flt 0 0).

(** [100. * frac] for each wedge, [frac] the float32 [x / sx]. *)
Definition pie_percents (np : numpy_version) (values : list Z) : list flt :=
  let x := as_float32 values in
  let sx := np_sum x in
  map (fun xi => fmul (pct_precision np) (mk_flt 100 0) (fdiv binary32 xi sx)) x.

(** The tenths printed by ['%1.1f']. *)
Definition tenths (f : flt) : Z := round_half_even (10 * fval f).

(** ['%1.1f%%' % pct] for a nonnegative [pct]. *)
Definition format_pct (f : flt) : text :=
  let n := tenths f in
  Fmt.py_str_int (n / 10)%Z ++ ⟪"."⟫ ++ Fmt.py_str_int (n mod 10)%Z ++ ⟪"%"⟫.

Definition autopct_texts (np : numpy_version) (values : list Z) : list text :=
  map format_pct (pie_percents np values).

(** The sum of the counts, [sum(values)]. *)
Definition total (values : list Z) : Z := fold_right Z.add 0%Z values.

(** What the pie shows: each wedge's label and its percentage text. *)
Definition pie_texts (np : numpy_version) (chart : list Eff.slice) : list (text * text) :=
  combine (map fst chart) (autopct_texts np (map snd chart)).

(** ** Powers of two *)

Lemma pow2_pos e : 0 < pow2 e.
Proof. apply Qpower_0_lt. reflexivity. Qed.

Lemma pow2_add a b : pow2 (a + b) == pow2 a * pow2 b.
Proof. apply Qpower_plus. discriminate. Qed.

Lemma pow2_opp e : pow2 (- e) == / pow2 e.
Proof. apply Qpower_opp. Qed.

Lemma pow2_Z n : (0 <= n)%Z -> pow2 n == inject_Z (2 ^ n).
Proof. intros H. unfold pow2. rewrite Zpower_Qpower by exact H. reflexivity. Qed.

Lemma pow2_mono a b : (a <= b)%Z -> pow2 a <= pow2 b.
Proof. intros H. apply Qpower_le_compat_l; [exact H | discriminate]. Qed.

(** [y / 2^e] as a product. *)
Lemma div_pow2 y e : y / pow2 e == y * pow2 (- e).
Proof. rewrite pow2_opp. reflexivity. Qed.

(** ** Rounding to an integer *)

#[export] Instance round_half_even_proper : Proper (Qeq ==> eq) round_half_even.
Proof.
  intros x y H. unfold round_half_even. rewrite (Qfloor_comp x y H).
  rewrite (Qcompare_comp (x - _) (y - _) (Qplus_comp _ _ H _ _ (Qeq_refl _)) _ _ (Qeq_refl _)).
  reflexivity.
Qed.

Lemma round_half_even_bound x : Qabs (inject_Z (round_half_even x) - x) <= 1 # 2.
Proof.
  unfold round_half_even. pose proof (Qfloor_le x). pose proof (Qlt_floor x).
  rewrite inject_Z_plus in *. change (inject_Z 1) with 1 in *. apply Qabs_Qle_condition.
  destruct (Qcompare_spec (x - inject_Z (Qfloor x)) (1 # 2)) as [E|E|E];
    [destruct (Z.even (Qfloor x)) | |]; rewrite ?inject_Z_plus; change (inject_Z 1) with 1; split; lra.
Qed.

Lemma round_half_even_Z k : round_half_even (inject_Z k) = k.
Proof.
  unfold round_half_even. rewrite Qfloor_Z.
  replace (Qcompare (inject_Z k - inject_Z k) (1 # 2)) with Lt; [reflexivity|].
  symmetry. apply (proj1 (Qlt_alt _ _)). lra.
Qed.

(** ** Rounding to [p] bits *)

#[export] Instance round_to_proper p : Proper (Qeq ==> eq) (round_to p).
Proof.
  intros x y H. unfold round_to.
  destruct (Qle_bool x 0) eqn:Ex, (Qle_bool y 0) eqn:Ey; try reflexivity.
  - apply Qle_bool_iff in Ex. rewrite H in Ex. apply Qle_bool_iff in Ex. congruence.
  - apply Qle_bool_iff in Ey. rewrite <- H in Ey. apply Qle_bool_iff in Ey. congruence.
  - rewrite (Qred_complete x y H). reflexivity.
Qed.


(** The exponent from the bit lengths is at most one too small. *)
Lemma log2_lower (n : Z) (d : positive) :
  (0 < n)%Z -> pow2 (Z.log2 n - Z.log2 (Zpos d) - 1) <= n # d.
Proof.
  intros Hn. pose proof (Z.log2_spec n Hn) as [Ha _].
  pose proof (Z.log2_spec (Zpos d) eq_refl) as [_ Hb].
  pose proof (Z.log2_nonneg n). pose proof (Z.log2_nonneg (Zpos d)).
  set (a := Z.log2 n) in *. set (b := Z.log2 (Zpos d)) in *.
  replace (a - b - 1)%Z with (a + - Z.succ b)%Z by lia.
  rewrite pow2_add, pow2_opp, !pow2_Z by lia.
  assert (Hp : (0 < 2 ^ Z.succ b)%Z) by (apply Z.pow_pos_nonneg; lia).
  assert (E : inject_Z (2 ^ a) * / inject_Z (2 ^ Z.succ b) == (2 ^ a)%Z # Z.to_pos (2 ^ Z.succ b))
    by (rewrite Qmake_Qdiv, Z2Pos.id by exact Hp; reflexivity).
  rewrite E. unfold Qle. simpl. rewrite Z2Pos.id by exact Hp. nia.
Qed.

Lemma pow2_m1 : pow2 (-1) == 1 # 2.
Proof. reflexivity. Qed.

(** The mantissa of a positive [y] is at least [2^(p-1)]. *)
Lemma rn_exp_lower p y : 0 < y -> pow2 (p - 1) <= y * pow2 (- rn_exp p y).
Proof.
  intros Hy. destruct y as [n d]. unfold rn_exp. cbn [Qnum Qden].
  assert (Hn : (0 < n)%Z) by (unfold Qlt in Hy; simpl in Hy; lia).
  set (e := (Z.log2 n - Z.log2 (Zpos d) - p)%Z).
  assert (Hp : pow2 (p - 1) == pow2 p * (1 # 2)) by
    (replace (p - 1)%Z with (p + -1)%Z by lia; rewrite pow2_add, pow2_m1; reflexivity).
  assert (He1 : (n # d) * pow2 (- (e + 1)) == (n # d) * pow2 (- e) * (1 # 2)) by
    (replace (- (e + 1))%Z with (- e + -1)%Z by lia; rewrite pow2_add, pow2_m1; ring).
  destruct (Qcompare_spec (Qdiv (n # d) (pow2 e)) (pow2 p)) as [H|H|H]; rewrite div_pow2 in H.
  - rewrite He1, Hp, H. apply Qle_refl.
  - replace (p - 1)%Z with ((Z.log2 n - Z.log2 (Zpos d) - 1) + - e)%Z by (unfold e; lia).
    rewrite pow2_add. apply Qmult_le_compat_r; [apply log2_lower; exact Hn|].
    apply Qlt_le_weak, pow2_pos.
  - rewrite He1, Hp. apply Qmult_le_compat_r; [apply Qlt_le_weak, H | discriminate].
Qed.


(** What [round_to] gives: the scaled value rounded to an integer, at
    the chosen exponent (a carry into [2^p] changes the representation,
    not the value). *)
Lemma round_to_fval p x :
  (1 <= p)%Z -> 0 < x ->
  fval (round_to p x) ==
  inject_Z (round_half_even (Qred x * pow2 (- rn_exp p (Qred x)))) * pow2 (rn_exp p (Qred x)).
Proof.
  intros Hp Hx. unfold round_to.
  destruct (Qle_bool x 0) eqn:E; [apply Qle_bool_iff in E; exfalso; lra|].
  rewrite <- div_pow2. set (e := rn_exp p (Qred x)). set (m := round_half_even _).
  destruct (Z.eqb_spec m (2 ^ p)) as [Hm|Hm]; [|reflexivity].
  unfold fval. cbn [fmant fexp]. rewrite Hm, <- (pow2_Z (p - 1)), <- (pow2_Z p) by lia.
  rewrite <- !pow2_add. replace (p - 1 + (e + 1))%Z with (p + e)%Z by lia. reflexivity.
Qed.

(** Rounding to [p] bits is off by at most [x * 2^-p]. *)
Lemma round_to_error p x :
  (1 <= p)%Z -> 0 <= x -> Qabs (fval (round_to p x) - x) <= x * pow2 (- p).
Proof.
  intros Hp Hx. destruct (Qlt_le_dec 0 x) as [Hpos|Hle].
  2:{ unfold round_to. replace (Qle_bool x 0) with true by (symmetry; apply Qle_bool_iff; exact Hle).
      assert (Hx0 : x == 0) by lra. rewrite Hx0. unfold fval. cbn [fmant fexp]. rewrite !Qmult_0_l. apply Qle_refl. }
  rewrite round_to_fval by assumption.
  set (y := Qred x). assert (Hy : y == x) by apply Qred_correct.
  set (e := rn_exp p y). set (t := y * pow2 (- e)).
  assert (Ht : pow2 (p - 1) <= t) by (apply rn_exp_lower; rewrite Hy; exact Hpos).
  assert (Hyt : x == t * pow2 e) by
    (unfold t; rewrite <- Qmult_assoc, <- pow2_add, Z.add_opp_diag_l, Hy; change (pow2 0) with 1; ring).
  pose proof (round_half_even_bound t) as Hr. pose proof (pow2_pos e) as He.
  set (m := round_half_even t).
  assert (Hd : inject_Z m * pow2 e - x == (inject_Z m - t) * pow2 e) by (rewrite Hyt; ring).
  rewrite Hd, Qabs_Qmult, (Qabs_pos (pow2 e)) by lra. rewrite Hyt.
  apply Qle_trans with ((1 # 2) * pow2 e); [apply Qmult_le_compat_r; [exact Hr | lra]|].
  rewrite (Qmult_comm t), <- Qmult_assoc, (Qmult_comm (1 # 2)). apply (proj2 (Qmult_le_l _ _ _ He)).
  assert (H1 : pow2 (p - 1) * pow2 (- p) == 1 # 2) by (rewrite <- pow2_add; replace (p - 1 + - p)%Z with (-1)%Z by lia; reflexivity).
  rewrite <- H1. apply Qmult_le_compat_r; [exact Ht | apply Qlt_le_weak, pow2_pos].
Qed.

(** An integer of at most [p] bits is rounded to itself. *)
Lemma round_to_exact p k :
  (1 <= p)%Z -> (0 < k < 2 ^ p)%Z -> fval (round_to p (inject_Z k)) == inject_Z k.
Proof.
  intros Hp Hk. assert (Hx : 0 < inject_Z k) by (change 0 with (inject_Z 0); rewrite <- Zlt_Qlt; lia).
  rewrite round_to_fval by assumption.
  set (y := Qred (inject_Z k)). assert (Hy : y == inject_Z k) by apply Qred_correct.
  set (e := rn_exp p y).
  assert (Ht : pow2 (p - 1) <= y * pow2 (- e)) by (apply rn_exp_lower; rewrite Hy; exact Hx).
  assert (He : (0 <= - e)%Z).
  { destruct (Z.le_gt_cases 0 (- e)) as [H|H]; [exact H|exfalso].
    assert (Hm : pow2 (- e) <= 1 # 2) by (rewrite <- pow2_m1; apply pow2_mono; lia).
    rewrite pow2_Z in Ht by lia. rewrite Hy in Ht.
    assert (Hk2 : inject_Z k * pow2 (- e) <= inject_Z k * (1 # 2)) by
      (apply Qmult_le_l; [exact Hx | exact Hm]).
    assert (Hkp : (k < 2 * 2 ^ (p - 1))%Z) by (rewrite <- Z.pow_succ_r by lia; replace (Z.succ (p - 1)) with p by lia; lia).
    assert (Hkq : inject_Z k < 2 * inject_Z (2 ^ (p - 1))) by
      (change 2 with (inject_Z 2); rewrite <- inject_Z_mult; rewrite <- Zlt_Qlt; exact Hkp).
    lra. }
  rewrite Hy, (pow2_Z (- e)), <- inject_Z_mult, round_half_even_Z by exact He.
  rewrite inject_Z_mult, <- pow2_Z by exact He. rewrite <- Qmult_assoc, <- pow2_add.
  replace (- e + e)%Z with 0%Z by lia. apply Qmult_1_r.
Qed.


(** ** The float32 arithmetic of the pie on counts *)

Lemma fval_zero : fval (mk_flt 0 0) == 0.
Proof. reflexivity. Qed.

Lemma fval_100 : fval (mk_flt 100 0) == 100.
Proof. reflexivity. Qed.

Lemma pow2_m24 : pow2 (-24) == 1 # 16777216.
Proof. reflexivity. Qed.

Lemma binary32_exact v : (0 < v < 2 ^ 24)%Z -> fval (round_to binary32 (inject_Z v)) == inject_Z v.
Proof. intros H. apply round_to_exact; [discriminate | exact H]. Qed.

Lemma total_cons v vs : total (v :: vs) = (v + total vs)%Z.
Proof. reflexivity. Qed.

Lemma total_pos vs : Forall (fun v => (0 < v)%Z) vs -> (0 <= total vs)%Z.
Proof. induction 1; [apply Z.le_refl | rewrite total_cons; lia]. Qed.

Lemma Forall_le_total vs : Forall (fun v => (0 < v)%Z) vs -> Forall (fun v => (0 < v <= total vs)%Z) vs.
Proof.
  induction 1 as [|v vs Hv Hvs IH]; constructor; rewrite ?total_cons.
  - pose proof (total_pos _ Hvs). lia.
  - pose proof (total_pos _ Hvs). eapply Forall_impl; [|exact IH]. intros w Hw. cbv beta in Hw. lia.
Qed.

(** On counts whose total is below [2^24] the float32 sum is exact. *)
Lemma np_sum_exact vs :
  Forall (fun v => (0 < v)%Z) vs -> (total vs < 2 ^ 24)%Z ->
  fval (np_sum (as_float32 vs)) == inject_Z (total vs).
Proof.
  intros Hpos Htot. unfold np_sum.
  enough (H : forall acc a, fval acc == inject_Z a -> (0 <= a)%Z -> (a + total vs < 2 ^ 24)%Z ->
            fval (fold_left (fadd binary32) (as_float32 vs) acc) == inject_Z (a + total vs)).
  { pose proof (H (mk_flt 0 0) 0%Z fval_zero ltac:(lia) ltac:(lia)) as H0. rewrite Z.add_0_l in H0. exact H0. }
  clear Htot. induction Hpos as [|v vs Hv Hvs IH]; intros acc a Hacc Ha Hlt.
  - rewrite Z.add_0_r. exact Hacc.
  - cbn [as_float32 map fold_left]. rewrite total_cons in Hlt. pose proof (total_pos _ Hvs).
    replace (a + total (v :: vs))%Z with ((a + v) + total vs)%Z by (rewrite total_cons; lia).
    apply IH; [|lia|lia]. unfold fadd.
    assert (E : fval acc + fval (round_to binary32 (inject_Z v)) == inject_Z (a + v)).
    { rewrite Hacc, binary32_exact by lia. rewrite inject_Z_plus. reflexivity. }
    rewrite E. apply binary32_exact. lia.
Qed.

(** The percentage of a wedge depends only on its share of the total. *)
Lemma pie_percents_shares np values :
  Forall (fun v => (0 < v)%Z) values -> (total values < 2 ^ 24)%Z ->
  pie_percents np values =
  map (fun v => fmul (pct_precision np) (mk_flt 100 0)
                     (round_to binary32 (inject_Z v / inject_Z (total values)))) values.
Proof.
  intros Hpos Htot. unfold pie_percents. pose proof (np_sum_exact _ Hpos Htot) as Hs.
  set (sx := np_sum (as_float32 values)) in *. pose proof (Forall_le_total _ Hpos) as Hle.
  unfold as_float32. rewrite map_map. apply map_ext_in. intros v Hin.
  apply (proj1 (Forall_forall _ _) Hle) in Hin. unfold fdiv.
  rewrite binary32_exact, Hs by lia. reflexivity.
Qed.


Lemma Forall2_map_same {A B} (P : A -> B -> Prop) (f : A -> B) l :
  Forall (fun x => P x (f x)) l -> Forall2 P l (map f l).
Proof. induction 1; constructor; assumption. Qed.

(** One wedge: the float32 share, [100. *] it at precision [p], and
    ['%1.1f'] stay within a twentieth of a point and [2^-16] of the exact
    percentage. *)
Lemma wedge_bound p r :
  (24 <= p)%Z -> 0 <= r <= 1 ->
  Qabs (inject_Z (tenths (fmul p (mk_flt 100 0) (round_to binary32 r))) / 10 - 100 * r)
  <= (1 # 20) + (1 # 65536).
Proof.
  intros Hp Hr. set (f := round_to binary32 r).
  pose proof (round_to_error binary32 r ltac:(discriminate) ltac:(lra)) as Hf. fold f in Hf.
  rewrite pow2_m24 in Hf. apply Qabs_Qle_condition in Hf.
  unfold fmul. rewrite fval_100. set (q := round_to p (100 * fval f)).
  pose proof (round_to_error p (100 * fval f) ltac:(lia) ltac:(lra)) as Hq. fold q in Hq.
  assert (Hpp : 100 * fval f * pow2 (- p) <= 100 * fval f * (1 # 16777216)).
  { rewrite <- pow2_m24, !(Qmult_comm (100 * fval f)).
    apply Qmult_le_compat_r; [apply pow2_mono; lia | lra]. }
  apply Qabs_Qle_condition in Hq.
  pose proof (round_half_even_bound (10 * fval q)) as Hn. apply Qabs_Qle_condition in Hn.
  unfold tenths. fold q. unfold Qdiv. change (/ 10) with (1 # 10).
  apply Qabs_Qle_condition. split; lra.
Qed.


Lemma pct_precision_ge np : (24 <= pct_precision np)%Z.
Proof. destruct np; cbv; discriminate. Qed.

(** Every wedge of a pie of positive counts below [2^24] in total. *)
Lemma pie_percents_bound np values :
  Forall (fun v => (0 < v)%Z) values -> (total values < 2 ^ 24)%Z ->
  Forall2 (fun v pct =>
             Qabs (inject_Z (tenths pct) / 10 - 100 * (inject_Z v / inject_Z (total values)))
             <= (1 # 20) + (1 # 65536))
          values (pie_percents np values).
Proof.
  intros Hpos Htot. rewrite pie_percents_shares by assumption.
  apply Forall2_map_same. eapply Forall_impl; [|exact (Forall_le_total _ Hpos)].
  intros v Hv. cbv beta in Hv |- *. apply wedge_bound; [apply pct_precision_ge|].
  assert (Hs : 0 < inject_Z (total values)) by (change 0 with (inject_Z 0); rewrite <- Zlt_Qlt; lia).
  split.
  - apply Qle_shift_div_l; [exact Hs|]. rewrite Qmult_0_l. change 0 with (inject_Z 0). rewrite <- Zle_Qle. lia.
  - apply Qle_shift_div_r; [exact Hs|]. rewrite Qmult_1_l. rewrite <- Zle_Qle. lia.
Qed.

(** ** Properties of the percentage labels *)

(** [C10] Whatever numpy's promotion rule, on positive counts whose total
    is below [2^24] the percentage ['%1.1f'] prints for each wedge is
    within [0.05 + 2^-16] points of the count's exact share of the
    total. *)
Theorem autopct_within_bound np values :
  Forall (fun v => (0 < v)%Z) values -> (total values < 2 ^ 24)%Z ->
  Forall2 (fun v pct =>
             Qabs (inject_Z (tenths pct) / 10 - 100 * (inject_Z v / inject_Z (total values)))
             <= (1 # 20) + (1 # 65536))
          values (pie_percents np values).
Proof. exact (pie_percents_bound np values). Qed.

(** [C16] A chart with one skill labels it ["100.0%"]. *)
Theorem autopct_single_skill np v :
  (0 < v < 2 ^ 24)%Z -> autopct_texts np [v] = [⟪"100.0%"⟫].
Proof.
  intros Hv. unfold autopct_texts.
  rewrite pie_percents_shares by (repeat constructor; cbn [total fold_right]; lia).
  cbn [map]. rewrite total_cons.
  assert (E : inject_Z v / inject_Z (v + total []) == 1).
  { cbn [total fold_right]. rewrite Z.add_0_r. field. change 0 with (inject_Z 0). rewrite inject_Z_injective. lia. }
  rewrite E. destruct np; vm_compute; reflexivity.
Qed.

(** [C18] A share of exactly 0.05% is printed as ["0.1%"] and the other
    99.95% as ["99.9%"]: at a tie the float32 error of the share decides
    the last digit, which rounding the exact share (half to even or half
    up) would not give for both. *)
Theorem autopct_tie_float_decides np v :
  (0 < v)%Z -> (2000 * v < 2 ^ 24)%Z ->
  autopct_texts np [v; (1999 * v)%Z] = [⟪"0.1%"⟫; ⟪"99.9%"⟫].
Proof.
  intros Hv Hb. unfold autopct_texts.
  rewrite pie_percents_shares by (repeat constructor; cbn [total fold_right]; lia).
  cbn [map]. rewrite !total_cons. cbn [total fold_right].
  assert (Hnz : ~ inject_Z v == 0) by (change 0 with (inject_Z 0); rewrite inject_Z_injective; lia).
  assert (E1 : inject_Z v / inject_Z (v + (1999 * v + 0)) == 1 # 2000).
  { rewrite Z.add_0_r. replace (v + 1999 * v)%Z with (2000 * v)%Z by lia. rewrite inject_Z_mult. field. exact Hnz. }
  assert (E2 : inject_Z (1999 * v) / inject_Z (v + (1999 * v + 0)) == 1999 # 2000).
  { rewrite Z.add_0_r. replace (v + 1999 * v)%Z with (2000 * v)%Z by lia. rewrite !inject_Z_mult. field. exact Hnz. }
  rewrite E1, E2. destruct np; vm_compute; reflexivity.
Qed.

(** ** Witnesses *)

Lemma autopct_within_bound_witness :
  Forall2 (fun v pct =>
             Qabs (inject_Z (tenths pct) / 10 - 100 * (inject_Z v / inject_Z (total [5; 3; 2]%Z)))
             <= (1 # 20) + (1 # 65536))
          [5; 3; 2]%Z (pie_percents Numpy2 [5; 3; 2]%Z).
Proof. apply (autopct_within_bound Numpy2 [5; 3; 2]%Z); [repeat constructor | vm_compute; reflexivity]. Defined.

Lemma autopct_single_skill_witness : autopct_texts Numpy1 [7%Z] = [⟪"100.0%"⟫].
Proof. apply (autopct_single_skill Numpy1 7%Z). split; vm_compute; reflexivity. Defined.

Lemma autopct_tie_float_decides_witness : autopct_texts Numpy2 [3; 1999 * 3]%Z = [⟪"0.1%"⟫; ⟪"99.9%"⟫].
Proof. apply (autopct_tie_float_decides Numpy2 3%Z); vm_compute; reflexivity. Defined.


End Chart.
