(* ===== verification/Router.v ===== *)
(** * ConversationDriver: aiogram's dispatch and the FSM of handlers.py

    The router (line 13) holds the handlers in the order they are
    registered (lines 37-208); aiogram runs the first one whose filters
    pass.  [Command(...)] filters look at [message.text or
    message.caption]; the state filters ([Job.keyword_1], ...) accept any
    message in that state.  Each (chat, user) pair has its own FSM record
    (state and data) in the storage.  The storage is an interface, the
    class [Storage] with the laws [StorageLaws] (aiogram's [BaseStorage]);
    the theorems on the conversation are proved in the section
    [Conversation] for every storage with those laws, and
    [memory_storage], a [gmap] (aiogram's [MemoryStorage], the default of
    [Dispatcher()]), is an instance that satisfies them.

    [route] is one update: the record is read, the handler chosen, its
    FSM calls ([set_state], [update_data], [get_data], [clear]) applied,
    and the rest of the handler returned as an [action]; [perform] runs
    that action in the effect monad ([Handlers.job_digest],
    [Handlers.skills_chart], [weather], or the answers).  The FSM calls of
    [MemoryStorage] never suspend, so an update's storage transition is
    atomic and happens before the handler's first network call: updates
    handled concurrently see the transitions in arrival order, which is
    what [route] applied in sequence models. *)

From Stdlib Require Import String.
From Stdlib Require Import List ZArith Lia Bool.
From stdpp Require Import gmap.
From S2P Require Import Prelude NumberFormat Json Effects KeySkills Digest SkillRank Handlers.
Import ListNotations.
Import Py Eff.
Local Open Scope Z_scope.

Module Router.

(** ** Messages and commands *)

(** The states of [Job] and [Weather] (lines 16-22). *)
Inductive fsm_state : Type := Job_keyword_1 | Job_keyword_2 | Weather_city.

#[export] Instance fsm_state_eq_dec : EqDecision fsm_state.
Proof. solve_decision. Defined.

(** An incoming message: [message.chat.id], [message.from_user.id],
    [message.text] and [message.caption]. *)
Record message : Type := mk_message {
  chat_id : Z; user_id : Z; msg_text : option text; msg_caption : option text }.

(** [str.isspace] *)
Definition py_isspace (c : Z) : bool :=
  ((9 <=? c) && (c <=? 13)) || ((28 <=? c) && (c <=? 32)) || (c =? 133) || (c =? 160)
  || (c =? 5760) || ((8192 <=? c) && (c <=? 8202)) || (c =? 8232) || (c =? 8233)
  || (c =? 8239) || (c =? 8287) || (c =? 12288).

Fixpoint drop_space (t : text) : text :=
  match t with c :: r => if py_isspace c then drop_space r else t | [] => [] end.

Fixpoint take_word (t : text) : text :=
  match t with c :: r => if py_isspace c then [] else c :: take_word r | [] => [] end.

(** [text.split(maxsplit=1)[0]], or [] when [split] gives no word. *)
Definition first_word (t : text) : text := take_word (drop_space t).

(** [s.partition("@")] without the separator: the command and the mention. *)
Fixpoint partition_at (t : text) : text * text :=
  match t with
  | [] => ([], [])
  | c :: r => if (c =? 64)%Z then ([], r) else let (a, b) := partition_at r in (c :: a, b)
  end.

Definition ascii_lower (c : Z) : Z := if (65 <=? c) && (c <=? 90) then c + 32 else c.

(** [message.text or message.caption] *)
Definition command_text (m : message) : option text :=
  match msg_text m with
  | Some t => if text_eqb t [] then msg_caption m else Some t
  | None => msg_caption m
  end.

(** aiogram's [Command(name)] (and [CommandStart()] for ["start"]): prefix
    ['/'], the command name, and a mention that is empty or the bot's
    username (compared in lower case). *)
Definition is_command (bot_username name : text) (m : message) : bool :=
  match command_text m with
  | None => false
  | Some t =>
      match first_word t with
      | [] => false
      | prefix :: rest =>
          let (cmd, mention) := partition_at rest in
          (prefix =? 47) && text_eqb cmd name
          && (text_eqb mention [] || text_eqb (map ascii_lower mention) (map ascii_lower bot_username))
      end
  end.

(** ** The handlers in registration order *)

Inductive handler : Type :=
| Cmd_start | Cmd_enter_keyword_1 | Cmd_job | Cmd_enter_city | Cmd_weather
| Cmd_enter_keyword_2 | Cmd_enter_count.

(** Lines 37, 45, 51, 119, 125, 154 and 160. *)
Definition registered : list handler :=
  [Cmd_start; Cmd_enter_keyword_1; Cmd_job; Cmd_enter_city; Cmd_weather;
   Cmd_enter_keyword_2; Cmd_enter_count].

Definition state_is (st : option fsm_state) (s : fsm_state) : bool :=
  match st with Some s' => bool_decide (s' = s) | None => false end.

(** The filters of each handler. *)
Definition handler_filter (bot : text) (st : option fsm_state) (m : message) (h : handler) : bool :=
  match h with
  | Cmd_start => is_command bot ⟪"start"⟫ m
  | Cmd_enter_keyword_1 => is_command bot ⟪"job"⟫ m
  | Cmd_job => state_is st Job_keyword_1
  | Cmd_enter_city => is_command bot ⟪"weather"⟫ m
  | Cmd_weather => state_is st Weather_city
  | Cmd_enter_keyword_2 => is_command bot ⟪"key_skills"⟫ m
  | Cmd_enter_count => state_is st Job_keyword_2
  end.

(** The first registered handler whose filters pass. *)
Definition select_handler (bot : text) (st : option fsm_state) (m : message) : option handler :=
  find (handler_filter bot st m) registered.

(** ** The FSM storage *)

(** The state and the data of one (chat, user) pair. *)
Record fsm_record : Type := mk_record { rec_state : option fsm_state; rec_data : gmap text (option text) }.

(** What [MemoryStorage] gives for a pair it has not seen, and what
    [state.clear()] leaves: no state, empty data. *)
Definition empty_record : fsm_record := mk_record None ∅.

(** The key of aiogram's default strategy (user in chat). *)
Definition storage_key (m : message) : Z * Z := (chat_id m, user_id m).

(** aiogram's [BaseStorage] as [FSMContext] uses it: the record of a
    key, and the storage with the record of a key replaced. *)
Class Storage (S : Type) := {
  storage_empty : S;
  get_record : S -> Z * Z -> fsm_record;
  set_record : S -> Z * Z -> fsm_record -> S
}.

(** What the router relies on: a key not seen yet has no state and no
    data, and writing the record of a key changes that record only. *)
Class StorageLaws (S : Type) `{!Storage S} : Prop := {
  get_empty k : get_record storage_empty k = empty_record;
  get_set_eq s k r : get_record (set_record s k r) k = r;
  get_set_ne s k k' r : k <> k' -> get_record (set_record s k r) k' = get_record s k'
}.

(** [MemoryStorage], the default storage of [Dispatcher()]: a dict from
    keys to records. *)
#[export] Instance memory_storage : Storage (gmap (Z * Z) fsm_record) := {|
  storage_empty := ∅;
  get_record s k := default empty_record (s !! k);
  set_record s k r := <[k := r]> s
|}.

(** What a handler does once its FSM calls are done. *)
Inductive action : Type :=
| Greet                           (** the three answers of [cmd_start] *)
| Prompt (prompt : text)          (** [message.answer(prompt)] *)
| RunJob (keyword : option text)  (** the rest of [cmd_job] *)
| RunSkills (keyword : option text) (** the rest of [cmd_enter_count] *)
| RunWeather (city : option text) (** the rest of [cmd_weather] *)
| Unhandled.

Definition keyword_prompt := ⟪"Введите название профессии или ключевое слово"⟫.
Definition city_prompt := ⟪"Введите название города"⟫.

(** [await state.update_data(field=message.text)];
    [(await state.get_data())[field]]; [await state.clear()]
    (lines 53-55, 127-129, 162-164). *)
Definition read_field (field : text) (m : message) (r : fsm_record)
           (k : option text -> action) : fsm_record * result action :=
  let data := <[field := msg_text m]> (rec_data r) in
  match data !! field with
  | Some v => (empty_record, Ok (k v))
  | None => (mk_record (rec_state r) data, Err (KeyError field))
  end.

(** [cmd_enter_keyword_1] (lines 45-48): [state.set_state(Job.keyword_1)]
    and the prompt. *)
Definition cmd_enter_keyword_1 (r : fsm_record) : fsm_record * result action :=
  (mk_record (Some Job_keyword_1) (rec_data r), Ok (Prompt keyword_prompt)).

(** The FSM calls of [cmd_job] (lines 51-55). *)
Definition cmd_job_fsm (m : message) (r : fsm_record) : fsm_record * result action :=
  read_field ⟪"keyword_1"⟫ m r RunJob.

(** [cmd_enter_city] (lines 119-122): [state.set_state(Weather.city)] and
    the prompt. *)
Definition cmd_enter_city (r : fsm_record) : fsm_record * result action :=
  (mk_record (Some Weather_city) (rec_data r), Ok (Prompt city_prompt)).

(** The FSM calls of [cmd_weather] (lines 125-129). *)
Definition cmd_weather_fsm (m : message) (r : fsm_record) : fsm_record * result action :=
  read_field ⟪"city"⟫ m r RunWeather.

(** [cmd_enter_keyword_2] (lines 154-157): [state.set_state(Job.keyword_2)]
    and the prompt. *)
Definition cmd_enter_keyword_2 (r : fsm_record) : fsm_record * result action :=
  (mk_record (Some Job_keyword_2) (rec_data r), Ok (Prompt keyword_prompt)).

(** The FSM calls of [cmd_enter_count] (lines 160-164). *)
Definition cmd_enter_count_fsm (m : message) (r : fsm_record) : fsm_record * result action :=
  read_field ⟪"keyword_2"⟫ m r RunSkills.

(** The router calls the selected handler: its FSM calls and what is
    left to do. *)
Definition fsm_step (h : handler) (m : message) (r : fsm_record) : fsm_record * result action :=
  match h with
  | Cmd_start => (r, Ok Greet)
  | Cmd_enter_keyword_1 => cmd_enter_keyword_1 r
  | Cmd_job => cmd_job_fsm m r
  | Cmd_enter_city => cmd_enter_city r
  | Cmd_weather => cmd_weather_fsm m r
  | Cmd_enter_keyword_2 => cmd_enter_keyword_2 r
  | Cmd_enter_count => cmd_enter_count_fsm m r
  end.

(** One update: the storage after it and the rest of the handler. *)
Definition route {S} `{!Storage S} (bot : text) (s : S) (m : message) : S * result action :=
  let k := storage_key m in
  let r := get_record s k in
  match select_handler bot (rec_state r) m with
  | None => (s, Ok Unhandled)
  | Some h => let (r', out) := fsm_step h m r in (set_record s k r', out)
  end.

(** ** The rest of the handlers *)

(** Lines 39-42. *)
Definition start_messages : list text :=
  [⟪"Приветик!"⟫;
   ⟪"Если вы попали сюда, значит вы обогнали 99,99% человек на этой планете"⟫
     ++ ⟪" и входите в число 2-х человек, у которых есть к нам доступ)"⟫;
   ⟪"Выберите команду из списка ниже"⟫].

(** [str.upper] and [str.lower] on one character, for ASCII and the
    Cyrillic alphabet (other characters are kept). *)
Definition char_upper (c : Z) : Z :=
  if (97 <=? c) && (c <=? 122) then c - 32
  else if (1072 <=? c) && (c <=? 1103) then c - 32
  else if (1104 <=? c) && (c <=? 1119) then c - 80
  else c.

Definition char_lower (c : Z) : Z :=
  if (65 <=? c) && (c <=? 90) then c + 32
  else if (1040 <=? c) && (c <=? 1071) then c + 32
  else if (1024 <=? c) && (c <=? 1039) then c + 80
  else c.

(** [str.capitalize()] *)
Definition py_capitalize (s : text) : text :=
  match s with [] => [] | c :: r => char_upper c :: map char_lower r end.

Definition weather_api_key := ⟪"ccf6a25d95d77ff985ae6ae604de8ba3"⟫.

(** Line 135. *)
Definition weather_url (city : text) : text :=
  ⟪"https://api.openweathermap.org/data/2.5/weather?q="⟫ ++ city ++ ⟪"&appid="⟫
  ++ weather_api_key ++ ⟪"&units=metric"⟫.

Definition bad_city := ⟪"Некорректное название города"⟫.

(** Lines 133-145, once [city] is read ([{city}] formats [None] as
    ["None"]). *)
Definition weather (city : option text) : M unit :=
  let url := weather_url (Digest.fmt_opt city) in
  emit (Get url) ;;
  w <- ask ;;
  match http_get w url with
  | Transport => raise ClientError
  | Responded r =>
      if resp_ok r then
        match resp_body r with
        | None => raise ContentTypeError
        | Some data =>
            temp <- lift (let? main := py_getitem data ⟪"main"⟫ in py_getitem main ⟪"temp"⟫) ;;
            wind <- lift (let? wd := py_getitem data ⟪"wind"⟫ in py_getitem wd ⟪"speed"⟫) ;;
            emit (Answer (py_capitalize (Digest.fmt_opt city) ++ [10] ++ ⟪"Температура: "⟫
                          ++ py_str temp ++ ⟪" C"⟫ ++ [10] ++ ⟪"Ветер: "⟫ ++ py_str wind
                          ++ ⟪" m/s"⟫) false)
        end
      else emit (Answer bad_city false)
  end.

(** The rest of the handler, after its FSM calls. *)
Definition perform (a : action) : M unit :=
  match a with
  | Greet => for_each start_messages (fun t => emit (Answer t false))
  | Prompt p => emit (Answer p false)
  | RunJob keyword => Handlers.job_digest (Digest.fmt_opt keyword)
  | RunSkills keyword => Handlers.skills_chart (Digest.fmt_opt keyword)
  | RunWeather city => weather city
  | Unhandled => ret tt
  end.

(** One update, handled to the end: the storage after it, and the
    events and outcome of its handler. *)
Definition handle {S} `{!Storage S} (bot : text) (s : S) (m : message) : S * M unit :=
  let (s', out) := route bot s m in
  (s', match out with Ok a => perform a | Err e => raise e end).

(** ** Reachable storages *)

(** The storages a run of the bot can reach from the empty storage, one
    update at a time. *)
Inductive reachable {S} `{!Storage S} (bot : text) : S -> Prop :=
| reach_init : reachable bot storage_empty
| reach_step s m : reachable bot s -> reachable bot (fst (route bot s m)).

(** ** Example updates *)

Definition demo_bot := ⟪"herald_bot"⟫.

(** A text message of user 2 in chat 1. *)
Definition demo_msg (t : option text) : message := mk_message 1 2 t None.

(** The storage after [/job] from user 2 in chat 1. *)
Definition demo_after_job : gmap (Z * Z) fsm_record :=
  fst (route demo_bot storage_empty (demo_msg (Some ⟪"/job"⟫))).

(** The storage after [/key_skills] from user 2 in chat 1. *)
Definition demo_after_key_skills : gmap (Z * Z) fsm_record :=
  fst (route demo_bot storage_empty (demo_msg (Some ⟪"/key_skills"⟫))).

(** A weather service that answers every request with [body]. *)
Definition demo_weather_world (ok : bool) (body : json) : world :=
  mk_world (fun _ => Responded (mk_response ok (Some body))) (fun l => seq 0 (length l)).

Definition demo_weather_body : json :=
  JObj [(⟪"main"⟫, JObj [(⟪"temp"⟫, JInt 12)]); (⟪"wind"⟫, JObj [(⟪"speed"⟫, JInt 3)])].

(** ** Lemmas *)

Lemma is_command_name bot n1 n2 m :
  is_command bot n1 m = true -> is_command bot n2 m = true -> n1 = n2.
Proof.
  unfold is_command. destruct (command_text m) as [t|]; [|discriminate].
  destruct (first_word t) as [|p rest]; [discriminate|]. destruct (partition_at rest) as [cmd mention].
  intros H1 H2. apply andb_true_iff in H1 as [[_ H1]%andb_true_iff _].
  apply andb_true_iff in H2 as [[_ H2]%andb_true_iff _].
  destruct (text_eqb_spec cmd n1), (text_eqb_spec cmd n2); congruence.
Qed.

Lemma read_field_ok field m r k :
  read_field field m r k = (empty_record, Ok (k (msg_text m))).
Proof. unfold read_field. rewrite lookup_insert_eq. reflexivity. Qed.

Lemma not_other_command bot n1 n2 m :
  n1 <> n2 -> is_command bot n1 m = true -> is_command bot n2 m = false.
Proof.
  intros Hne H1. destruct (is_command bot n2 m) eqn:E; [|reflexivity].
  exfalso. exact (Hne (is_command_name _ _ _ _ H1 E)).
Qed.

#[export] Instance memory_storage_laws : StorageLaws (gmap (Z * Z) fsm_record).
Proof.
  split; cbn [get_record set_record storage_empty memory_storage].
  - intros k. rewrite lookup_empty. reflexivity.
  - intros s k r. rewrite lookup_insert_eq. reflexivity.
  - intros s k k' r Hne. rewrite lookup_insert_ne by exact Hne. reflexivity.
Qed.

(** The theorems below hold for every storage with the laws of
    [StorageLaws]; [memory_storage] is one. *)
Section Conversation.
Context {S : Type} `{!Storage S} `{!StorageLaws S}.

Lemma route_select bot (s : S) m h :
  select_handler bot (rec_state (get_record s (storage_key m))) m = Some h ->
  route bot s m =
  (set_record s (storage_key m) (fst (fsm_step h m (get_record s (storage_key m)))),
   snd (fsm_step h m (get_record s (storage_key m)))).
Proof. intros H. unfold route. rewrite H. destruct (fsm_step _ _ _). reflexivity. Qed.

(** The FSM calls of the handler the router selected. *)
Ltac fsm_simpl := cbn [fsm_step]; unfold cmd_enter_keyword_1, cmd_job_fsm, cmd_enter_city, cmd_weather_fsm, cmd_enter_keyword_2, cmd_enter_count_fsm.
Ltac fsm_simpl_in := cbn [fsm_step] in *; unfold cmd_enter_keyword_1, cmd_job_fsm, cmd_enter_city, cmd_weather_fsm, cmd_enter_keyword_2, cmd_enter_count_fsm in *.

Ltac select_simpl :=
  unfold select_handler; cbn [find registered handler_filter];
  repeat match goal with
  | H : rec_state _ = _ |- _ => rewrite H
  | H : is_command _ _ _ = _ |- _ => rewrite H
  end;
  cbn [state_is]; rewrite ?bool_decide_eq_true_2, ?bool_decide_eq_false_2 by congruence;
  reflexivity.

(** The message that answers the keyword prompt of [/job] (neither
    [/start] nor [/job]) is read by [cmd_job]. *)
Lemma route_keyword_1 bot (s : S) m :
  rec_state (get_record s (storage_key m)) = Some Job_keyword_1 ->
  is_command bot ⟪"start"⟫ m = false -> is_command bot ⟪"job"⟫ m = false ->
  route bot s m = (set_record s (storage_key m) empty_record, Ok (RunJob (msg_text m))).
Proof.
  intros Hst Hs Hj. rewrite (route_select bot s m Cmd_job) by select_simpl.
  fsm_simpl. rewrite read_field_ok. reflexivity.
Qed.

(** [/job] from a pair without state: the prompt, and [Job.keyword_1]. *)
Lemma route_job_command bot (s : S) m :
  rec_state (get_record s (storage_key m)) = None -> is_command bot ⟪"job"⟫ m = true ->
  route bot s m = (set_record s (storage_key m)
                     (mk_record (Some Job_keyword_1) (rec_data (get_record s (storage_key m)))),
                   Ok (Prompt keyword_prompt)).
Proof.
  intros Hst Hjob.
  assert (Hs : is_command bot ⟪"start"⟫ m = false)
    by (apply (not_other_command bot ⟪"job"⟫); [discriminate | exact Hjob]).
  rewrite (route_select bot s m Cmd_enter_keyword_1) by select_simpl. reflexivity.
Qed.

Lemma handle_route bot (s : S) m :
  handle bot s m = (fst (route bot s m), match snd (route bot s m) with
                                         | Ok a => perform a | Err e => raise e end).
Proof. unfold handle. destruct (route bot s m). reflexivity. Qed.

(** ** Properties of the conversation *)

(** [C19] The two-step flow of [/job]: from a pair without state, [/job]
    prompts for the keyword and moves to [Job.keyword_1]; the next message
    of that pair that is not [/start] or [/job] is taken as the keyword
    ([message.text], [None] for a message without text), the state and
    the data are cleared, and the search starts. *)
Theorem job_conversation bot (s : S) m1 m2 :
  storage_key m2 = storage_key m1 ->
  rec_state (get_record s (storage_key m1)) = None ->
  is_command bot ⟪"job"⟫ m1 = true ->
  is_command bot ⟪"start"⟫ m2 = false -> is_command bot ⟪"job"⟫ m2 = false ->
  snd (route bot s m1) = Ok (Prompt keyword_prompt) /\
  route bot (fst (route bot s m1)) m2
    = (set_record (fst (route bot s m1)) (storage_key m1) empty_record, Ok (RunJob (msg_text m2))).
Proof.
  intros Hk Hst Hjob Hs2 Hj2. rewrite (route_job_command bot s m1 Hst Hjob). cbn [fst snd].
  split; [reflexivity|]. rewrite route_keyword_1, Hk; [reflexivity | | exact Hs2 | exact Hj2].
  rewrite Hk, get_set_eq. reflexivity.
Qed.

(** [C20] Whether a command sent while the bot waits for a keyword is a
    command depends on the registration order: in [Job.keyword_1],
    [/weather] is taken as the keyword of [cmd_job] (registered before
    [cmd_enter_city]); in [Job.keyword_2], [/weather] opens the city
    prompt ([cmd_enter_count] is registered after it). *)
Theorem weather_command_during_prompt bot (s : S) m :
  is_command bot ⟪"weather"⟫ m = true ->
  (rec_state (get_record s (storage_key m)) = Some Job_keyword_1 ->
     snd (route bot s m) = Ok (RunJob (msg_text m))) /\
  (rec_state (get_record s (storage_key m)) = Some Job_keyword_2 ->
     snd (route bot s m) = Ok (Prompt city_prompt)).
Proof.
  intros Hw.
  assert (Hs : is_command bot ⟪"start"⟫ m = false)
    by (apply (not_other_command bot ⟪"weather"⟫); [discriminate | exact Hw]).
  assert (Hj : is_command bot ⟪"job"⟫ m = false)
    by (apply (not_other_command bot ⟪"weather"⟫); [discriminate | exact Hw]).
  split; intros Hst.
  - rewrite (route_keyword_1 bot s m Hst Hs Hj). reflexivity.
  - rewrite (route_select bot s m Cmd_enter_city) by select_simpl. reflexivity.
Qed.

Lemma fsm_step_data h m r :
  rec_data r = ∅ -> rec_data (fst (fsm_step h m r)) = ∅.
Proof. intros H. destruct h; fsm_simpl; rewrite ?read_field_ok; exact H || reflexivity. Qed.

(** [C21] In every storage a run can reach, every record has empty data:
    a keyword or a city never stays in the storage once its handler has
    read it. *)
Theorem reachable_data_empty bot (s : S) :
  reachable bot s -> forall k, rec_data (get_record s k) = ∅.
Proof.
  induction 1 as [|s m _ IH]; intros k; [rewrite get_empty; reflexivity|].
  unfold route. destruct (select_handler _ _ _) as [h|]; [|exact (IH k)].
  destruct (fsm_step h m (get_record s (storage_key m))) as [r' out] eqn:E. cbn [fst].
  destruct (decide (k = storage_key m)) as [->|Hne].
  - rewrite get_set_eq.
    replace r' with (fst (fsm_step h m (get_record s (storage_key m)))) by (rewrite E; reflexivity).
    apply fsm_step_data, IH.
  - rewrite get_set_ne by congruence. apply IH.
Qed.

(** [C22] Once a keyword or a city has been read, the pair is back to no
    state with empty data, before the search starts. *)
Theorem route_clears_after_read bot (s : S) m a :
  snd (route bot s m) = Ok a ->
  (exists kw, a = RunJob kw \/ a = RunSkills kw \/ a = RunWeather kw) ->
  get_record (fst (route bot s m)) (storage_key m) = empty_record.
Proof.
  intros Ha [kw Hkw]. unfold route in *. destruct (select_handler _ _ _) as [h|].
  - destruct h; fsm_simpl_in; rewrite ?read_field_ok in *; simpl in *;
      rewrite get_set_eq; try reflexivity;
      inv Ha; destruct Hkw as [H|[H|H]]; discriminate.
  - inv Ha. destruct Hkw as [H|[H|H]]; discriminate.
Qed.

(** [C23] [cmd_weather] once the city is read: on an [ok] response it
    answers the capitalized city, ["Температура: <temp> C"] and
    ["Ветер: <speed> m/s"]; otherwise it answers
    ['Некорректное название города'] without reading the body. *)
Theorem weather_answers city w data main wd temp speed body :
  (http_get w (weather_url (Digest.fmt_opt city)) = Responded (mk_response true (Some data)) ->
   py_getitem data ⟪"main"⟫ = Ok main -> py_getitem main ⟪"temp"⟫ = Ok temp ->
   py_getitem data ⟪"wind"⟫ = Ok wd -> py_getitem wd ⟪"speed"⟫ = Ok speed ->
   weather city w =
   ([Get (weather_url (Digest.fmt_opt city));
     Answer (py_capitalize (Digest.fmt_opt city) ++ [10] ++ ⟪"Температура: "⟫ ++ py_str temp
             ++ ⟪" C"⟫ ++ [10] ++ ⟪"Ветер: "⟫ ++ py_str speed ++ ⟪" m/s"⟫) false], Ok tt)) /\
  (http_get w (weather_url (Digest.fmt_opt city)) = Responded (mk_response false body) ->
   weather city w = ([Get (weather_url (Digest.fmt_opt city)); Answer bad_city false], Ok tt)).
Proof.
  split.
  - intros Hget Hmain Htemp Hwind Hspeed. unfold weather, bind, emit, ask, lift. rewrite Hget.
    cbn [resp_ok resp_body rbind]. rewrite Hmain. cbn [rbind]. rewrite Htemp, Hwind.
    cbn [rbind]. rewrite Hspeed. reflexivity.
  - intros Hget. unfold weather, bind, emit, ask. rewrite Hget. reflexivity.
Qed.

(** [C24] A message without text (a photo, a sticker) sent while the bot
    waits for the keyword of [/job] is taken as the keyword [None], and
    the handler searches hh.ru for the text ["None"]. *)
Theorem textless_keyword_searches_none bot (s : S) m w :
  msg_text m = None -> rec_state (get_record s (storage_key m)) = Some Job_keyword_1 ->
  is_command bot ⟪"start"⟫ m = false -> is_command bot ⟪"job"⟫ m = false ->
  snd (route bot s m) = Ok (RunJob None) /\
  hd_error (fst (perform (RunJob None) w)) = Some (Get (Handlers.search_url ⟪"None"⟫ 30)).
Proof.
  intros Htext Hst Hs Hj. split.
  - rewrite (route_keyword_1 bot s m Hst Hs Hj), Htext. reflexivity.
  - cbn [perform Digest.fmt_opt]. apply Handlers.job_digest_first_event.
Qed.

(** [C30] The conversation drives [cmd_job] end to end: from a pair
    without state, handling [/job] sends the keyword prompt and nothing
    else, and handling the next message of the pair (neither [/start] nor
    [/job]) runs the whole search and digest of [Handlers.job_digest] for
    [str(message.text)]. *)
Theorem job_conversation_runs_digest bot (s : S) m1 m2 w :
  storage_key m2 = storage_key m1 ->
  rec_state (get_record s (storage_key m1)) = None ->
  is_command bot ⟪"job"⟫ m1 = true ->
  is_command bot ⟪"start"⟫ m2 = false -> is_command bot ⟪"job"⟫ m2 = false ->
  snd (handle bot s m1) w = ([Answer keyword_prompt false], Ok tt) /\
  snd (handle bot (fst (handle bot s m1)) m2) w
    = Handlers.job_digest (Digest.fmt_opt (msg_text m2)) w.
Proof.
  intros Hk Hst Hjob Hs2 Hj2. rewrite !handle_route, (route_job_command bot s m1 Hst Hjob).
  cbn [fst snd perform]. split; [reflexivity|].
  rewrite route_keyword_1; [reflexivity | | exact Hs2 | exact Hj2].
  rewrite Hk, get_set_eq. reflexivity.
Qed.

End Conversation.

(** ** Witnesses *)

Lemma job_conversation_witness :
  snd (route demo_bot (storage_empty (S := gmap (Z * Z) fsm_record)) (demo_msg (Some ⟪"/job"⟫)))
    = Ok (Prompt keyword_prompt) /\
  route demo_bot demo_after_job (demo_msg (Some ⟪"python"⟫))
    = (set_record demo_after_job (1, 2) empty_record, Ok (RunJob (Some ⟪"python"⟫))).
Proof.
  apply (job_conversation demo_bot storage_empty (demo_msg (Some ⟪"/job"⟫)) (demo_msg (Some ⟪"python"⟫)));
    vm_compute; reflexivity.
Defined.

Lemma weather_command_during_prompt_witness :
  snd (route demo_bot demo_after_job (demo_msg (Some ⟪"/weather"⟫)))
    = Ok (RunJob (Some ⟪"/weather"⟫)) /\
  snd (route demo_bot demo_after_key_skills (demo_msg (Some ⟪"/weather"⟫))) = Ok (Prompt city_prompt).
Proof.
  split.
  - apply (weather_command_during_prompt demo_bot demo_after_job (demo_msg (Some ⟪"/weather"⟫)));
      vm_compute; reflexivity.
  - apply (weather_command_during_prompt demo_bot demo_after_key_skills
             (demo_msg (Some ⟪"/weather"⟫))); vm_compute; reflexivity.
Defined.

Lemma reachable_data_empty_witness :
  rec_data (get_record demo_after_job (1, 2)) = ∅.
Proof.
  apply (reachable_data_empty demo_bot demo_after_job
           (reach_step demo_bot storage_empty (demo_msg (Some ⟪"/job"⟫)) (reach_init demo_bot)) (1, 2)).
Defined.

Lemma route_clears_after_read_witness :
  get_record (fst (route demo_bot demo_after_job (demo_msg (Some ⟪"python"⟫)))) (1, 2) = empty_record.
Proof.
  apply (route_clears_after_read demo_bot demo_after_job (demo_msg (Some ⟪"python"⟫))
           (RunJob (Some ⟪"python"⟫))).
  - vm_compute. reflexivity.
  - exists (Some ⟪"python"⟫). left. reflexivity.
Defined.

Lemma weather_answers_witness :
  weather (Some ⟪"москва"⟫) (demo_weather_world true demo_weather_body) =
  ([Get (weather_url ⟪"москва"⟫);
    Answer (⟪"Москва"⟫ ++ [10] ++ ⟪"Температура: "⟫ ++ ⟪"12"⟫ ++ ⟪" C"⟫ ++ [10] ++ ⟪"Ветер: "⟫
            ++ ⟪"3"⟫ ++ ⟪" m/s"⟫) false], Ok tt) /\
  weather (Some ⟪"москва"⟫) (demo_weather_world false JNull)
  = ([Get (weather_url ⟪"москва"⟫); Answer bad_city false], Ok tt).
Proof.
  split.
  - refine (proj1 (weather_answers (Some ⟪"москва"⟫) (demo_weather_world true demo_weather_body)
             demo_weather_body (JObj [(⟪"temp"⟫, JInt 12)]) (JObj [(⟪"speed"⟫, JInt 3)])
             (JInt 12) (JInt 3) None) _ _ _ _ _); vm_compute; reflexivity.
  - refine (proj2 (weather_answers (Some ⟪"москва"⟫) (demo_weather_world false JNull)
             JNull JNull JNull JNull JNull (Some JNull)) _); vm_compute; reflexivity.
Defined.

Lemma job_conversation_runs_digest_witness :
  snd (handle demo_bot (storage_empty (S := gmap (Z * Z) fsm_record)) (demo_msg (Some ⟪"/job"⟫)))
      Handlers.demo_failing_world = ([Answer keyword_prompt false], Ok tt) /\
  snd (handle demo_bot demo_after_job (demo_msg (Some ⟪"python"⟫))) Handlers.demo_failing_world
    = Handlers.job_digest (Digest.fmt_opt (Some ⟪"python"⟫)) Handlers.demo_failing_world.
Proof.
  apply (job_conversation_runs_digest demo_bot storage_empty (demo_msg (Some ⟪"/job"⟫))
           (demo_msg (Some ⟪"python"⟫)) Handlers.demo_failing_world); vm_compute; reflexivity.
Defined.

Lemma textless_keyword_searches_none_witness :
  snd (route demo_bot demo_after_job (demo_msg None)) = Ok (RunJob None) /\
  hd_error (fst (perform (RunJob None) (demo_weather_world true JNull)))
  = Some (Get (Handlers.search_url ⟪"None"⟫ 30)).
Proof.
  apply (textless_keyword_searches_none demo_bot demo_after_job (demo_msg None)
           (demo_weather_world true JNull)); vm_compute; reflexivity.
Defined.

End Router.
