(* ===== verification/Concurrency.v ===== *)
(** * Concurrent handler runs: the pyplot figure and [img/diagram.png]

    aiogram handles updates concurrently on one asyncio loop: a handler
    runs until it awaits (a GET, [message.answer], [answer_photo]) and
    another one may run meanwhile.  Lines 203-205 of [cmd_enter_count]
    ([plt.pie], [plt.savefig('img/diagram.png')], [plt.clf()]) contain no
    await, so they run as one atomic step on pyplot's global figure; the
    file they write is read by [message.answer_photo(FSInputFile(...))]
    (lines 207-208) only when the photo is sent, after an await.

    The events of each run are those of its sequential run in [M]
    ([Handlers.skills_chart], [Handlers.job_digest]); a schedule says which
    run performs its next event.  The shared state is the current figure
    and the files.  [deliveries] is the specification of what is sent:
    each photo is the chart last saved to its path before the photo is
    sent, in the global order of the events. *)

From Stdlib Require Import String.
From Stdlib Require Import List ZArith Lia Bool Permutation.
From stdpp Require Import gmap.
From S2P Require Import Prelude NumberFormat Json Effects KeySkills Digest SkillRank Handlers.
Import ListNotations.
Import Py Eff.
Local Open Scope Z_scope.

Module Conc.

(** ** pyplot and the file system *)

Record shared : Type := mk_shared {
  figure : list slice;                (** the wedges of pyplot's current figure *)
  files : gmap text (list slice)      (** the chart stored at each path *)
}.

Inductive plt_op : Type :=
| Pie (chart : list slice)   (** [plt.pie(values, labels=labels, ...)]: wedges added to the figure *)
| Savefig (path : text)      (** [plt.savefig(path)]: the current figure written to [path] *)
| Clf.                       (** [plt.clf()]: the figure cleared *)

Definition plt_step (s : shared) (op : plt_op) : shared :=
  match op with
  | Pie c => mk_shared (figure s ++ c) (files s)
  | Savefig p => mk_shared (figure s) (<[p := figure s]> (files s))
  | Clf => mk_shared [] (files s)
  end.

(** Lines 203-205. *)
Definition chart_ops (p : text) (c : list slice) : list plt_op := [Pie c; Savefig p; Clf].

(** A photo sent: the chat and the chart read from the file ([None]:
    no such file). *)
Definition photo := (Z * option (list slice))%type.

(** One event of a run on the shared state, and the photo it sends. *)
Definition event_step (chat : Z) (e : event) (s : shared) : shared * list photo :=
  match e with
  | SaveChart p c => (fold_left plt_step (chart_ops p c) s, [])
  | AnswerPhoto p => (s, [(chat, files s !! p)])
  | _ => (s, [])
  end.

(** ** Interleaved runs *)

(** The runs (each the chat it answers and the events it has left), the
    events performed so far in their global order, and the photos sent. *)
Record conf : Type := mk_conf {
  sh : shared;
  threads : list (Z * list event);
  trace : list (Z * event);
  photos : list photo
}.

Definition start (ts : list (Z * list event)) : conf := mk_conf (mk_shared [] ∅) ts [] [].

(** Run [i] performs its next event (nothing when it has finished). *)
Definition sched_step (c : conf) (i : nat) : conf :=
  match threads c !! i with
  | Some (chat, e :: rest) =>
      let (s', out) := event_step chat e (sh c) in
      mk_conf s' (<[i := (chat, rest)]> (threads c)) (trace c ++ [(chat, e)]) (photos c ++ out)
  | _ => c
  end.

Definition run_schedule (c : conf) (sched : list nat) : conf := fold_left sched_step sched c.

(** Each run in turn, to its end, from run [i]. *)
Fixpoint sequential_from (i : nat) (ts : list (Z * list event)) : list nat :=
  match ts with
  | [] => []
  | (_, evs) :: rest => repeat i (length evs) ++ sequential_from (S i) rest
  end.

Definition sequential (ts : list (Z * list event)) : list nat := sequential_from 0 ts.

(** ** The specification *)

(** The chart of the last [SaveChart p] of a trace. *)
Definition last_save (p : text) (tr : list (Z * event)) : option (list slice) :=
  fold_left (fun acc '(_, e) =>
               match e with SaveChart q c => if text_eqb q p then Some c else acc | _ => acc end)
            tr None.

(** The photo an event sends after the events [prev]: the chart last
    saved to its path. *)
Definition photo_of (chat : Z) (e : event) (prev : list (Z * event)) : list photo :=
  match e with AnswerPhoto p => [(chat, last_save p prev)] | _ => [] end.

(** The photos a trace sends when each photo is the chart last saved to
    its path before it. *)
Fixpoint deliveries_from (prev tr : list (Z * event)) : list photo :=
  match tr with
  | [] => []
  | (chat, e) :: rest => photo_of chat e prev ++ deliveries_from (prev ++ [(chat, e)]) rest
  end.

Definition deliveries (tr : list (Z * event)) : list photo := deliveries_from [] tr.

(** The chart a run saved last ([None]: it saved none). *)
Definition chart_of (evs : list event) : option (list slice) :=
  last_save Handlers.diagram_path (map (pair 0) evs).

(** Events that neither touch the figure nor send a photo. *)
Definition quiet (e : event) : bool :=
  match e with SaveChart _ _ | AnswerPhoto _ => false | _ => true end.

Definition quiet_run {A} (c : M A) : Prop := forall w, Forall (fun e => quiet e = true) (fst (c w)).

(** The runs of [cmd_enter_count], each with the chat it answers, its
    keyword and its world. *)
Definition chart_threads (runs : list (Z * text * world)) : list (Z * list event) :=
  map (fun '(chat, kw, w) => (chat, fst (Handlers.skills_chart kw w))) runs.

(** The invariant of the interleaved runs. *)
Definition conf_inv (c : conf) : Prop :=
  figure (sh c) = [] /\ (forall p, files (sh c) !! p = last_save p (trace c)) /\
  photos c = deliveries (trace c).

(** ** Example runs *)

(** Two runs of [cmd_enter_count] with the keyword ["python"]: the first
    finds the three vacancies of [Handlers.demo_items], the second only
    the first of them, so their charts differ. *)
Definition demo_world_a : world := Handlers.demo_world true Handlers.demo_body [].

Definition demo_world_b : world :=
  Handlers.demo_world true (JObj [(⟪"items"⟫, JArr [Handlers.demo_vacancy "1"])]) [].

Definition demo_runs : list (Z * text * world) :=
  [(1, Handlers.demo_keyword, demo_world_a); (2, Handlers.demo_keyword, demo_world_b)].

Definition demo_threads : list (Z * list event) := chart_threads demo_runs.

(** ** The shared state *)

Lemma last_save_snoc p tr chat e :
  last_save p (tr ++ [(chat, e)]) =
  match e with SaveChart q c => if text_eqb q p then Some c else last_save p tr | _ => last_save p tr end.
Proof. unfold last_save. rewrite fold_left_app. reflexivity. Qed.

Lemma deliveries_from_app prev tr1 tr2 :
  deliveries_from prev (tr1 ++ tr2) = deliveries_from prev tr1 ++ deliveries_from (prev ++ tr1) tr2.
Proof.
  revert prev. induction tr1 as [|[chat e] tr1 IH]; intros prev; simpl.
  - rewrite app_nil_r. reflexivity.
  - rewrite IH, <- app_assoc, <- app_assoc. reflexivity.
Qed.

Lemma deliveries_snoc tr chat e :
  deliveries (tr ++ [(chat, e)]) = deliveries tr ++ photo_of chat e tr.
Proof. unfold deliveries. rewrite deliveries_from_app. simpl. rewrite !app_nil_r. reflexivity. Qed.

(** One event keeps the figure empty and the files equal to the charts
    last saved, and sends the photo [photo_of] says. *)
Lemma event_step_inv chat e s tr :
  figure s = [] -> (forall p, files s !! p = last_save p tr) ->
  figure (fst (event_step chat e s)) = [] /\
  (forall p, files (fst (event_step chat e s)) !! p = last_save p (tr ++ [(chat, e)])) /\
  snd (event_step chat e s) = photo_of chat e tr.
Proof.
  intros Hfig Hfiles. destruct e as [url|msg np|q c|q]; simpl; (split; [|split]);
    try reflexivity; try assumption; try (rewrite Hfiles; reflexivity);
    intros p; rewrite last_save_snoc; try apply Hfiles.
  destruct (text_eqb_spec q p) as [->|Hne].
  - rewrite lookup_insert_eq, Hfig. reflexivity.
  - rewrite lookup_insert_ne by congruence. apply Hfiles.
Qed.

Lemma start_inv ts : conf_inv (start ts).
Proof. split; [reflexivity | split; [intros p; apply lookup_empty | reflexivity]]. Qed.

Lemma sched_step_inv c i : conf_inv c -> conf_inv (sched_step c i).
Proof.
  intros (Hfig & Hfiles & Hph). unfold sched_step.
  destruct (threads c !! i) as [[chat [|e rest]]|]; try (repeat split; assumption).
  destruct (event_step_inv chat e (sh c) (trace c) Hfig Hfiles) as (H1 & H2 & H3).
  destruct (event_step chat e (sh c)) as [s' out]. cbn [fst snd] in *.
  split; [exact H1 | split; [exact H2 |]]. cbn [photos trace].
  rewrite deliveries_snoc, Hph, H3. reflexivity.
Qed.

Lemma run_schedule_inv c sched : conf_inv c -> conf_inv (run_schedule c sched).
Proof.
  revert c. induction sched as [|i sched IH]; intros c Hc; [exact Hc|].
  apply IH, sched_step_inv, Hc.
Qed.

(** ** Running one run for a while *)

Lemma run_schedule_app c s1 s2 : run_schedule c (s1 ++ s2) = run_schedule (run_schedule c s1) s2.
Proof. unfold run_schedule. apply fold_left_app. Qed.

(** Scheduling run [i] once per event of [es] performs [es]. *)
Lemma run_repeat c i chat es rest :
  threads c !! i = Some (chat, es ++ rest) ->
  threads (run_schedule c (repeat i (length es))) = <[i := (chat, rest)]> (threads c) /\
  trace (run_schedule c (repeat i (length es))) = trace c ++ map (pair chat) es.
Proof.
  revert c. induction es as [|e es IH]; intros c Hi.
  - simpl. rewrite list_insert_id by exact Hi. rewrite app_nil_r. split; reflexivity.
  - assert (Hlt : (i < length (threads c))%nat) by (apply lookup_lt_is_Some; eauto).
    assert (Hs : sched_step c i =
                 mk_conf (fst (event_step chat e (sh c))) (<[i := (chat, es ++ rest)]> (threads c))
                         (trace c ++ [(chat, e)]) (photos c ++ snd (event_step chat e (sh c)))).
    { unfold sched_step. rewrite Hi. cbn [app]. destruct (event_step chat e (sh c)). reflexivity. }
    change (run_schedule c (repeat i (length (e :: es))))
      with (run_schedule (sched_step c i) (repeat i (length es))).
    destruct (IH (sched_step c i)) as [H1 H2]; [rewrite Hs; apply list_lookup_insert_eq; exact Hlt|].
    rewrite H1, H2, Hs. cbn [threads trace]. rewrite list_insert_insert_eq, <- app_assoc.
    split; reflexivity.
Qed.

(** The runs one after the other: the trace is their events, run by run. *)
Lemma run_sequential_from ts c i :
  (forall k t, ts !! k = Some t -> threads c !! (i + k)%nat = Some t) ->
  trace (run_schedule c (sequential_from i ts))
  = trace c ++ concat (map (fun '(chat, evs) => map (pair chat) evs) ts).
Proof.
  revert c i. induction ts as [|[chat evs] ts IH]; intros c i Hts; simpl.
  - rewrite app_nil_r. reflexivity.
  - rewrite run_schedule_app.
    assert (Hi : threads c !! i = Some (chat, evs ++ [])).
    { rewrite app_nil_r, <- (Nat.add_0_r i). apply (Hts 0%nat). reflexivity. }
    destruct (run_repeat c i chat evs [] Hi) as [H1 H2].
    rewrite IH, H2, app_assoc; [reflexivity|].
    intros k t Hk. rewrite H1, list_lookup_insert_ne by lia.
    replace (S i + k)%nat with (i + S k)%nat by lia. apply Hts. exact Hk.
Qed.

(** ** The events of a run of [cmd_enter_count] *)

Create HintDb quiet discriminated.

Lemma quiet_ret {A} (a : A) : quiet_run (ret a).
Proof. intros w. constructor. Qed.

Lemma quiet_raise {A} e : quiet_run (@raise A e).
Proof. intros w. constructor. Qed.

Lemma quiet_lift {A} (r : result A) : quiet_run (lift r).
Proof. intros w. constructor. Qed.

Lemma quiet_ask : quiet_run ask.
Proof. intros w. constructor. Qed.

Lemma quiet_get url : quiet_run (emit (Get url)).
Proof. intros w. repeat constructor. Qed.

Lemma quiet_answer msg np : quiet_run (emit (Answer msg np)).
Proof. intros w. repeat constructor. Qed.

Lemma quiet_bind {A B} (c : M A) (k : A -> M B) :
  quiet_run c -> (forall a, quiet_run (k a)) -> quiet_run (bind c k).
Proof.
  intros Hc Hk w. unfold bind. specialize (Hc w).
  destruct (c w) as [ev1 [a|e]]; [|exact Hc]. specialize (Hk a w).
  destruct (k a w) as [ev2 r]. apply Forall_app; split; assumption.
Qed.

#[export] Hint Resolve quiet_ret quiet_raise quiet_lift quiet_ask quiet_get quiet_answer : quiet.

(** Splits a computation into its binds and branches. *)
Ltac quiet_solve :=
  repeat first
    [ apply quiet_bind; [| intros ?]
    | progress auto with quiet
    | match goal with
      | |- quiet_run (match ?x with _ => _ end) => destruct x
      | |- quiet_run (if ?x then _ else _) => destruct x
      end ].

Lemma search_quiet keyword page_count no_preview :
  quiet_run (Handlers.search keyword page_count no_preview).
Proof. unfold Handlers.search. quiet_solve. Qed.

Lemma quiet_gather {A} (tasks : list (M A)) order :
  Forall quiet_run tasks -> quiet_run (gather tasks order).
Proof.
  intros H w. unfold gather. cbn [fst].
  induction H as [|t ts Ht _ IH]; [constructor|]. apply Forall_app. split; [exact (Ht w) | exact IH].
Qed.

Lemma get_key_skills_quiet url : quiet_run (Fetch.get_key_skills url).
Proof. unfold Fetch.get_key_skills. quiet_solve. Qed.

Lemma fetch_all_quiet vacancies : quiet_run (Fetch.fetch_all vacancies).
Proof.
  unfold Fetch.fetch_all. quiet_solve. apply quiet_gather.
  match goal with |- Forall _ (map _ ?urls) => induction urls as [|url urls IH] end;
    constructor; [apply get_key_skills_quiet | exact IH].
Qed.

Lemma quiet_events {A} {c : M A} {w ev r} :
  quiet_run c -> c w = (ev, r) -> Forall (fun e => quiet e = true) ev.
Proof. intros Hc E. specialize (Hc w). rewrite E in Hc. exact Hc. Qed.

Lemma bind_ok_inv {A B} (c : M A) (k : A -> M B) w b :
  snd (bind c k w) = Ok b ->
  exists ev1 a, c w = (ev1, Ok a) /\ snd (k a w) = Ok b /\ fst (bind c k w) = ev1 ++ fst (k a w).
Proof.
  unfold bind. destruct (c w) as [ev1 [a|e]]; [|discriminate]. destruct (k a w) as [ev2 r] eqn:E.
  intros H. exists ev1, a. rewrite E. auto.
Qed.

(** A run of [cmd_enter_count] that returns: requests and answers, then
    the chart saved and the photo sent. *)
Lemma skills_chart_shape keyword w :
  snd (Handlers.skills_chart keyword w) = Ok tt ->
  exists pre c, fst (Handlers.skills_chart keyword w)
                = pre ++ [SaveChart Handlers.diagram_path c; AnswerPhoto Handlers.diagram_path] /\
                Forall (fun e => quiet e = true) pre.
Proof.
  intros H. unfold Handlers.skills_chart in *.
  destruct (bind_ok_inv _ _ _ _ H) as (ev1 & v & E1 & H1 & ->).
  destruct (bind_ok_inv _ _ _ _ H1) as (ev2 & ks & E2 & H2 & ->).
  destruct (bind_ok_inv _ _ _ _ H2) as (ev3 & sorted & E3 & _ & ->).
  unfold lift in E3. injection E3 as <- _.
  exists (ev1 ++ ev2), (Rank.chart_slices sorted). split.
  - rewrite <- app_assoc. reflexivity.
  - apply Forall_app. split.
    + exact (quiet_events (search_quiet _ _ _) E1).
    + exact (quiet_events (fetch_all_quiet v) E2).
Qed.

(** ** What the photos are *)

Lemma deliveries_quiet prev chat pre :
  Forall (fun e => quiet e = true) pre -> deliveries_from prev (map (pair chat) pre) = [].
Proof.
  intros H. revert prev. induction H as [|e pre He _ IH]; intros prev; [reflexivity|].
  cbn [map deliveries_from]. rewrite IH, app_nil_r. destruct e; try reflexivity; discriminate.
Qed.

(** The events of a run that saves [c] and sends it: one photo. *)
Lemma deliveries_chart_block prev chat pre p c :
  Forall (fun e => quiet e = true) pre ->
  deliveries_from prev (map (pair chat) (pre ++ [SaveChart p c; AnswerPhoto p]))
  = [(chat, last_save p (prev ++ map (pair chat) (pre ++ [SaveChart p c])))].
Proof.
  intros H. rewrite map_app, deliveries_from_app, deliveries_quiet by exact H.
  cbn. rewrite map_app, <- !app_assoc. reflexivity.
Qed.

Lemma last_save_block p tr chat pre c :
  Forall (fun e => quiet e = true) pre ->
  last_save p (tr ++ map (pair chat) (pre ++ [SaveChart p c])) = Some c.
Proof.
  intros H. rewrite map_app, app_assoc. cbn [map]. rewrite last_save_snoc, text_eqb_refl. reflexivity.
Qed.

Lemma chart_of_block pre c :
  Forall (fun e => quiet e = true) pre ->
  chart_of (pre ++ [SaveChart Handlers.diagram_path c; AnswerPhoto Handlers.diagram_path]) = Some c.
Proof.
  intros H. unfold chart_of. rewrite <- (app_nil_l (map _ _)).
  replace (pre ++ [SaveChart Handlers.diagram_path c; AnswerPhoto Handlers.diagram_path])
    with ((pre ++ [SaveChart Handlers.diagram_path c]) ++ [AnswerPhoto Handlers.diagram_path])
    by (rewrite <- app_assoc; reflexivity).
  rewrite map_app, app_assoc. cbn [map]. rewrite last_save_snoc. apply last_save_block, H.
Qed.

Lemma deliveries_save_block prev chat pre p c :
  Forall (fun e => quiet e = true) pre ->
  deliveries_from prev (map (pair chat) (pre ++ [SaveChart p c])) = [].
Proof. intros H. rewrite map_app, deliveries_from_app, deliveries_quiet by exact H. reflexivity. Qed.

(** The successful runs one after the other: each photo is the chart of
    its own run. *)
Lemma deliveries_sequential prev runs :
  Forall (fun '(_, kw, w) => snd (Handlers.skills_chart kw w) = Ok tt) runs ->
  deliveries_from prev (concat (map (fun '(chat, evs) => map (pair chat) evs) (chart_threads runs)))
  = map (fun '(chat, kw, w) => (chat, chart_of (fst (Handlers.skills_chart kw w)))) runs.
Proof.
  intros H. revert prev. induction H as [|[[chat kw] w] runs Hrun _ IH]; intros prev; [reflexivity|].
  destruct (skills_chart_shape kw w Hrun) as (pre & c & Hev & Hq).
  unfold chart_threads in *. cbn [map concat]. rewrite Hev, deliveries_from_app, IH.
  rewrite deliveries_chart_block, last_save_block, chart_of_block by exact Hq. reflexivity.
Qed.

(** Two runs that save [cA] and [cB] to the same path: the first one
    sends its photo after the second one saved its chart. *)
Lemma chart_race_trace chatA preA cA chatB preB cB p :
  Forall (fun e => quiet e = true) preA -> Forall (fun e => quiet e = true) preB ->
  let ts := [(chatA, preA ++ [SaveChart p cA; AnswerPhoto p]); (chatB, preB ++ [SaveChart p cB; AnswerPhoto p])] in
  let sched := repeat 0%nat (length (preA ++ [SaveChart p cA])) ++ repeat 1%nat (length (preB ++ [SaveChart p cB]))
               ++ repeat 0%nat (length [AnswerPhoto p]) ++ repeat 1%nat (length [AnswerPhoto p]) in
  photos (run_schedule (start ts) sched) = [(chatA, Some cB); (chatB, Some cB)].
Proof.
  intros QA QB ts sched.
  destruct (run_schedule_inv (start ts) sched (start_inv ts)) as (_ & _ & ->).
  unfold sched. rewrite !run_schedule_app.
  edestruct (run_repeat (start ts) 0 chatA (preA ++ [SaveChart p cA]) [AnswerPhoto p]) as [T1 R1].
  { cbn. rewrite <- app_assoc. reflexivity. }
  edestruct (run_repeat (run_schedule (start ts) (repeat 0%nat (length (preA ++ [SaveChart p cA])))) 1 chatB (preB ++ [SaveChart p cB]) [AnswerPhoto p]) as [T2 R2].
  { rewrite T1. cbn. rewrite <- app_assoc. reflexivity. }
  edestruct (run_repeat (run_schedule (run_schedule (start ts) (repeat 0%nat (length (preA ++ [SaveChart p cA])))) (repeat 1%nat (length (preB ++ [SaveChart p cB])))) 0 chatA [AnswerPhoto p] []) as [T3 R3].
  { rewrite T2, T1. reflexivity. }
  edestruct (run_repeat (run_schedule (run_schedule (run_schedule (start ts) (repeat 0%nat (length (preA ++ [SaveChart p cA])))) (repeat 1%nat (length (preB ++ [SaveChart p cB])))) (repeat 0%nat (length [AnswerPhoto p]))) 1 chatB [AnswerPhoto p] []) as [_ R4].
  { rewrite T3, T2, T1. reflexivity. }
  rewrite R4, R3, R2, R1. cbn [trace start]. unfold deliveries. rewrite !deliveries_from_app.
  rewrite !deliveries_save_block by assumption. cbn [deliveries_from photo_of map app].
  rewrite last_save_snoc, !last_save_block by assumption. reflexivity.
Qed.

(** ** Properties of concurrent runs *)

(** [C25] Whatever the interleaving of the runs, pyplot's figure is empty
    between events, every file holds exactly the chart last saved to it,
    and the photos sent are those of the specification [deliveries]: each
    photo is the chart last saved to its path before it is sent. *)
Theorem interleaving_refines_deliveries ts sched :
  figure (sh (run_schedule (start ts) sched)) = [] /\
  (forall p, files (sh (run_schedule (start ts) sched)) !! p
             = last_save p (trace (run_schedule (start ts) sched))) /\
  photos (run_schedule (start ts) sched) = deliveries (trace (run_schedule (start ts) sched)).
Proof. exact (run_schedule_inv (start ts) sched (start_inv ts)). Qed.

(** [C26] When the runs of [cmd_enter_count] do not overlap (each one to
    its end before the next starts), every chat receives the chart its own
    run saved. *)
Theorem sequential_runs_own_chart runs :
  Forall (fun '(_, kw, w) => snd (Handlers.skills_chart kw w) = Ok tt) runs ->
  photos (run_schedule (start (chart_threads runs)) (sequential (chart_threads runs)))
  = map (fun '(chat, kw, w) => (chat, chart_of (fst (Handlers.skills_chart kw w)))) runs.
Proof.
  intros H.
  destruct (run_schedule_inv (start (chart_threads runs)) (sequential (chart_threads runs))
              (start_inv _)) as (_ & _ & ->).
  unfold sequential. rewrite (run_sequential_from _ _ 0) by (intros k t Hk; exact Hk).
  apply deliveries_sequential, H.
Qed.

(** [C27] Two runs of [cmd_enter_count] that both succeed can be
    interleaved so that the first chat receives the chart of the second
    run: the second run overwrites [img/diagram.png] while the first one
    awaits before [answer_photo] reads it. *)
Theorem chart_race chatA kwA wA chatB kwB wB :
  snd (Handlers.skills_chart kwA wA) = Ok tt -> snd (Handlers.skills_chart kwB wB) = Ok tt ->
  exists sched,
    photos (run_schedule (start (chart_threads [(chatA, kwA, wA); (chatB, kwB, wB)])) sched)
    = [(chatA, chart_of (fst (Handlers.skills_chart kwB wB)));
       (chatB, chart_of (fst (Handlers.skills_chart kwB wB)))].
Proof.
  intros HA HB.
  destruct (skills_chart_shape kwA wA HA) as (preA & cA & EA & QA).
  destruct (skills_chart_shape kwB wB HB) as (preB & cB & EB & QB).
  unfold chart_threads. cbn [map]. rewrite EA, EB, chart_of_block by exact QB.
  eexists. exact (chart_race_trace chatA preA cA chatB preB cB _ QA QB).
Qed.

(** ** Witnesses *)

Lemma interleaving_refines_deliveries_witness :
  photos (run_schedule (start demo_threads) [0; 1; 0; 1; 0; 1; 0; 1; 0; 1; 0; 1]%nat)
  = deliveries (trace (run_schedule (start demo_threads) [0; 1; 0; 1; 0; 1; 0; 1; 0; 1; 0; 1]%nat)).
Proof.
  apply (interleaving_refines_deliveries demo_threads [0; 1; 0; 1; 0; 1; 0; 1; 0; 1; 0; 1]%nat).
Defined.

Lemma sequential_runs_own_chart_witness :
  photos (run_schedule (start demo_threads) (sequential demo_threads))
  = [(1, chart_of (fst (Handlers.skills_chart Handlers.demo_keyword demo_world_a)));
     (2, chart_of (fst (Handlers.skills_chart Handlers.demo_keyword demo_world_b)))].
Proof.
  apply (sequential_runs_own_chart demo_runs). repeat constructor; vm_compute; reflexivity.
Defined.

Lemma chart_race_witness :
  chart_of (fst (Handlers.skills_chart Handlers.demo_keyword demo_world_a))
  <> chart_of (fst (Handlers.skills_chart Handlers.demo_keyword demo_world_b)) /\
  exists sched,
    photos (run_schedule (start demo_threads) sched)
    = [(1, chart_of (fst (Handlers.skills_chart Handlers.demo_keyword demo_world_b)));
       (2, chart_of (fst (Handlers.skills_chart Handlers.demo_keyword demo_world_b)))].
Proof.
  split.
  - intros H. vm_compute in H. congruence.
  - apply (chart_race 1 Handlers.demo_keyword demo_world_a 2 Handlers.demo_keyword demo_world_b);
      vm_compute; reflexivity.
Defined.

End Conc.
