(* ===== verification/Bootstrap.v ===== *)
(** * The entry point: [HeraldBot.py]

    [main()] loads [.env] into the environment ([load_dotenv()], which
    keeps the variables already set), builds [Bot(token=os.getenv(
    'TG_TOKEN'))] (aiogram checks the token there and raises
    [TokenValidationError]), a [Dispatcher()] with its [MemoryStorage],
    includes the router of [handlers.py] and polls.  The script runs
    [main()] with [asyncio.run] and prints ['Exit'] on [KeyboardInterrupt];
    any other exception ends it with a traceback.  aiogram 3's
    [start_polling] handles SIGINT itself where the event loop supports
    signal handlers (Unix): Ctrl-C then stops polling, [main()] returns and
    nothing is printed.  Only on Windows does Ctrl-C reach lines 22-23.

    [program] is one run of the script: the updates that arrive before
    Ctrl-C are dispatched one after the other by [Router.handle] on the
    [MemoryStorage]; each gives the run of its handler in [M] (their
    interleaving is the subject of [Concurrency]). *)

From Stdlib Require Import String.
From Stdlib Require Import List ZArith Lia Bool.
From stdpp Require Import gmap.
From S2P Require Import Prelude NumberFormat Json Effects KeySkills Digest SkillRank Handlers Router.
Import ListNotations.
Import Py Eff Router.
Local Open Scope Z_scope.

Module Boot.

(** ** The environment *)

(** Environment variables and the lines of [.env], in order. *)
Definition environ := list (text * text).

(** [os.getenv(name)]: the first binding of [name], or [None]. *)
Fixpoint getenv (env : environ) (name : text) : option text :=
  match env with
  | [] => None
  | (k, v) :: rest => if text_eqb k name then Some v else getenv rest name
  end.

(** [load_dotenv()] (line 10): the variables of [.env] that are not set
    yet are added; the ones already set are kept. *)
Definition load_dotenv (env dotenv : environ) : environ :=
  env ++ List.filter (fun '(k, _) => match getenv env k with None => true | Some _ => false end) dotenv.

(** ** aiogram's token check *)

(** [token.partition(':')]: the text before the first [':'] and, when
    there is one, the text after it. *)
Fixpoint partition_colon (t : text) : text * option text :=
  match t with
  | [] => ([], None)
  | c :: r => if c =? 58 then ([], Some r) else let (a, b) := partition_colon r in (c :: a, b)
  end.

(** [validate_token(token)], called by [Bot.__init__]: a [str] without
    whitespace, of the form [<digits>:<something>].  ([str.isdigit] is
    modelled on the ASCII digits.) *)
Definition validate_token (token : option text) : bool :=
  match token with
  | None => false
  | Some t =>
      negb (existsb Router.py_isspace t) &&
      match partition_colon t with
      | (before, Some after) =>
          negb (text_eqb before []) && forallb Fmt.is_digit before && negb (text_eqb after [])
      | (_, None) => false
      end
  end.

(** ** Polling *)

(** The updates handled in arrival order by [Dispatcher] with the router
    of [handlers.py] ([dp.include_router(router)], line 14) on its
    storage: the run of the handler of each update. *)
Fixpoint polling (me : text) (s : gmap (Z * Z) fsm_record) (updates : list message) : list (M unit) :=
  match updates with
  | [] => []
  | m :: rest => let (s', run) := Router.handle me s m in run :: polling me s' rest
  end.

(** Where the script runs: [start_polling] (with its default
    [handle_signals=True]) installs its own SIGINT handler with
    [loop.add_signal_handler], which exists on Unix only. *)
Inductive platform : Type := Unix | Windows.

(** How the script ends. *)
Inductive exit_status : Type :=
| TokenInvalid     (** [TokenValidationError] out of [asyncio.run]: a traceback *)
| Stopped          (** Ctrl-C caught by [start_polling], which returns: [main()] ends normally *)
| Interrupted.     (** Ctrl-C as [KeyboardInterrupt]: [print('Exit')] (lines 22-23) *)

Record script_run : Type := mk_script_run {
  handler_runs : list (M unit);  (** the handlers of the updates, in order *)
  stdout : list text;            (** what [print] wrote *)
  status : exit_status
}.

(** What Ctrl-C does to [asyncio.run(main())] once polling runs: on Unix
    [start_polling]'s handler stops polling and [main()] returns, so the
    [except KeyboardInterrupt] of lines 22-23 is not reached; on Windows
    the signal reaches [asyncio.run] as [KeyboardInterrupt]. *)
Definition on_ctrl_c (os : platform) : list text * exit_status :=
  match os with
  | Unix => ([], Stopped)
  | Windows => ([⟪"Exit"⟫], Interrupted)
  end.

(** Lines 9-23: the script, with the platform, the environment, [.env],
    the bot's username, and the updates received before Ctrl-C. *)
Definition program (os : platform) (env dotenv : environ) (me : text) (updates : list message)
  : script_run :=
  let env' := load_dotenv env dotenv in
  if validate_token (getenv env' ⟪"TG_TOKEN"⟫)
  then let (out, st) := on_ctrl_c os in
       mk_script_run (polling me (storage_empty (S := gmap (Z * Z) fsm_record)) updates) out st
  else mk_script_run [] [] TokenInvalid.

(** ** Lemmas *)

Lemma getenv_app env1 env2 name :
  getenv (env1 ++ env2) name = match getenv env1 name with Some v => Some v | None => getenv env2 name end.
Proof.
  induction env1 as [|[k v] env1 IH]; [reflexivity|]. cbn [app getenv].
  destruct (text_eqb k name); [reflexivity | exact IH].
Qed.

(** [load_dotenv] keeps a variable that is already set. *)
Lemma getenv_load_dotenv_set env dotenv name v :
  getenv env name = Some v -> getenv (load_dotenv env dotenv) name = Some v.
Proof. intros H. unfold load_dotenv. rewrite getenv_app, H. reflexivity. Qed.

End Boot.
